(** * Vehicle health diagnostics: telemetry simulator and rule-based analyzer

    A shallow embedding of
    - [backend/analytics/health_analyzer.py]  (class [HealthAnalyzer]),
    - [backend/simulator/vehicle_simulator.py] (class [VehicleSimulator]),
    - [backend/api/vehicle_routes.py]          (route [get_alerts]),
    followed by the properties of these that the specification states.

    Conventions of the embedding.
    - A Python [float] is the rational [Q] it holds.  Comparisons are the
      exact ones, as they are in binary64.  The analyzer's subtraction,
      whose result decides an alert, is rounded to the nearest binary64
      value, ties to even ([binary64]).  The sums of the simulator are
      taken exact, which is theirs up to the last bit.  [round(x, 1)] and
      the [.1f] format round the exact value to one decimal, ties to even.
      Infinities and NaN are outside the model.
    - An [int] is a [Z]; a [str] is a [string]; a [list] is a [list].
    - [uuid.uuid4()], [random.random()] and [datetime.utcnow()] read the
      outside world: each is an oracle, an infinite supply that a call pops.
    - A function that can raise returns a [result]. *)

From Stdlib Require Import ZArith QArith Qround List String Ascii Bool.
From Stdlib Require Import Lia Lqa DecimalString.
From Stdlib Require Import Sorted Qabs.
Import ListNotations.

Set Implicit Arguments.

(** ** Numbers *)

Definition Qlt_bool (x y : Q) : bool := negb (Qle_bool y x).

(** Python's two-argument [min(a, b)] and [max(a, b)]: the first argument
    is kept unless the second is strictly smaller (resp. larger). *)
Definition py_min (a b : Q) : Q := if Qlt_bool b a then b else a.
Definition py_max (a b : Q) : Q := if Qlt_bool a b then b else a.

(** Nearest integer to [q], ties to the even one. *)
Definition round_half_even (q : Q) : Z :=
  let f := Qfloor q in
  let r := q - inject_Z f in
  if Qlt_bool r (1 # 2) then f
  else if Qlt_bool (1 # 2) r then (f + 1)%Z
  else if Z.even f then f else (f + 1)%Z.

(** [round(x, 1)] *)
Definition round1 (x : Q) : Q := round_half_even (x * 10) # 10.

(** [2 ** e] *)
Definition pow2 (e : Z) : Q := Qpower 2 e.

(** The exponent of the unit in the last place of the binary64 value
    nearest to [a], for [a > 0]: [floor(log2 a) - 52], and -1074 in the
    subnormal range. *)
Definition ulp_exponent (a : Q) : Z :=
  let k := (Z.log2 (Qnum a) - Z.log2 (Zpos (Qden a)))%Z in
  let lg := if Qle_bool (pow2 k) a then k else (k - 1)%Z in
  Z.max (lg - 52) (-1074).

(** The binary64 value nearest to [q], ties to the even significand: what
    a floating-point operation returns for the exact result [q].
    Overflow to infinity is outside the model. *)
Definition binary64 (q : Q) : Q :=
  let a := Qabs q in
  if Qle_bool a 0 then 0
  else
    let e := ulp_exponent a in
    let r := inject_Z (round_half_even (a / pow2 e)) * pow2 e in
    if Qlt_bool q 0 then - r else r.

Definition str_of_N (n : N) : string := NilZero.string_of_uint (N.to_uint n).

(** [f"{x:.1f}"] *)
Definition format_1f (x : Q) : string :=
  let n := Z.abs_N (round_half_even (x * 10)) in
  ((if Qlt_bool x 0 then "-" else "")
     ++ str_of_N (n / 10) ++ "." ++ str_of_N (n mod 10))%string.

(** [str(n)] for an [int] *)
Definition str_of_Z (n : Z) : string :=
  ((if (n <? 0)%Z then "-" else "") ++ str_of_N (Z.abs_N n))%string.

(** ** Exceptions and the oracle monad *)

Inductive exn : Type := IndexError.

Inductive result (A : Type) : Type :=
| Ok (a : A)
| Raise (e : exn).
Arguments Ok {A} a.
Arguments Raise {A} e.

(** An infinite supply of values of type [T], popped from the front. *)
Definition supply (T : Type) : Type := nat -> T.

Definition pop {T : Type} (s : supply T) : T * supply T :=
  (s O, fun n => s (S n)).

(** A computation that may pop the supply [W] and may raise. *)
Definition Py (W A : Type) : Type := W -> result (A * W).

Definition ret {W A : Type} (a : A) : Py W A := fun w => Ok (a, w).

Definition bind {W A B : Type} (m : Py W A) (k : A -> Py W B) : Py W B :=
  fun w => match m w with
           | Ok (a, w') => k a w'
           | Raise e => Raise e
           end.

Definition raise {W A : Type} (e : exn) : Py W A := fun _ => Raise e.

Declare Scope py_scope.
Delimit Scope py_scope with py.
Notation "x <- m ;; k" := (bind m (fun x => k))
  (at level 61, m at next level, right associativity) : py_scope.
Notation "m ;;; k" := (bind m (fun _ => k))
  (at level 61, right associativity) : py_scope.
Open Scope py_scope.

(** [xs[i]] for a non-negative [i] *)
Definition index {W A : Type} (xs : list A) (i : nat) : Py W A :=
  match nth_error xs i with
  | Some x => ret x
  | None => raise IndexError
  end.

(** [for x in xs: acc = body(acc, x)] *)
Fixpoint for_each {W A B : Type} (xs : list A) (body : B -> A -> Py W B)
  (acc : B) : Py W B :=
  match xs with
  | [] => ret acc
  | x :: rest => acc' <- body acc x ;; for_each rest body acc'
  end.

(** ** Data model ([backend/models/telemetry.py]) *)

(** Modelled from the spec: enum [AlertSeverity] of
    [backend/models/telemetry.py], which is not among the sources; section 3
    of the specification gives its two values. *)
Inductive AlertSeverity : Type := WARNING | CRITICAL.

(** Modelled from the spec: class [BatteryHealth] of
    [backend/models/telemetry.py], not among the sources; the fields are
    those of section 3 and of the constructor call in the simulator. *)
Module BatteryHealth.
Record t : Type := mk {
  soc : Q;
  voltage : Q;
  temperature : Q;
  health_status : string
}.
End BatteryHealth.

(** Modelled from the spec: class [TireStatus] of
    [backend/models/telemetry.py], not among the sources; the four
    pressures of section 3, named as the simulator names them. *)
Module TireStatus.
Record t : Type := mk {
  front_left : Q;
  front_right : Q;
  rear_left : Q;
  rear_right : Q
}.
End TireStatus.

(** Modelled from the spec: class [VehicleTelemetry] of
    [backend/models/telemetry.py], not among the sources; the snapshot of
    section 3, with the fields the simulator fills. *)
Module VehicleTelemetry.
Record t : Type := mk {
  timestamp : string;
  speed : Q;
  battery : BatteryHealth.t;
  tires : TireStatus.t;
  odometer : Q;
  engine_status : string
}.
End VehicleTelemetry.

(** A UUID is its 128-bit integer; [str] of it is left implicit. *)
Definition UUID : Type := N.

(** Modelled from the spec: class [AlertModel] of
    [backend/models/telemetry.py], not among the sources; the alert record
    of section 3, with the fields the analyzer fills. *)
Module AlertModel.
Record t : Type := mk {
  id : UUID;
  alert_type : string;
  severity : AlertSeverity;
  message : string;
  signal : string;
  value : Q;
  threshold : string;
  timestamp : string
}.
End AlertModel.

(** Modelled from the spec: class [SimulationStatus] of
    [backend/models/telemetry.py], not among the sources; the status of
    section 3.  [start_time] is [None] when the constructor call gives
    none, as in [stop]. *)
Module SimulationStatus.
Record t : Type := mk {
  running : bool;
  tick_count : Z;
  start_time : option string;
  message : string
}.
End SimulationStatus.

(** History entries: the dicts [{"timestamp": ..., "soc": ...}] and
    [{"timestamp": ..., "speed": ...}] of the store's two buffers. *)
Module BatteryEntry.
Record t : Type := mk { timestamp : Q; soc : Q }.
End BatteryEntry.

Module SpeedEntry.
Record t : Type := mk { timestamp : Q; speed : Q }.
End SpeedEntry.

(** What the analyzer reads of its [store] argument. *)
Module Store.
Record t : Type := mk {
  battery_history : list BatteryEntry.t;
  speed_history : list SpeedEntry.t
}.
End Store.

(** ** [HealthAnalyzer] *)

Module HealthAnalyzer.

(** The analyzer's only contact with the world: the UUID source. *)
Definition World : Type := supply UUID.

Definition uuid4 : Py World UUID := fun w => Ok (pop w).

Definition tire_map (telemetry : VehicleTelemetry.t)
  : list (string * (string * Q)) :=
  let tires := VehicleTelemetry.tires telemetry in
  [ ("tire_pressure_fl", ("Front Left", TireStatus.front_left tires));
    ("tire_pressure_fr", ("Front Right", TireStatus.front_right tires));
    ("tire_pressure_rl", ("Rear Left", TireStatus.rear_left tires));
    ("tire_pressure_rr", ("Rear Right", TireStatus.rear_right tires)) ]%string.

Definition tire_message (label : string) (pressure : Q) : string :=
  ("Possible Tire Failure: " ++ label ++ " tire pressure at "
     ++ format_1f pressure ++ " PSI (below 25 PSI threshold)")%string.

Definition _check_tire_pressure (telemetry : VehicleTelemetry.t)
  : Py World (list AlertModel.t) :=
  for_each (tire_map telemetry)
    (fun alerts '(signal_id, (label, pressure)) =>
       if Qlt_bool pressure 25 then
         u <- uuid4 ;;
         ret (alerts ++ [ {| AlertModel.id := u;
                             AlertModel.alert_type := "tire_pressure_low";
                             AlertModel.severity := CRITICAL;
                             AlertModel.message := tire_message label pressure;
                             AlertModel.signal := signal_id;
                             AlertModel.value := pressure;
                             AlertModel.threshold := "< 25 PSI";
                             AlertModel.timestamp :=
                               VehicleTelemetry.timestamp telemetry |} ])
       else ret alerts)
    [].

Definition battery_message (drop oldest_soc current_soc : Q) : string :=
  ("Battery Degradation Alert: SoC dropped " ++ format_1f drop
     ++ "% (from " ++ format_1f oldest_soc ++ "% to "
     ++ format_1f current_soc ++ "%)")%string.

Definition _check_battery_degradation (telemetry : VehicleTelemetry.t)
  (store : Store.t) : Py World (option AlertModel.t) :=
  let history := Store.battery_history store in
  if (List.length history <? 2)%nat then ret None
  else
    oldest <- index history 0 ;;
    let oldest_soc := BatteryEntry.soc oldest in
    let current_soc := BatteryHealth.soc (VehicleTelemetry.battery telemetry) in
    let drop := binary64 (oldest_soc - current_soc) in
    if Qlt_bool 5 drop then
      u <- uuid4 ;;
      ret (Some {| AlertModel.id := u;
                   AlertModel.alert_type := "battery_degradation";
                   AlertModel.severity := CRITICAL;
                   AlertModel.message :=
                     battery_message drop oldest_soc current_soc;
                   AlertModel.signal := "battery_soc";
                   AlertModel.value := current_soc;
                   AlertModel.threshold := "> 5% drop in monitoring window";
                   AlertModel.timestamp :=
                     VehicleTelemetry.timestamp telemetry |})
    else ret None.

(** [xs[-n:]] *)
Definition last_n {A : Type} (n : nat) (xs : list A) : list A :=
  skipn (List.length xs - n) xs.

Definition speed_message (current : Q) : string :=
  ("High Speed Stress Warning: Vehicle sustained speed above 100 km/h (current: "
     ++ format_1f current ++ " km/h)")%string.

Definition _check_high_speed (telemetry : VehicleTelemetry.t)
  (store : Store.t) : Py World (option AlertModel.t) :=
  let history := Store.speed_history store in
  if (List.length history <? 10)%nat then ret None
  else
    let recent := last_n 10 history in
    let all_high :=
      forallb (fun h => Qlt_bool 100 (SpeedEntry.speed h)) recent in
    if all_high then
      u <- uuid4 ;;
      ret (Some {| AlertModel.id := u;
                   AlertModel.alert_type := "high_speed_stress";
                   AlertModel.severity := WARNING;
                   AlertModel.message :=
                     speed_message (VehicleTelemetry.speed telemetry);
                   AlertModel.signal := "speed";
                   AlertModel.value := VehicleTelemetry.speed telemetry;
                   AlertModel.threshold :=
                     "> 100 km/h sustained for 10+ seconds";
                   AlertModel.timestamp :=
                     VehicleTelemetry.timestamp telemetry |})
    else ret None.

(** [if alert: alerts.append(alert)] *)
Definition append_if {A : Type} (alerts : list A) (alert : option A) : list A :=
  match alert with
  | Some a => alerts ++ [a]
  | None => alerts
  end.

Definition analyze (telemetry : VehicleTelemetry.t) (store : Store.t)
  : Py World (list AlertModel.t) :=
  let alerts := [] in
  tire <- _check_tire_pressure telemetry ;;
  let alerts := alerts ++ tire in
  alert <- _check_battery_degradation telemetry store ;;
  let alerts := append_if alerts alert in
  alert <- _check_high_speed telemetry store ;;
  let alerts := append_if alerts alert in
  ret alerts.

End HealthAnalyzer.

(** ** [VehicleSimulator] *)

Module VehicleSimulator.

(** The background [asyncio.Task] running [_simulation_loop]. *)
Inductive Task : Type := simulation_loop_task.

(** The simulator object.  [simulation] is [self.store.simulation], the
    one attribute of the store that [start] and [stop] read and write;
    the store's telemetry, history and alert buffers are written by the
    loop and never read back by the simulator, and are left out. *)
Record t : Type := mk {
  simulation : SimulationStatus.t;
  _task : option Task;
  _running : bool;
  _tick_count : Z;
  _speed : Q;
  _battery_soc : Q;
  _battery_voltage : Q;
  _battery_temp : Q;
  _tire_fl : Q;
  _tire_fr : Q;
  _tire_rl : Q;
  _tire_rr : Q;
  _odometer : Q;
  _speed_direction : Z
}.

Definition set_simulation (v : SimulationStatus.t) (self : t) : t :=
  mk v (_task self) (_running self) (_tick_count self) (_speed self)
    (_battery_soc self) (_battery_voltage self) (_battery_temp self)
    (_tire_fl self) (_tire_fr self) (_tire_rl self) (_tire_rr self)
    (_odometer self) (_speed_direction self).

Definition set_task (v : option Task) (self : t) : t :=
  mk (simulation self) v (_running self) (_tick_count self) (_speed self)
    (_battery_soc self) (_battery_voltage self) (_battery_temp self)
    (_tire_fl self) (_tire_fr self) (_tire_rl self) (_tire_rr self)
    (_odometer self) (_speed_direction self).

Definition set_running (v : bool) (self : t) : t :=
  mk (simulation self) (_task self) v (_tick_count self) (_speed self)
    (_battery_soc self) (_battery_voltage self) (_battery_temp self)
    (_tire_fl self) (_tire_fr self) (_tire_rl self) (_tire_rr self)
    (_odometer self) (_speed_direction self).

Definition set_tick_count (v : Z) (self : t) : t :=
  mk (simulation self) (_task self) (_running self) v (_speed self)
    (_battery_soc self) (_battery_voltage self) (_battery_temp self)
    (_tire_fl self) (_tire_fr self) (_tire_rl self) (_tire_rr self)
    (_odometer self) (_speed_direction self).

Definition set_speed (v : Q) (self : t) : t :=
  mk (simulation self) (_task self) (_running self) (_tick_count self) v
    (_battery_soc self) (_battery_voltage self) (_battery_temp self)
    (_tire_fl self) (_tire_fr self) (_tire_rl self) (_tire_rr self)
    (_odometer self) (_speed_direction self).

Definition set_battery_soc (v : Q) (self : t) : t :=
  mk (simulation self) (_task self) (_running self) (_tick_count self)
    (_speed self) v (_battery_voltage self) (_battery_temp self)
    (_tire_fl self) (_tire_fr self) (_tire_rl self) (_tire_rr self)
    (_odometer self) (_speed_direction self).

Definition set_battery_voltage (v : Q) (self : t) : t :=
  mk (simulation self) (_task self) (_running self) (_tick_count self)
    (_speed self) (_battery_soc self) v (_battery_temp self)
    (_tire_fl self) (_tire_fr self) (_tire_rl self) (_tire_rr self)
    (_odometer self) (_speed_direction self).

Definition set_battery_temp (v : Q) (self : t) : t :=
  mk (simulation self) (_task self) (_running self) (_tick_count self)
    (_speed self) (_battery_soc self) (_battery_voltage self) v
    (_tire_fl self) (_tire_fr self) (_tire_rl self) (_tire_rr self)
    (_odometer self) (_speed_direction self).

Definition set_tire_fl (v : Q) (self : t) : t :=
  mk (simulation self) (_task self) (_running self) (_tick_count self)
    (_speed self) (_battery_soc self) (_battery_voltage self)
    (_battery_temp self) v (_tire_fr self) (_tire_rl self) (_tire_rr self)
    (_odometer self) (_speed_direction self).

Definition set_tire_fr (v : Q) (self : t) : t :=
  mk (simulation self) (_task self) (_running self) (_tick_count self)
    (_speed self) (_battery_soc self) (_battery_voltage self)
    (_battery_temp self) (_tire_fl self) v (_tire_rl self) (_tire_rr self)
    (_odometer self) (_speed_direction self).

Definition set_tire_rl (v : Q) (self : t) : t :=
  mk (simulation self) (_task self) (_running self) (_tick_count self)
    (_speed self) (_battery_soc self) (_battery_voltage self)
    (_battery_temp self) (_tire_fl self) (_tire_fr self) v (_tire_rr self)
    (_odometer self) (_speed_direction self).

Definition set_tire_rr (v : Q) (self : t) : t :=
  mk (simulation self) (_task self) (_running self) (_tick_count self)
    (_speed self) (_battery_soc self) (_battery_voltage self)
    (_battery_temp self) (_tire_fl self) (_tire_fr self) (_tire_rl self) v
    (_odometer self) (_speed_direction self).

Definition set_odometer (v : Q) (self : t) : t :=
  mk (simulation self) (_task self) (_running self) (_tick_count self)
    (_speed self) (_battery_soc self) (_battery_voltage self)
    (_battery_temp self) (_tire_fl self) (_tire_fr self) (_tire_rl self)
    (_tire_rr self) v (_speed_direction self).

Definition set_speed_direction (v : Z) (self : t) : t :=
  mk (simulation self) (_task self) (_running self) (_tick_count self)
    (_speed self) (_battery_soc self) (_battery_voltage self)
    (_battery_temp self) (_tire_fl self) (_tire_fr self) (_tire_rl self)
    (_tire_rr self) (_odometer self) v.

(** [VehicleSimulator.__init__]; the store's initial status is [simulation0]. *)
Definition __init__ (simulation0 : SimulationStatus.t) : t :=
  {| simulation := simulation0;
     _task := None;
     _running := false;
     _tick_count := 0;
     _speed := 0;
     _battery_soc := 95;
     _battery_voltage := 400;
     _battery_temp := 25;
     _tire_fl := 32;
     _tire_fr := 315 # 10;
     _tire_rl := 318 # 10;
     _tire_rr := 322 # 10;
     _odometer := 15000;
     _speed_direction := 1 |}.

(** The simulator with the two oracles it consults: the results of
    [random.random()] to come, each in [[0, 1)], and the readings of
    [datetime.utcnow().isoformat()] to come. *)
Record World : Type := mkWorld {
  self : t;
  rng : supply Q;
  clock : supply string
}.

Definition get_self : Py World t := fun w => Ok (self w, w).

(** [self.<attribute> = v], as the setter of the attribute *)
Definition assign (f : t -> t) : Py World unit :=
  fun w => Ok (tt, mkWorld (f (self w)) (rng w) (clock w)).

Definition utcnow_isoformat : Py World string :=
  fun w => let (now, rest) := pop (clock w) in
           Ok (now, mkWorld (self w) (rng w) rest).

(** [random.random()] *)
Definition random : Py World Q :=
  fun w => let (u, rest) := pop (rng w) in
           Ok (u, mkWorld (self w) rest (clock w)).

(** [random.uniform(a, b)], which is [a + (b - a) * random()] *)
Definition uniform (a b : Q) : Py World Q :=
  u <- random ;; ret (a + (b - a) * u).

(** [random.choice(seq)]: an index below [len(seq)], here drawn as
    [floor(random() * len(seq))]. *)
Definition choice {A : Type} (seq : list A) : Py World A :=
  u <- random ;;
  index seq (Z.to_nat (Qfloor (u * inject_Z (Z.of_nat (List.length seq))))).

Definition when (c : bool) (body : Py World unit) : Py World unit :=
  if c then body else ret tt.

(** The [is_running] property *)
Definition is_running : Py World bool :=
  me <- get_self ;; ret (_running me).

Definition start : Py World SimulationStatus.t :=
  me <- get_self ;;
  if _running me then
    ret {| SimulationStatus.running := true;
           SimulationStatus.tick_count := _tick_count me;
           SimulationStatus.start_time :=
             SimulationStatus.start_time (simulation me);
           SimulationStatus.message := "Simulator already running" |}
  else
    assign (set_running true) ;;;
    assign (set_tick_count 0) ;;;
    start_time <- utcnow_isoformat ;;
    assign (set_simulation
              {| SimulationStatus.running := true;
                 SimulationStatus.tick_count := 0;
                 SimulationStatus.start_time := Some start_time;
                 SimulationStatus.message := "Simulator started" |}) ;;;
    assign (set_task (Some simulation_loop_task)) ;;;
    me <- get_self ;;
    ret (simulation me).

Definition stop : Py World SimulationStatus.t :=
  me <- get_self ;;
  if negb (_running me) then
    ret {| SimulationStatus.running := false;
           SimulationStatus.tick_count := _tick_count me;
           SimulationStatus.start_time := None;
           SimulationStatus.message := "Simulator not running" |}
  else
    assign (set_running false) ;;;
    when (match _task me with Some _ => true | None => false end)
      (assign (set_task None)) ;;;
    me <- get_self ;;
    assign (set_simulation
              {| SimulationStatus.running := false;
                 SimulationStatus.tick_count := _tick_count me;
                 SimulationStatus.start_time := None;
                 SimulationStatus.message :=
                   ("Simulator stopped after " ++ str_of_Z (_tick_count me)
                      ++ " ticks")%string |}) ;;;
    me <- get_self ;;
    ret (simulation me).

(** [max(lo, min(hi, x))] *)
Definition clamp (lo hi x : Q) : Q := py_max lo (py_min hi x).

(** The guard of the plateau: [tick_count % 50 < 15 and tick_count > 20]. *)
Definition plateau (tick_count : Z) : bool :=
  (tick_count mod 50 <? 15)%Z && (tick_count >? 20)%Z.

(** [_generate_telemetry], section "Speed simulation" *)
Definition speed_simulation : Py World unit :=
  flip <- random ;;
  when (Qlt_bool flip (5 # 100))
    (me <- get_self ;;
     assign (set_speed_direction (_speed_direction me * -1)%Z)) ;;;
  u <- uniform 1 5 ;;
  me <- get_self ;;
  let speed_delta := u * inject_Z (_speed_direction me) in
  assign (set_speed (clamp 0 140 (_speed me + speed_delta))) ;;;
  me <- get_self ;;
  when (plateau (_tick_count me))
    (v <- uniform 105 130 ;; assign (set_speed v)).

(** [_generate_telemetry], section "Battery simulation"; the result is
    the local [health_status]. *)
Definition battery_simulation : Py World string :=
  drain <- uniform (5 # 100) (2 # 10) ;;
  me <- get_self ;;
  assign (set_battery_soc (_battery_soc me - drain)) ;;;
  event <- random ;;
  when (Qlt_bool event (2 # 100))
    (drop <- uniform 5 8 ;;
     me <- get_self ;;
     assign (set_battery_soc (_battery_soc me - drop))) ;;;
  me <- get_self ;;
  assign (set_battery_soc (clamp 5 100 (_battery_soc me))) ;;;
  me <- get_self ;;
  assign (set_battery_voltage (350 + (_battery_soc me / 100) * 50)) ;;;
  noise <- uniform (-2) 5 ;;
  assign (set_battery_temp (25 + noise)) ;;;
  me <- get_self ;;
  ret (if Qlt_bool (_battery_soc me) 20 then "Low"
       else if Qlt_bool (_battery_soc me) 50 then "Fair"
       else "Good")%string.

(** [_generate_telemetry], section "Tire pressure simulation" *)
Definition tire_simulation : Py World unit :=
  d <- uniform (-1 # 10) (1 # 10) ;;
  me <- get_self ;; assign (set_tire_fl (_tire_fl me + d)) ;;;
  d <- uniform (-1 # 10) (1 # 10) ;;
  me <- get_self ;; assign (set_tire_fr (_tire_fr me + d)) ;;;
  d <- uniform (-1 # 10) (1 # 10) ;;
  me <- get_self ;; assign (set_tire_rl (_tire_rl me + d)) ;;;
  d <- uniform (-1 # 10) (1 # 10) ;;
  me <- get_self ;; assign (set_tire_rr (_tire_rr me + d)) ;;;
  event <- random ;;
  when (Qlt_bool event (1 # 100))
    (tire_choice <- choice ["fl"; "fr"; "rl"; "rr"]%string ;;
     drop <- uniform 8 15 ;;
     me <- get_self ;;
     if (tire_choice =? "fl")%string then
       assign (set_tire_fl (_tire_fl me - drop))
     else if (tire_choice =? "fr")%string then
       assign (set_tire_fr (_tire_fr me - drop))
     else if (tire_choice =? "rl")%string then
       assign (set_tire_rl (_tire_rl me - drop))
     else
       assign (set_tire_rr (_tire_rr me - drop))) ;;;
  me <- get_self ;; assign (set_tire_fl (clamp 15 40 (_tire_fl me))) ;;;
  me <- get_self ;; assign (set_tire_fr (clamp 15 40 (_tire_fr me))) ;;;
  me <- get_self ;; assign (set_tire_rl (clamp 15 40 (_tire_rl me))) ;;;
  me <- get_self ;; assign (set_tire_rr (clamp 15 40 (_tire_rr me))).

(** [_generate_telemetry], section "Odometer" *)
Definition odometer_update : Py World unit :=
  me <- get_self ;;
  assign (set_odometer (_odometer me + _speed me / 3600)).

Definition _generate_telemetry : Py World VehicleTelemetry.t :=
  speed_simulation ;;;
  health_status <- battery_simulation ;;
  tire_simulation ;;;
  odometer_update ;;;
  now <- utcnow_isoformat ;;
  me <- get_self ;;
  ret {| VehicleTelemetry.timestamp := now;
         VehicleTelemetry.speed := round1 (_speed me);
         VehicleTelemetry.battery :=
           {| BatteryHealth.soc := round1 (_battery_soc me);
              BatteryHealth.voltage := round1 (_battery_voltage me);
              BatteryHealth.temperature := round1 (_battery_temp me);
              BatteryHealth.health_status := health_status |};
         VehicleTelemetry.tires :=
           {| TireStatus.front_left := round1 (_tire_fl me);
              TireStatus.front_right := round1 (_tire_fr me);
              TireStatus.rear_left := round1 (_tire_rl me);
              TireStatus.rear_right := round1 (_tire_rr me) |};
         VehicleTelemetry.odometer := round1 (_odometer me);
         VehicleTelemetry.engine_status := "running" |}.

(** One pass of the body of [while self._running] in [_simulation_loop].
    The calls into the store and the analyzer between the two
    assignments touch neither the simulator's attributes nor the
    oracles and are left out; the pass yields the snapshot it generated. *)
Definition loop_body : Py World VehicleTelemetry.t :=
  me <- get_self ;;
  assign (set_tick_count (_tick_count me + 1)%Z) ;;;
  telemetry <- _generate_telemetry ;;
  me <- get_self ;;
  assign (set_simulation
            {| SimulationStatus.running :=
                 SimulationStatus.running (simulation me);
               SimulationStatus.tick_count := _tick_count me;
               SimulationStatus.start_time :=
                 SimulationStatus.start_time (simulation me);
               SimulationStatus.message :=
                 SimulationStatus.message (simulation me) |}) ;;;
  ret telemetry.

(** [_simulation_loop], cancelled during the sleep that follows its
    [ticks]-th pass; the result lists the snapshots generated, oldest
    first. *)
Fixpoint _simulation_loop (ticks : nat) : Py World (list VehicleTelemetry.t) :=
  match ticks with
  | O => ret []
  | S ticks' =>
      me <- get_self ;;
      if _running me then
        telemetry <- loop_body ;;
        rest <- _simulation_loop ticks' ;;
        ret (telemetry :: rest)
      else ret []
  end.

End VehicleSimulator.


(** ** [TraceabilityMapper] ([backend/traceability/mapper.py]) *)

(** [s.replace(old, new)] for a one-character [old] *)
Fixpoint str_replace (old : ascii) (new : string) (s : string) : string :=
  match s with
  | EmptyString => EmptyString
  | String c rest =>
      if Ascii.eqb c old then (new ++ str_replace old new rest)%string
      else String c (str_replace old new rest)
  end.

(** [d.get(key, default)] on a dict given by its items *)
Fixpoint dict_get {V : Type} (d : list (string * V)) (key : string)
  (default : V) : V :=
  match d with
  | [] => default
  | (k, v) :: rest => if (k =? key)%string then v else dict_get rest key default
  end.

Module TraceabilityMapper.

(** One entry of ["extracted_signals"]. *)
Record SignalEntry : Type := mkEntry {
  signal : string;
  api_endpoint : string;
  ui_component : string;
  analytics_rule : string
}.

(** One traceability entry, the dict with its five fixed keys. *)
Record Mapping : Type := mkMapping {
  requirement : string;
  extracted_signals : list SignalEntry;
  generated_services : list string;
  generated_apis : list string;
  ui_components : list string
}.

(** A blueprint: a dict whose entries are lists of strings. *)
Definition Blueprint : Type := list (string * list string).

Record t : Type := mk { _maps : list Mapping }.

Definition default_mapping : Mapping :=
  {| requirement :=
       "Monitor vehicle speed, battery SoC, and tire pressure and generate alerts on abnormal behavior.";
     extracted_signals :=
       [ {| signal := "speed";
            api_endpoint := "GET /vehicle/speed";
            ui_component := "SpeedGauge";
            analytics_rule :=
              "speed > 100 km/h sustained → High Speed Stress Warning" |};
         {| signal := "battery_soc";
            api_endpoint := "GET /vehicle/battery";
            ui_component := "BatteryIndicator";
            analytics_rule :=
              "SoC drop > 5% rapidly → Battery Degradation Alert" |};
         {| signal := "tire_pressure";
            api_endpoint := "GET /vehicle/tire-pressure";
            ui_component := "TirePressureCard";
            analytics_rule := "pressure < 25 PSI → Possible Tire Failure" |} ];
     generated_services :=
       ["health_monitoring"; "alert_service"; "simulation_service"];
     generated_apis :=
       [ "GET /vehicle/speed"; "GET /vehicle/battery";
         "GET /vehicle/tire-pressure"; "GET /vehicle/all";
         "GET /vehicle/alerts"; "POST /vehicle/simulate/start";
         "POST /vehicle/simulate/stop"; "GET /traceability/map";
         "GET /config/signals" ];
     ui_components :=
       ["SpeedGauge"; "BatteryIndicator"; "TirePressureCard"; "AlertBanner"] |}%string.

Definition _add_default_mapping (self : t) : t :=
  mk (_maps self ++ [default_mapping]).

Definition __init__ : t := _add_default_mapping (mk []).

Section Title.

(** [str.title] of Python's library, taken as it is: the mapper is
    modelled for whatever it returns. *)
Variable str_title : string -> string.

Definition _signal_to_widget (signal : string) : string :=
  let widget_map :=
    [ ("speed", "SpeedGauge");
      ("battery_soc", "BatteryIndicator");
      ("tire_pressure", "TirePressureCard") ]%string in
  dict_get widget_map signal
    (str_replace "_" "" (str_title signal) ++ "Card")%string.

Definition add_mapping (requirement : string) (blueprint : Blueprint)
  (self : t) : t :=
  let mapping :=
    {| requirement := requirement;
       extracted_signals := [];
       generated_services := dict_get blueprint "services" [];
       generated_apis := [];
       ui_components := dict_get blueprint "ui_components" [] |} in
  let mapping :=
    fold_left
      (fun mapping signal =>
         let entry :=
           {| signal := signal;
              api_endpoint :=
                ("GET /vehicle/" ++ str_replace "_" "-" signal)%string;
              ui_component := _signal_to_widget signal;
              analytics_rule := ("Auto-generated rule for " ++ signal)%string |} in
         {| requirement := TraceabilityMapper.requirement mapping;
            extracted_signals := extracted_signals mapping ++ [entry];
            generated_services := generated_services mapping;
            generated_apis := generated_apis mapping ++ [api_endpoint entry];
            ui_components := ui_components mapping |})
      (dict_get blueprint "signals" [])
      mapping in
  mk (_maps self ++ [mapping]).

End Title.

Definition get_map (self : t) : list Mapping := _maps self.

(** [self._maps[-1] if self._maps else None] *)
Definition get_latest (self : t) : option Mapping :=
  match _maps self with
  | [] => None
  | m :: rest => Some (last rest m)
  end.

End TraceabilityMapper.

(** [GET /traceability/map] of [backend/api/traceability_routes.py]. *)
Definition get_traceability_map (mapper : TraceabilityMapper.t)
  : list TraceabilityMapper.Mapping :=
  TraceabilityMapper.get_map mapper.

(** ** [backend/main.py] *)

Module main.

(** [shutdown_event]; [get_simulator()] is the simulator of the world. *)
Definition shutdown_event : Py VehicleSimulator.World unit :=
  running <- VehicleSimulator.is_running ;;
  if running then
    _ <- VehicleSimulator.stop ;; ret tt
  else ret tt.

End main.

(** ** The store and the alerts route *)

(** Modelled from the spec: class [DataStore] of
    [backend/services/data_store.py] is not among the sources.  Section 4.1
    of the specification: [append_alert(a)] appends to the bounded alert log
    (newest last), the oldest alerts being evicted beyond a configured cap;
    [get_alerts(limit)] returns the most recent [limit] alerts,
    most-recent-first. *)
Module DataStore.
Record t : Type := mk {
  max_alerts : nat;
  alerts : list AlertModel.t
}.

Definition add_alert (a : AlertModel.t) (store : t) : t :=
  let log := alerts store ++ [a] in
  mk (max_alerts store) (skipn (List.length log - max_alerts store) log).

Definition get_alerts (limit : Z) (store : t) : list AlertModel.t :=
  firstn (Z.to_nat limit) (rev (alerts store)).
End DataStore.

Module vehicle_routes.

(** What the framework answers: the handler's value, or a validation
    error when the query parameter violates its declared bounds. *)
Inductive response (A : Type) : Type :=
| HTTP_200 (body : A)
| HTTP_422.
Arguments HTTP_200 {A} body.
Arguments HTTP_422 {A}.

(** [GET /vehicle/alerts], with [limit = Query(50, ge=1, le=200)];
    [None] is the request without the parameter. *)
Definition get_alerts (limit : option Z) (store : DataStore.t)
  : response (list AlertModel.t) :=
  let limit := match limit with Some l => l | None => 50%Z end in
  if ((1 <=? limit) && (limit <=? 200))%Z
  then HTTP_200 (DataStore.get_alerts limit store)
  else HTTP_422.

End vehicle_routes.

(** * Vocabulary of the specification *)

(** ** Alerts *)

(** The four tire positions, with the signal name and the label under
    which an alert names each. *)
Inductive TirePosition : Type := FrontLeft | FrontRight | RearLeft | RearRight.

Definition positions : list TirePosition :=
  [FrontLeft; FrontRight; RearLeft; RearRight].

Definition signal_id (pos : TirePosition) : string :=
  match pos with
  | FrontLeft => "tire_pressure_fl"
  | FrontRight => "tire_pressure_fr"
  | RearLeft => "tire_pressure_rl"
  | RearRight => "tire_pressure_rr"
  end.

Definition label (pos : TirePosition) : string :=
  match pos with
  | FrontLeft => "Front Left"
  | FrontRight => "Front Right"
  | RearLeft => "Rear Left"
  | RearRight => "Rear Right"
  end.

Definition pressure_of (t : VehicleTelemetry.t) (pos : TirePosition) : Q :=
  let tires := VehicleTelemetry.tires t in
  match pos with
  | FrontLeft => TireStatus.front_left tires
  | FrontRight => TireStatus.front_right tires
  | RearLeft => TireStatus.rear_left tires
  | RearRight => TireStatus.rear_right tires
  end.

(** The alert a rule raises, but for its id. *)
Definition template : Type := UUID -> AlertModel.t.

Definition tire_alert (t : VehicleTelemetry.t) (pos : TirePosition) : template :=
  fun u =>
    {| AlertModel.id := u;
       AlertModel.alert_type := "tire_pressure_low";
       AlertModel.severity := CRITICAL;
       AlertModel.message :=
         ("Possible Tire Failure: " ++ label pos ++ " tire pressure at "
            ++ format_1f (pressure_of t pos)
            ++ " PSI (below 25 PSI threshold)")%string;
       AlertModel.signal := signal_id pos;
       AlertModel.value := pressure_of t pos;
       AlertModel.threshold := "< 25 PSI";
       AlertModel.timestamp := VehicleTelemetry.timestamp t |}.

Definition current_soc (t : VehicleTelemetry.t) : Q :=
  BatteryHealth.soc (VehicleTelemetry.battery t).

Definition battery_alert (t : VehicleTelemetry.t) (oldest_soc : Q) : template :=
  fun u =>
    {| AlertModel.id := u;
       AlertModel.alert_type := "battery_degradation";
       AlertModel.severity := CRITICAL;
       AlertModel.message :=
         ("Battery Degradation Alert: SoC dropped "
            ++ format_1f (binary64 (oldest_soc - current_soc t))
            ++ "% (from " ++ format_1f oldest_soc ++ "% to "
            ++ format_1f (current_soc t) ++ "%)")%string;
       AlertModel.signal := "battery_soc";
       AlertModel.value := current_soc t;
       AlertModel.threshold := "> 5% drop in monitoring window";
       AlertModel.timestamp := VehicleTelemetry.timestamp t |}.

Definition speed_alert (t : VehicleTelemetry.t) : template :=
  fun u =>
    {| AlertModel.id := u;
       AlertModel.alert_type := "high_speed_stress";
       AlertModel.severity := WARNING;
       AlertModel.message :=
         ("High Speed Stress Warning: Vehicle sustained speed above 100 km/h (current: "
            ++ format_1f (VehicleTelemetry.speed t) ++ " km/h)")%string;
       AlertModel.signal := "speed";
       AlertModel.value := VehicleTelemetry.speed t;
       AlertModel.threshold := "> 100 km/h sustained for 10+ seconds";
       AlertModel.timestamp := VehicleTelemetry.timestamp t |}.

(** The alerts of a list that carry a given signal name, or a given type. *)
Definition with_signal (sig : string) (alerts : list AlertModel.t) :=
  filter (fun a => (AlertModel.signal a =? sig)%string) alerts.

Definition of_type (ty : string) (alerts : list AlertModel.t) :=
  filter (fun a => (AlertModel.alert_type a =? ty)%string) alerts.

(** An alert with its id blanked: all that two alerts from two calls can
    be expected to share. *)
Definition content (a : AlertModel.t) : AlertModel.t :=
  {| AlertModel.id := 0%N;
     AlertModel.alert_type := AlertModel.alert_type a;
     AlertModel.severity := AlertModel.severity a;
     AlertModel.message := AlertModel.message a;
     AlertModel.signal := AlertModel.signal a;
     AlertModel.value := AlertModel.value a;
     AlertModel.threshold := AlertModel.threshold a;
     AlertModel.timestamp := AlertModel.timestamp a |}.

(** ** History windows *)

(** The [n] most recent entries of a buffer kept oldest first, most
    recent first. *)
Definition most_recent {A : Type} (n : nat) (history : list A) : list A :=
  firstn n (rev history).

(** The condition of the sustained-speed rule. *)
Definition sustained_high_speed (store : Store.t) : Prop :=
  (10 <= List.length (Store.speed_history store))%nat /\
  Forall (fun h => 100 < SpeedEntry.speed h)
         (most_recent 10 (Store.speed_history store)).

(** The condition of the battery rule: at least two entries, and a drop
    of more than five points from the oldest of them, whose SoC is
    [oldest_soc], to the current sample; the drop is the difference as
    the analyzer computes it, in binary64. *)
Definition battery_dropped (t : VehicleTelemetry.t) (store : Store.t)
  (oldest_soc : Q) : Prop :=
  (2 <= List.length (Store.battery_history store))%nat /\
  option_map BatteryEntry.soc (hd_error (Store.battery_history store))
    = Some oldest_soc /\
  5 < binary64 (oldest_soc - current_soc t).

(** ** Oracles *)

(** The supply left after [n] pops. *)
Fixpoint drop_supply {T : Type} (n : nat) (s : supply T) : supply T :=
  match n with
  | O => s
  | S k => drop_supply k (snd (pop s))
  end.

(** Ids given to templates in order, one pop each. *)
Fixpoint stamp (ts : list template) (w : supply UUID) : list AlertModel.t :=
  match ts with
  | [] => []
  | f :: rest => f (fst (pop w)) :: stamp rest (snd (pop w))
  end.

Definition const_supply {T : Type} (x : T) : supply T := fun _ => x.

(** Every [random.random()] to come lies in [[0, 1)]. *)
Definition rng_valid (r : supply Q) : Prop := forall n, 0 <= r n /\ r n < 1.

(** ** What each rule raises, as templates awaiting their ids *)

Definition tire_templates (t : VehicleTelemetry.t) : list template :=
  flat_map (fun pos => if Qlt_bool (pressure_of t pos) 25
                       then [tire_alert t pos] else [])
           positions.

Definition battery_templates (t : VehicleTelemetry.t) (store : Store.t)
  : list template :=
  match Store.battery_history store with
  | oldest :: _ :: _ =>
      if Qlt_bool 5 (binary64 (BatteryEntry.soc oldest - current_soc t))
      then [battery_alert t (BatteryEntry.soc oldest)] else []
  | _ => []
  end.

Definition speed_templates (t : VehicleTelemetry.t) (store : Store.t)
  : list template :=
  if (List.length (Store.speed_history store) <? 10)%nat then []
  else if forallb (fun h => Qlt_bool 100 (SpeedEntry.speed h))
                  (HealthAnalyzer.last_n 10 (Store.speed_history store))
       then [speed_alert t] else [].

Definition rule_templates (t : VehicleTelemetry.t) (store : Store.t)
  : list template :=
  tire_templates t ++ battery_templates t store ++ speed_templates t store.

(** The rules' templates carry their rule's alert type, whatever the id. *)
Definition typed (ty : string) (ts : list template) : Prop :=
  Forall (fun f => forall u, AlertModel.alert_type (f u) = ty) ts.

(** Templates that differ in nothing but the id they are given. *)
Definition id_free (ts : list template) : Prop :=
  Forall (fun f => forall u1 u2, content (f u1) = content (f u2)) ts.

(** Examples: a supply counting from zero, and stores in the shape of the
    tests' [MockStore]. *)
Definition counting : supply UUID := fun n => N.of_nat n.

Definition battery_store (socs : list Q) : Store.t :=
  {| Store.battery_history := map (BatteryEntry.mk 0) socs;
     Store.speed_history := [] |}.

Definition speed_store (speeds : list Q) : Store.t :=
  {| Store.battery_history := [];
     Store.speed_history := map (SpeedEntry.mk 0) speeds |}.

(** ** Outcomes *)

(** [m] run from [w] does not raise, and its value and final world
    satisfy [post]. *)
Definition wp {W A : Type} (m : Py W A) (w : W) (post : A -> W -> Prop) : Prop :=
  match m w with
  | Ok (a, w') => post a w'
  | Raise _ => False
  end.

(** The value of a run. *)
Definition run {W A : Type} (m : Py W A) (w : W) : result A :=
  match m w with
  | Ok (a, _) => Ok a
  | Raise e => Raise e
  end.

(** ** Telemetry *)

Definition within (lo hi x : Q) : Prop := lo <= x /\ x <= hi.

(** The clamp invariant of a snapshot. *)
Definition clamped (t : VehicleTelemetry.t) : Prop :=
  within 0 140 (VehicleTelemetry.speed t) /\
  within 5 100 (current_soc t) /\
  forall pos, within 15 40 (pressure_of t pos).

(** A snapshot for the examples: the tests' [_make_telemetry]. *)
Definition _make_telemetry (speed battery_soc tire_fl tire_fr tire_rl tire_rr : Q)
  : VehicleTelemetry.t :=
  {| VehicleTelemetry.timestamp := "2024-01-01T00:00:00";
     VehicleTelemetry.speed := speed;
     VehicleTelemetry.battery :=
       {| BatteryHealth.soc := battery_soc;
          BatteryHealth.voltage := 400;
          BatteryHealth.temperature := 25;
          BatteryHealth.health_status := "Good" |};
     VehicleTelemetry.tires :=
       {| TireStatus.front_left := tire_fl;
          TireStatus.front_right := tire_fr;
          TireStatus.rear_left := tire_rl;
          TireStatus.rear_right := tire_rr |};
     VehicleTelemetry.odometer := 0;
     VehicleTelemetry.engine_status := "running" |}.

(** ** The simulator *)

(** What no section of [_generate_telemetry] touches. *)
Definition control_kept (w w' : VehicleSimulator.World) : Prop :=
  let s := VehicleSimulator.self w in
  let s' := VehicleSimulator.self w' in
  VehicleSimulator._running s' = VehicleSimulator._running s /\
  VehicleSimulator._tick_count s' = VehicleSimulator._tick_count s /\
  VehicleSimulator.simulation s' = VehicleSimulator.simulation s /\
  VehicleSimulator._task s' = VehicleSimulator._task s.

(** One step of the speed's random walk: a change of 1 to 5 km/h, up or
    down, clamped to [[0, 140]]. *)
Definition walked (s s' : VehicleSimulator.t) : Prop :=
  exists (u : Q) (d : Z),
    within 1 5 u /\
    (d = VehicleSimulator._speed_direction s \/
     d = (VehicleSimulator._speed_direction s * -1)%Z) /\
    VehicleSimulator._speed s'
    = VehicleSimulator.clamp 0 140
        (VehicleSimulator._speed s + u * inject_Z d).

(** The physical state is within the clamps. *)
Definition state_clamped (s : VehicleSimulator.t) : Prop :=
  within 0 140 (VehicleSimulator._speed s) /\
  within 5 100 (VehicleSimulator._battery_soc s) /\
  within 15 40 (VehicleSimulator._tire_fl s) /\
  within 15 40 (VehicleSimulator._tire_fr s) /\
  within 15 40 (VehicleSimulator._tire_rl s) /\
  within 15 40 (VehicleSimulator._tire_rr s).

(** A world for the examples: a fresh simulator, every random draw 1/2. *)
Definition world0 : VehicleSimulator.World :=
  VehicleSimulator.mkWorld
    (VehicleSimulator.__init__
       (SimulationStatus.mk false 0 None "Simulator idle"))
    (const_supply (1 # 2))
    (const_supply "2024-01-01T00:00:00"%string).

(** The same simulator once running, at a given tick count. *)
Definition world_at (tick_count : Z) : VehicleSimulator.World :=
  VehicleSimulator.mkWorld
    (VehicleSimulator.set_tick_count tick_count
       (VehicleSimulator.set_running true
          (VehicleSimulator.set_task (Some VehicleSimulator.simulation_loop_task)
             (VehicleSimulator.self world0))))
    (VehicleSimulator.rng world0)
    (VehicleSimulator.clock world0).

(** The limit the alerts route works with: the query parameter, or its
    default. *)
Definition requested (limit : option Z) : Z :=
  match limit with
  | Some l => l
  | None => 50%Z
  end.

(** The alerts of a call, ids counted from zero, and how many have a type. *)
Definition alerts_of (t : VehicleTelemetry.t) (store : Store.t)
  : result (list AlertModel.t) :=
  run (HealthAnalyzer.analyze t store) counting.

Definition count_of_type (ty : string) (r : result (list AlertModel.t))
  : result nat :=
  match r with
  | Ok alerts => Ok (List.length (of_type ty alerts))
  | Raise e => Raise e
  end.

(** ** One tick, as a relation *)

(** The pressure of the tire at a position, in the simulator's state. *)
Definition tire_of (s : VehicleSimulator.t) (pos : TirePosition) : Q :=
  match pos with
  | FrontLeft => VehicleSimulator._tire_fl s
  | FrontRight => VehicleSimulator._tire_fr s
  | RearLeft => VehicleSimulator._tire_rl s
  | RearRight => VehicleSimulator._tire_rr s
  end.

(** The battery health label of a state of charge. *)
Definition health_of (soc : Q) : string :=
  if Qlt_bool soc 20 then "Low"
  else if Qlt_bool soc 50 then "Fair"
  else "Good".

(** The new direction [d] and speed [v] of a tick from state [s]. *)
Definition speed_stepped (s : VehicleSimulator.t) (d : Z) (v : Q) : Prop :=
  (d = VehicleSimulator._speed_direction s \/
   d = (VehicleSimulator._speed_direction s * -1)%Z) /\
  if VehicleSimulator.plateau (VehicleSimulator._tick_count s)
  then within 105 130 v
  else exists u,
      within 1 5 u /\
      v = VehicleSimulator.clamp 0 140
            (VehicleSimulator._speed s + u * inject_Z d).

(** The new state of charge [c] of a tick from the state of charge [soc]:
    the gradual drain, and on a rapid-drop event the drop as well. *)
Definition battery_stepped (soc c : Q) : Prop :=
  exists drain,
    within (5 # 100) (2 # 10) drain /\
    (c = VehicleSimulator.clamp 5 100 (soc - drain) \/
     exists drop,
       within 5 8 drop /\
       c = VehicleSimulator.clamp 5 100 (soc - drain - drop)).

(** The new pressure of the tire at [pos], [hit] being the tire of the
    tick's sudden drop, if there is one. *)
Definition tire_stepped (hit : option TirePosition) (pos : TirePosition)
  (old new : Q) : Prop :=
  exists d,
    within (-1 # 10) (1 # 10) d /\
    ((hit <> Some pos /\ new = VehicleSimulator.clamp 15 40 (old + d)) \/
     (hit = Some pos /\
      exists drop,
        within 8 15 drop /\
        new = VehicleSimulator.clamp 15 40 (old + d - drop))).

(** State [s'] is what one run of [_generate_telemetry] makes of [s]. *)
Definition ticked (s s' : VehicleSimulator.t) : Prop :=
  exists d v c temp fl fr rl rr hit,
    s' = VehicleSimulator.set_odometer (VehicleSimulator._odometer s + v / 3600)
           (VehicleSimulator.set_tire_rr rr
           (VehicleSimulator.set_tire_rl rl
           (VehicleSimulator.set_tire_fr fr
           (VehicleSimulator.set_tire_fl fl
           (VehicleSimulator.set_battery_temp temp
           (VehicleSimulator.set_battery_voltage (350 + c / 100 * 50)
           (VehicleSimulator.set_battery_soc c
           (VehicleSimulator.set_speed v
           (VehicleSimulator.set_speed_direction d s))))))))) /\
    speed_stepped s d v /\
    battery_stepped (VehicleSimulator._battery_soc s) c /\
    within 23 30 temp /\
    tire_stepped hit FrontLeft (VehicleSimulator._tire_fl s) fl /\
    tire_stepped hit FrontRight (VehicleSimulator._tire_fr s) fr /\
    tire_stepped hit RearLeft (VehicleSimulator._tire_rl s) rl /\
    tire_stepped hit RearRight (VehicleSimulator._tire_rr s) rr.

(** The snapshot [_generate_telemetry] returns from the state it leaves. *)
Definition snapshot_of (now : string) (s : VehicleSimulator.t)
  : VehicleTelemetry.t :=
  {| VehicleTelemetry.timestamp := now;
     VehicleTelemetry.speed := round1 (VehicleSimulator._speed s);
     VehicleTelemetry.battery :=
       {| BatteryHealth.soc := round1 (VehicleSimulator._battery_soc s);
          BatteryHealth.voltage := round1 (VehicleSimulator._battery_voltage s);
          BatteryHealth.temperature := round1 (VehicleSimulator._battery_temp s);
          BatteryHealth.health_status :=
            health_of (VehicleSimulator._battery_soc s) |};
     VehicleTelemetry.tires :=
       {| TireStatus.front_left := round1 (VehicleSimulator._tire_fl s);
          TireStatus.front_right := round1 (VehicleSimulator._tire_fr s);
          TireStatus.rear_left := round1 (VehicleSimulator._tire_rl s);
          TireStatus.rear_right := round1 (VehicleSimulator._tire_rr s) |};
     VehicleTelemetry.odometer := round1 (VehicleSimulator._odometer s);
     VehicleTelemetry.engine_status := "running" |}.

(** What holds of every state the simulator reaches from [__init__]: the
    physical values within their clamps, the direction flag 1 or -1. *)
Definition sim_inv (s : VehicleSimulator.t) : Prop :=
  state_clamped s /\
  (VehicleSimulator._speed_direction s = 1%Z \/
   VehicleSimulator._speed_direction s = (-1)%Z).

(** ** Runs of the loop *)

(** The status the loop stores at the end of a pass: the stored one with
    the tick count brought up to date. *)
Definition synced (s : VehicleSimulator.t) : SimulationStatus.t :=
  {| SimulationStatus.running :=
       SimulationStatus.running (VehicleSimulator.simulation s);
     SimulationStatus.tick_count := VehicleSimulator._tick_count s;
     SimulationStatus.start_time :=
       SimulationStatus.start_time (VehicleSimulator.simulation s);
     SimulationStatus.message :=
       SimulationStatus.message (VehicleSimulator.simulation s) |}.

(** One pass of the loop takes [s] to [s1] and yields snapshot [t]. *)
Definition passed (s s1 : VehicleSimulator.t) (t : VehicleTelemetry.t) : Prop :=
  exists s0 now,
    ticked (VehicleSimulator.set_tick_count
              (VehicleSimulator._tick_count s + 1) s) s0 /\
    s1 = VehicleSimulator.set_simulation (synced s0) s0 /\
    t = snapshot_of now s0.

(** Passes in a row, with the snapshots they yield, oldest first. *)
Inductive trace : VehicleSimulator.t -> list VehicleTelemetry.t ->
                  VehicleSimulator.t -> Prop :=
| trace_nil (s : VehicleSimulator.t) : trace s [] s
| trace_cons (s s1 s2 : VehicleSimulator.t) (t : VehicleTelemetry.t)
    (ts : list VehicleTelemetry.t) :
    passed s s1 t -> trace s1 ts s2 -> trace s (t :: ts) s2.

(** The vehicle of two states is the same: every physical value. *)
Definition same_vehicle (s s' : VehicleSimulator.t) : Prop :=
  VehicleSimulator._speed s' = VehicleSimulator._speed s /\
  VehicleSimulator._speed_direction s' = VehicleSimulator._speed_direction s /\
  VehicleSimulator._battery_soc s' = VehicleSimulator._battery_soc s /\
  VehicleSimulator._battery_voltage s' = VehicleSimulator._battery_voltage s /\
  VehicleSimulator._battery_temp s' = VehicleSimulator._battery_temp s /\
  VehicleSimulator._odometer s' = VehicleSimulator._odometer s /\
  forall pos, tire_of s' pos = tire_of s pos.

(** The status [stop] stores and returns after [n] ticks. *)
Definition stopped_status (n : Z) : SimulationStatus.t :=
  {| SimulationStatus.running := false;
     SimulationStatus.tick_count := n;
     SimulationStatus.start_time := None;
     SimulationStatus.message :=
       ("Simulator stopped after " ++ str_of_Z n ++ " ticks")%string |}.

(** ** The traceability mapper *)

(** Character [c] occurs in [s]. *)
Definition has_char (c : ascii) (s : string) : Prop :=
  In c (list_ascii_of_string s).

(** The entry [add_mapping] derives from a signal name, [title] being
    [str.title]. *)
Definition entry_for (title : string -> string) (signal : string)
  : TraceabilityMapper.SignalEntry :=
  {| TraceabilityMapper.signal := signal;
     TraceabilityMapper.api_endpoint :=
       ("GET /vehicle/" ++ str_replace "_" "-" signal)%string;
     TraceabilityMapper.ui_component :=
       TraceabilityMapper._signal_to_widget title signal;
     TraceabilityMapper.analytics_rule :=
       ("Auto-generated rule for " ++ signal)%string |}.

(** A mapper after a series of [add_mapping] calls, first call first. *)
Definition add_all (title : string -> string)
  (adds : list (string * TraceabilityMapper.Blueprint))
  (self : TraceabilityMapper.t) : TraceabilityMapper.t :=
  fold_left
    (fun m add => TraceabilityMapper.add_mapping title (fst add) (snd add) m)
    adds self.

(** The dict has no item under [key]. *)
Definition absent {V : Type} (key : string) (d : list (string * V)) : Prop :=
  forall v, ~ In (key, v) d.

(** * Properties *)

(** ** Comparisons, clamping and rounding *)

Lemma Qlt_bool_iff (x y : Q) : Qlt_bool x y = true <-> x < y.
Proof.
  unfold Qlt_bool. rewrite negb_true_iff.
  split; intro H.
  - apply Qnot_le_lt. intro Hle. apply Qle_bool_iff in Hle. congruence.
  - destruct (Qle_bool y x) eqn:E; [|reflexivity].
    apply Qle_bool_iff in E. exfalso. apply (Qlt_not_le _ _ H E).
Qed.

Lemma Qlt_bool_false_iff (x y : Q) : Qlt_bool x y = false <-> y <= x.
Proof.
  unfold Qlt_bool. rewrite negb_false_iff. apply Qle_bool_iff.
Qed.

Lemma Qlt_bool_spec (x y : Q) : reflect (x < y) (Qlt_bool x y).
Proof.
  destruct (Qlt_bool x y) eqn:E; constructor.
  - now apply Qlt_bool_iff.
  - apply Qlt_bool_false_iff in E. now apply Qle_not_lt.
Qed.

Lemma py_min_spec (a b : Q) :
  py_min a b <= a /\ py_min a b <= b /\ (py_min a b = a \/ py_min a b = b).
Proof.
  unfold py_min. destruct (Qlt_bool_spec b a) as [H|H].
  - repeat split; [lra | lra | now right].
  - repeat split; [lra | lra | now left].
Qed.

Lemma py_max_spec (a b : Q) :
  a <= py_max a b /\ b <= py_max a b /\ (py_max a b = a \/ py_max a b = b).
Proof.
  unfold py_max. destruct (Qlt_bool_spec a b) as [H|H].
  - repeat split; [lra | lra | now right].
  - repeat split; [lra | lra | now left].
Qed.

Lemma clamp_bounds (lo hi x : Q) :
  lo <= hi ->
  lo <= VehicleSimulator.clamp lo hi x <= hi.
Proof.
  intro Hle. unfold VehicleSimulator.clamp.
  destruct (py_min_spec hi x) as (Hm1 & _ & _).
  destruct (py_max_spec lo (py_min hi x)) as (HM1 & _ & [E|E]).
  - split; [exact HM1 | rewrite E; exact Hle].
  - split; [exact HM1 | rewrite E; exact Hm1].
Qed.

Lemma round_half_even_near (q : Q) :
  (Qfloor q <= round_half_even q <= Qfloor q + 1)%Z.
Proof.
  unfold round_half_even.
  destruct (Qlt_bool _ (1 # 2)); [lia|].
  destruct (Qlt_bool (1 # 2) _); [lia|].
  destruct (Z.even _); lia.
Qed.

Lemma round_half_even_Z (z : Z) : round_half_even (inject_Z z) = z.
Proof.
  unfold round_half_even. rewrite Qfloor_Z.
  destruct (Qlt_bool_spec (inject_Z z - inject_Z z) (1 # 2)) as [_|H].
  - reflexivity.
  - exfalso. apply H. lra.
Qed.

(** Rounding to the nearest integer never crosses an integer bound. *)
Lemma round_half_even_bounds (lo hi : Z) (q : Q) :
  inject_Z lo <= q <= inject_Z hi ->
  (lo <= round_half_even q <= hi)%Z.
Proof.
  intros [Hlo Hhi].
  pose proof (round_half_even_near q) as [Hn1 Hn2].
  split.
  - apply Qfloor_resp_le in Hlo. rewrite Qfloor_Z in Hlo. lia.
  - destruct (Qlt_le_dec q (inject_Z hi)) as [Hlt|Hge].
    + assert (Qfloor q < hi)%Z; [|lia].
      apply Z.lt_nge. intro Hc.
      pose proof (Qfloor_le q) as Hf.
      rewrite Zle_Qle in Hc. lra.
    + assert (Heq : q == inject_Z hi) by lra.
      assert (E : Qfloor q = hi).
      { rewrite <- (Qfloor_Z hi). apply Qfloor_comp. exact Heq. }
      unfold round_half_even. rewrite E.
      destruct (Qlt_bool_spec (q - inject_Z hi) (1 # 2)) as [_|H].
      * lia.
      * exfalso. apply H. lra.
Qed.

(** [round(x, 1)] keeps [x] between bounds that are whole numbers. *)
Lemma round1_bounds (lo hi : Z) (x : Q) :
  inject_Z lo <= x <= inject_Z hi ->
  inject_Z lo <= round1 x <= inject_Z hi.
Proof.
  intros [Hlo Hhi].
  assert (Hb : (lo * 10 <= round_half_even (x * 10) <= hi * 10)%Z).
  { apply round_half_even_bounds.
    rewrite !inject_Z_mult. change (inject_Z 10) with 10. split; lra. }
  unfold round1, Qle. simpl. lia.
Qed.

(** [binary64] at a few values: 0.1, a tie above 2 ** 53 going to the even
    significand on either side, a value that is a double already, and the
    subnormal range. *)
Example binary64_tenth :
  Qred (binary64 (1 # 10)) = 3602879701896397 # 36028797018963968.
Proof. vm_compute. reflexivity. Qed.

Example binary64_ties_to_even :
  binary64 9007199254740993 == 9007199254740992 /\
  binary64 9007199254740995 == 9007199254740996.
Proof. split; vm_compute; reflexivity. Qed.

Example binary64_keeps_doubles :
  binary64 (binary64 (644 # 10)) == binary64 (644 # 10) /\
  binary64 (-(17 # 2)) == -(17 # 2).
Proof. split; vm_compute; reflexivity. Qed.

Example binary64_subnormal :
  binary64 (3 * pow2 (-1075)) == 4 * pow2 (-1075) /\
  binary64 (pow2 (-1080)) == 0.
Proof. split; vm_compute; reflexivity. Qed.

(** ** The analyzer, rule by rule *)

Section AnalyzerRules.
Import HealthAnalyzer.

Variable t : VehicleTelemetry.t.
Variable store : Store.t.

Lemma _check_tire_pressure_eval (w : World) :
  _check_tire_pressure t w
  = Ok (stamp (tire_templates t) w, drop_supply (List.length (tire_templates t)) w).
Proof.
  unfold _check_tire_pressure, tire_templates, tire_map, positions.
  cbn [for_each flat_map pressure_of].
  unfold bind, ret, uuid4.
  destruct (Qlt_bool (TireStatus.front_left _) 25);
    destruct (Qlt_bool (TireStatus.front_right _) 25);
    destruct (Qlt_bool (TireStatus.rear_left _) 25);
    destruct (Qlt_bool (TireStatus.rear_right _) 25);
    reflexivity.
Qed.

Lemma _check_battery_degradation_eval (w : World) :
  _check_battery_degradation t store w
  = Ok (hd_error (stamp (battery_templates t store) w),
        drop_supply (List.length (battery_templates t store)) w).
Proof.
  unfold _check_battery_degradation, battery_templates, current_soc.
  destruct (Store.battery_history store) as [|oldest [|second rest]];
    try reflexivity.
  cbn [List.length Nat.ltb Nat.leb index nth_error].
  unfold bind, ret, uuid4.
  destruct (Qlt_bool 5 _); reflexivity.
Qed.

Lemma _check_high_speed_eval (w : World) :
  _check_high_speed t store w
  = Ok (hd_error (stamp (speed_templates t store) w),
        drop_supply (List.length (speed_templates t store)) w).
Proof.
  unfold _check_high_speed, speed_templates.
  destruct (List.length (Store.speed_history store) <? 10)%nat;
    [reflexivity|].
  destruct (forallb _ _); reflexivity.
Qed.

Lemma battery_templates_short : (List.length (battery_templates t store) <= 1)%nat.
Proof.
  unfold battery_templates.
  destruct (Store.battery_history store) as [|oldest [|second rest]];
    simpl; try lia.
  destruct (Qlt_bool 5 _); simpl; lia.
Qed.

Lemma speed_templates_short : (List.length (speed_templates t store) <= 1)%nat.
Proof.
  unfold speed_templates.
  destruct (_ <? _)%nat; simpl; try lia.
  destruct (forallb _ _); simpl; lia.
Qed.

Lemma tire_templates_short : (List.length (tire_templates t) <= 4)%nat.
Proof.
  unfold tire_templates, positions. cbn [flat_map].
  rewrite !length_app.
  repeat match goal with
         | |- context [if ?c then _ else _] => destruct c
         end; simpl; lia.
Qed.

End AnalyzerRules.

Lemma stamp_app (ts us : list template) (w : supply UUID) :
  stamp (ts ++ us) w = stamp ts w ++ stamp us (drop_supply (List.length ts) w).
Proof.
  revert w. induction ts as [|f ts IH]; intro w; simpl.
  - reflexivity.
  - now rewrite IH.
Qed.

Lemma drop_supply_add {T : Type} (n m : nat) (w : supply T) :
  drop_supply (n + m) w = drop_supply m (drop_supply n w).
Proof.
  revert w. induction n as [|n IH]; intro w; simpl; [reflexivity | apply IH].
Qed.

Lemma stamp_length (ts : list template) (w : supply UUID) :
  List.length (stamp ts w) = List.length ts.
Proof.
  revert w. induction ts as [|f ts IH]; intro w; simpl; [reflexivity|].
  now rewrite IH.
Qed.

Lemma stamp_short (ts : list template) (w : supply UUID) :
  (List.length ts <= 1)%nat ->
  stamp ts w = HealthAnalyzer.append_if [] (hd_error (stamp ts w)).
Proof.
  destruct ts as [|f [|g ts]]; simpl; intro H; try reflexivity; lia.
Qed.

(** [analyze] returns the alerts of the three rules, in the order tire,
    battery, speed, each with the next id of the supply. *)
Lemma analyze_eval (t : VehicleTelemetry.t) (store : Store.t)
  (w : HealthAnalyzer.World) :
  HealthAnalyzer.analyze t store w
  = Ok (stamp (rule_templates t store) w,
        drop_supply (List.length (rule_templates t store)) w).
Proof.
  unfold HealthAnalyzer.analyze, rule_templates, bind.
  rewrite _check_tire_pressure_eval.
  rewrite _check_battery_degradation_eval.
  rewrite _check_high_speed_eval.
  unfold ret. rewrite !stamp_app, !length_app, !drop_supply_add.
  f_equal. f_equal.
  set (w1 := drop_supply _ w).
  set (w2 := drop_supply _ w1).
  rewrite (stamp_short (battery_templates t store) w1)
    by apply battery_templates_short.
  rewrite (stamp_short (speed_templates t store) w2) at 2
    by apply speed_templates_short.
  destruct (hd_error (stamp (battery_templates t store) w1));
    destruct (hd_error (stamp (speed_templates t store) w2));
    simpl; rewrite ?app_nil_r, <- ?app_assoc; reflexivity.
Qed.


Lemma of_type_same (ty : string) (ts : list template) (w : supply UUID) :
  typed ty ts -> of_type ty (stamp ts w) = stamp ts w.
Proof.
  intro H. revert w. induction H as [|f ts Hf _ IH]; intro w; simpl.
  - reflexivity.
  - rewrite Hf, String.eqb_refl. f_equal. apply IH.
Qed.

Lemma of_type_other (ty ty' : string) (ts : list template) (w : supply UUID) :
  typed ty' ts -> (ty' =? ty)%string = false -> of_type ty (stamp ts w) = [].
Proof.
  intros H Hne. revert w. induction H as [|f ts Hf _ IH]; intro w; simpl.
  - reflexivity.
  - rewrite Hf, Hne. apply IH.
Qed.

Lemma tire_templates_typed (t : VehicleTelemetry.t) :
  typed "tire_pressure_low" (tire_templates t).
Proof.
  unfold typed, tire_templates, positions. cbn [flat_map].
  repeat match goal with
         | |- context [if ?c then _ else _] => destruct c
         end; simpl; repeat constructor.
Qed.

Lemma battery_templates_typed (t : VehicleTelemetry.t) (store : Store.t) :
  typed "battery_degradation" (battery_templates t store).
Proof.
  unfold typed, battery_templates.
  destruct (Store.battery_history store) as [|oldest [|second rest]];
    try constructor.
  destruct (Qlt_bool 5 _); repeat constructor.
Qed.

Lemma speed_templates_typed (t : VehicleTelemetry.t) (store : Store.t) :
  typed "high_speed_stress" (speed_templates t store).
Proof.
  unfold typed, speed_templates.
  destruct (_ <? _)%nat; try constructor.
  destruct (forallb _ _); repeat constructor.
Qed.

Lemma of_type_app (ty : string) (xs ys : list AlertModel.t) :
  of_type ty (xs ++ ys) = of_type ty xs ++ of_type ty ys.
Proof. apply filter_app. Qed.

(** The alerts of [analyze], by type. *)
Lemma analyze_by_type (t : VehicleTelemetry.t) (store : Store.t)
  (w : supply UUID) :
  let w1 := drop_supply (List.length (tire_templates t)) w in
  let w2 := drop_supply (List.length (battery_templates t store)) w1 in
  let alerts := stamp (rule_templates t store) w in
  of_type "tire_pressure_low" alerts = stamp (tire_templates t) w /\
  of_type "battery_degradation" alerts = stamp (battery_templates t store) w1 /\
  of_type "high_speed_stress" alerts = stamp (speed_templates t store) w2.
Proof.
  intros w1 w2 alerts. subst alerts. unfold rule_templates.
  rewrite !stamp_app. fold w1. fold w2.
  rewrite !of_type_app.
  pose proof (tire_templates_typed t) as Ht.
  pose proof (battery_templates_typed t store) as Hb.
  pose proof (speed_templates_typed t store) as Hs.
  repeat split.
  - rewrite (of_type_same _ Ht).
    rewrite (of_type_other _ _ Hb), (of_type_other _ _ Hs) by reflexivity.
    now rewrite !app_nil_r.
  - rewrite (of_type_same _ Hb).
    rewrite (of_type_other _ _ Ht), (of_type_other _ _ Hs) by reflexivity.
    now rewrite app_nil_r.
  - rewrite (of_type_same _ Hs).
    rewrite (of_type_other _ _ Ht), (of_type_other _ _ Hb) by reflexivity.
    reflexivity.
Qed.

(** The tire alerts, by position. *)
Lemma tire_alerts_by_position (t : VehicleTelemetry.t) (w : supply UUID)
  (pos : TirePosition) :
  exists u,
    with_signal (signal_id pos) (stamp (tire_templates t) w)
    = if Qlt_bool (pressure_of t pos) 25 then [tire_alert t pos u] else [].
Proof.
  unfold tire_templates, positions. cbn [flat_map].
  destruct pos; cbn [pressure_of signal_id];
    destruct (Qlt_bool (TireStatus.front_left _) 25);
    destruct (Qlt_bool (TireStatus.front_right _) 25);
    destruct (Qlt_bool (TireStatus.rear_left _) 25);
    destruct (Qlt_bool (TireStatus.rear_right _) 25);
    simpl; solve [exists 0%N; reflexivity | eexists; reflexivity].
Qed.

Lemma tire_alerts_signal (t : VehicleTelemetry.t) (w : supply UUID)
  (a : AlertModel.t) :
  In a (stamp (tire_templates t) w) ->
  exists pos u, a = tire_alert t pos u /\ pressure_of t pos < 25.
Proof.
  unfold tire_templates, positions. cbn [flat_map].
  destruct (Qlt_bool_spec (pressure_of t FrontLeft) 25);
    destruct (Qlt_bool_spec (pressure_of t FrontRight) 25);
    destruct (Qlt_bool_spec (pressure_of t RearLeft) 25);
    destruct (Qlt_bool_spec (pressure_of t RearRight) 25);
    simpl; intro H;
    repeat match goal with
           | H : _ \/ _ |- _ => destruct H as [H|H]
           | H : False |- _ => destruct H
           end; subst a; eauto.
Qed.



Lemma most_recent_last_n {A : Type} (n : nat) (xs : list A) :
  most_recent n xs = rev (HealthAnalyzer.last_n n xs).
Proof.
  unfold most_recent, HealthAnalyzer.last_n. apply firstn_rev.
Qed.

(** The speed rule: it fires exactly on a sustained high speed. *)
Lemma speed_templates_spec (t : VehicleTelemetry.t) (store : Store.t) :
  (sustained_high_speed store /\ speed_templates t store = [speed_alert t])
  \/ (~ sustained_high_speed store /\ speed_templates t store = []).
Proof.
  unfold sustained_high_speed, speed_templates.
  rewrite most_recent_last_n.
  destruct (Nat.ltb_spec (List.length (Store.speed_history store)) 10) as [Hlt|Hge].
  - right. split; [|reflexivity]. intros [H _]. lia.
  - destruct (forallb _ _) eqn:E.
    + left. split; [|reflexivity]. split; [exact Hge|].
      apply Forall_rev, Forall_forall. intros h Hin.
      apply Qlt_bool_iff.
      exact (proj1 (forallb_forall _ _) E h Hin).
    + right. split; [|reflexivity]. intros [_ H].
      apply Forall_rev in H. rewrite rev_involutive in H.
      rewrite Forall_forall in H.
      assert (E' : forallb (fun h => Qlt_bool 100 (SpeedEntry.speed h))
                     (HealthAnalyzer.last_n 10 (Store.speed_history store)) = true).
      { apply forallb_forall. intros h Hin. apply Qlt_bool_iff. now apply H. }
      congruence.
Qed.

Lemma with_signal_app (sig : string) (xs ys : list AlertModel.t) :
  with_signal sig (xs ++ ys) = with_signal sig xs ++ with_signal sig ys.
Proof. apply filter_app. Qed.

Lemma battery_alerts_no_tire_signal (t : VehicleTelemetry.t) (store : Store.t)
  (w : supply UUID) (pos : TirePosition) :
  with_signal (signal_id pos) (stamp (battery_templates t store) w) = [].
Proof.
  unfold battery_templates.
  destruct (Store.battery_history store) as [|oldest [|second rest]];
    try reflexivity.
  destruct (Qlt_bool 5 _); [|reflexivity].
  destruct pos; reflexivity.
Qed.

Lemma speed_alerts_no_tire_signal (t : VehicleTelemetry.t) (store : Store.t)
  (w : supply UUID) (pos : TirePosition) :
  with_signal (signal_id pos) (stamp (speed_templates t store) w) = [].
Proof.
  unfold speed_templates.
  destruct (_ <? _)%nat; [reflexivity|].
  destruct (forallb _ _); [|reflexivity].
  destruct pos; reflexivity.
Qed.

Lemma typed_stamp (ty : string) (ts : list template) (w : supply UUID) :
  typed ty ts ->
  Forall (fun a => AlertModel.alert_type a = ty) (stamp ts w).
Proof.
  intro H. revert w. induction H as [|f ts Hf _ IH]; intro w; simpl;
    constructor; [apply Hf | apply IH].
Qed.

Lemma stamp_ext (ts : list template) (w1 w2 : supply UUID) :
  (forall n, w1 n = w2 n) -> stamp ts w1 = stamp ts w2.
Proof.
  revert w1 w2. induction ts as [|f ts IH]; intros w1 w2 H; simpl.
  - reflexivity.
  - rewrite (H O). f_equal. apply IH. intro n. apply H.
Qed.

Lemma id_free_stamp (ts : list template) (w1 w2 : supply UUID) :
  id_free ts -> map content (stamp ts w1) = map content (stamp ts w2).
Proof.
  intro H. revert w1 w2.
  induction H as [|f ts Hf _ IH]; intros w1 w2; simpl.
  - reflexivity.
  - f_equal; [apply Hf | apply IH].
Qed.

Lemma rule_templates_id_free (t : VehicleTelemetry.t) (store : Store.t) :
  id_free (rule_templates t store).
Proof.
  unfold id_free, rule_templates. rewrite !Forall_app. repeat split.
  - unfold tire_templates, positions. cbn [flat_map].
    repeat match goal with
           | |- context [if ?c then _ else _] => destruct c
           end; simpl; repeat constructor.
  - unfold battery_templates.
    destruct (Store.battery_history store) as [|oldest [|second rest]];
      try constructor.
    destruct (Qlt_bool 5 _); repeat constructor.
  - unfold speed_templates.
    destruct (_ <? _)%nat; try constructor.
    destruct (forallb _ _); repeat constructor.
Qed.

(** ** The claims about the analyzer *)

(** C1. For every snapshot, the tire-pressure rule raises exactly one
    alert for each of the four positions whose pressure is strictly below
    25 PSI: critical, of type tire_pressure_low, naming the position,
    carrying its pressure and the threshold text "< 25 PSI"; it raises
    nothing for a position at 25 PSI or above, 25.0 itself included, and
    nothing else.  These are the tire alerts of [analyze]. *)
Theorem tire_pressure_rule (t : VehicleTelemetry.t) (store : Store.t)
  (w : supply UUID) :
  exists alerts w',
    HealthAnalyzer._check_tire_pressure t w = Ok (alerts, w') /\
    (forall a, In a alerts ->
       exists pos u, a = tire_alert t pos u /\ pressure_of t pos < 25) /\
    (forall pos,
       (pressure_of t pos < 25 ->
        exists u, with_signal (signal_id pos) alerts = [tire_alert t pos u]) /\
       (25 <= pressure_of t pos -> with_signal (signal_id pos) alerts = []) /\
       (pressure_of t pos == 25 -> with_signal (signal_id pos) alerts = [])) /\
    exists all w'',
      HealthAnalyzer.analyze t store w = Ok (all, w'') /\
      of_type "tire_pressure_low" all = alerts.
Proof.
  rewrite _check_tire_pressure_eval, analyze_eval.
  do 2 eexists. split; [reflexivity|]. split; [|split].
  - intros a Ha. eapply tire_alerts_signal; eassumption.
  - intro pos.
    destruct (tire_alerts_by_position t w pos) as [u Hu].
    destruct (Qlt_bool_spec (pressure_of t pos) 25) as [Hlt|Hge].
    + split; [|split].
      * intros _. now exists u.
      * intro H. exfalso. lra.
      * intro H. exfalso. lra.
    + split; [|split].
      * intro H. contradiction.
      * intros _. exact Hu.
      * intros _. exact Hu.
  - do 2 eexists. split; [reflexivity|].
    apply (analyze_by_type t store w).
Qed.

Lemma tire_pressure_rule_witness :
  exists alerts,
    run (HealthAnalyzer._check_tire_pressure
           (_make_telemetry 60 85 22 (315 # 10) (318 # 10) 25)) counting
    = Ok alerts /\
    (exists u,
       with_signal "tire_pressure_fl" alerts
       = [tire_alert (_make_telemetry 60 85 22 (315 # 10) (318 # 10) 25)
            FrontLeft u]) /\
    with_signal "tire_pressure_fr" alerts = [] /\
    with_signal "tire_pressure_rr" alerts = [].
Proof.
  destruct (tire_pressure_rule
              (_make_telemetry 60 85 22 (315 # 10) (318 # 10) 25)
              (battery_store []) counting)
    as (alerts & w' & Hrun & _ & Hpos & _).
  exists alerts. split; [unfold run; now rewrite Hrun|]. split; [|split].
  - apply (proj1 (Hpos FrontLeft)). reflexivity.
  - apply (proj1 (proj2 (Hpos FrontRight))). discriminate.
  - apply (proj2 (proj2 (Hpos RearRight))). reflexivity.
Defined.



(** C3. For every snapshot and store, [analyze] returns exactly one alert
    of type high_speed_stress, a warning, if and only if the speed history
    has at least ten entries and each of its ten most recent entries has a
    speed strictly above 100; a history of fewer than ten entries, or one
    entry at or below 100 among the ten most recent, yields no speed
    alert. *)
Theorem high_speed_rule (t : VehicleTelemetry.t) (store : Store.t)
  (w : supply UUID) :
  exists alerts w',
    HealthAnalyzer.analyze t store w = Ok (alerts, w') /\
    ((exists a, of_type "high_speed_stress" alerts = [a] /\
                (exists u, a = speed_alert t u) /\
                AlertModel.severity a = WARNING)
     <-> sustained_high_speed store) /\
    (~ sustained_high_speed store -> of_type "high_speed_stress" alerts = []) /\
    ((List.length (Store.speed_history store) < 10)%nat ->
     of_type "high_speed_stress" alerts = []) /\
    (forall h, In h (most_recent 10 (Store.speed_history store)) ->
               SpeedEntry.speed h <= 100 ->
               of_type "high_speed_stress" alerts = []).
Proof.
  rewrite analyze_eval. do 2 eexists. split; [reflexivity|].
  destruct (analyze_by_type t store w) as (_ & _ & Hs).
  rewrite Hs.
  destruct (speed_templates_spec t store) as [[Hyes E]|[Hno E]]; rewrite E;
    simpl.
  - split; [|split; [|split]].
    + split; [intros _; exact Hyes|].
      intros _. eexists. split; [reflexivity|].
      split; [eexists; reflexivity | reflexivity].
    + intro H. contradiction.
    + intro H. destruct Hyes as [Hlen _]. lia.
    + intros h Hin Hle. destruct Hyes as [_ Hall].
      rewrite Forall_forall in Hall. specialize (Hall h Hin). lra.
  - split; [|split; [|split]].
    + split; [|intro H; contradiction].
      intros (a & Ha & _). discriminate Ha.
    + reflexivity.
    + reflexivity.
    + reflexivity.
Qed.

Lemma high_speed_rule_witness :
  (exists alerts a,
     run (HealthAnalyzer.analyze (_make_telemetry 115 85 32 32 32 32)
            (speed_store (repeat 110 15))) counting = Ok alerts /\
     of_type "high_speed_stress" alerts = [a] /\
     AlertModel.severity a = WARNING) /\
  (exists alerts,
     run (HealthAnalyzer.analyze (_make_telemetry 120 85 32 32 32 32)
            (speed_store (repeat 120 9))) counting = Ok alerts /\
     of_type "high_speed_stress" alerts = []).
Proof.
  split.
  - destruct (high_speed_rule (_make_telemetry 115 85 32 32 32 32)
                (speed_store (repeat 110 15)) counting)
      as (alerts & w' & Hrun & Hiff & _).
    destruct (proj2 Hiff) as (a & Ha & _ & Hsev).
    { split; [simpl; lia|].
      unfold most_recent. simpl. repeat constructor. }
    exists alerts, a. unfold run. rewrite Hrun. repeat split; assumption.
  - destruct (high_speed_rule (_make_telemetry 120 85 32 32 32 32)
                (speed_store (repeat 120 9)) counting)
      as (alerts & w' & Hrun & _ & _ & Hshort & _).
    exists alerts. unfold run. rewrite Hrun. split; [reflexivity|].
    apply Hshort. simpl. lia.
Defined.



(** C8, as the code has it.  [analyze] keeps no state: besides its two
    arguments it consults only the UUID source.  Two calls on the same
    snapshot and store both return, and return lists that agree in length,
    order and every field but the alerts' ids; with the same ids to draw,
    they return the same list. *)
Theorem analyze_pure_up_to_ids (t : VehicleTelemetry.t) (store : Store.t)
  (w1 w2 : supply UUID) :
  exists alerts1 alerts2 w1' w2',
    HealthAnalyzer.analyze t store w1 = Ok (alerts1, w1') /\
    HealthAnalyzer.analyze t store w2 = Ok (alerts2, w2') /\
    map content alerts1 = map content alerts2 /\
    ((forall n, w1 n = w2 n) -> alerts1 = alerts2).
Proof.
  rewrite !analyze_eval. do 4 eexists.
  split; [reflexivity|]. split; [reflexivity|]. split.
  - apply id_free_stamp, rule_templates_id_free.
  - apply stamp_ext.
Qed.

Lemma analyze_pure_up_to_ids_witness :
  exists alerts1 alerts2,
    run (HealthAnalyzer.analyze (_make_telemetry 60 85 20 32 32 32)
           (battery_store [])) (const_supply 7%N) = Ok alerts1 /\
    run (HealthAnalyzer.analyze (_make_telemetry 60 85 20 32 32 32)
           (battery_store [])) (fun _ => 7%N) = Ok alerts2 /\
    alerts1 = alerts2.
Proof.
  destruct (analyze_pure_up_to_ids (_make_telemetry 60 85 20 32 32 32)
              (battery_store []) (const_supply 7%N) (fun _ => 7%N))
    as (alerts1 & alerts2 & w1' & w2' & H1 & H2 & _ & Hsame).
  exists alerts1, alerts2. unfold run. rewrite H1, H2.
  repeat split. apply Hsame. reflexivity.
Defined.

(** C8, as stated, fails: the same snapshot and the same store, two calls,
    two different lists, since each alert is given a fresh UUID. *)
Lemma analyze_not_repeatable :
  run (HealthAnalyzer.analyze (_make_telemetry 60 85 20 32 32 32)
         (battery_store [])) (const_supply 1%N)
  <> run (HealthAnalyzer.analyze (_make_telemetry 60 85 20 32 32 32)
            (battery_store [])) (const_supply 2%N).
Proof.
  vm_compute. intro H. discriminate H.
Qed.

(** C10. For every snapshot and store, [analyze] returns the tire alerts,
    then the battery alert, then the speed alert: at most one alert per
    tire position, at most one battery_degradation alert, at most one
    high_speed_stress alert, at most six alerts in all. *)
Theorem analyze_at_most_six (t : VehicleTelemetry.t) (store : Store.t)
  (w : supply UUID) :
  exists tire batt spd w',
    HealthAnalyzer.analyze t store w = Ok (tire ++ batt ++ spd, w') /\
    Forall (fun a => AlertModel.alert_type a = "tire_pressure_low"%string) tire /\
    Forall (fun a => AlertModel.alert_type a = "battery_degradation"%string) batt /\
    Forall (fun a => AlertModel.alert_type a = "high_speed_stress"%string) spd /\
    (forall pos,
       (List.length (with_signal (signal_id pos) (tire ++ batt ++ spd)) <= 1)%nat) /\
    (List.length tire <= 4)%nat /\
    (List.length batt <= 1)%nat /\
    (List.length spd <= 1)%nat /\
    (List.length (tire ++ batt ++ spd) <= 6)%nat.
Proof.
  rewrite analyze_eval. unfold rule_templates. rewrite !stamp_app.
  do 4 eexists. split; [reflexivity|].
  pose proof (tire_templates_short t) as H4.
  pose proof (battery_templates_short t store) as Hb1.
  pose proof (speed_templates_short t store) as Hs1.
  split; [apply typed_stamp, tire_templates_typed|].
  split; [apply typed_stamp, battery_templates_typed|].
  split; [apply typed_stamp, speed_templates_typed|].
  split.
  - intro pos. rewrite !with_signal_app.
    rewrite battery_alerts_no_tire_signal, speed_alerts_no_tire_signal.
    rewrite !app_nil_r.
    destruct (tire_alerts_by_position t w pos) as [u Hu]. rewrite Hu.
    destruct (Qlt_bool _ 25); simpl; lia.
  - rewrite !length_app, !stamp_length. lia.
Qed.

(** ** The analyzer's unit tests, run on the embedding *)

Example test_multiple_low_tires :
  count_of_type "tire_pressure_low"
    (alerts_of (_make_telemetry 60 85 20 22 30 18) (battery_store []))
  = Ok 3%nat.
Proof. vm_compute. reflexivity. Qed.

Example test_borderline_tire_pressure :
  count_of_type "tire_pressure_low"
    (alerts_of (_make_telemetry 60 85 25 (315 # 10) (318 # 10) (322 # 10))
       (battery_store []))
  = Ok 0%nat.
Proof. vm_compute. reflexivity. Qed.

Example test_no_battery_alert_when_stable :
  count_of_type "battery_degradation"
    (alerts_of (_make_telemetry 60 84 32 32 32 32) (battery_store [85; 845 # 10]))
  = Ok 0%nat.
Proof. vm_compute. reflexivity. Qed.

Example test_battery_rapid_drop_alert :
  count_of_type "battery_degradation"
    (alerts_of (_make_telemetry 60 83 32 32 32 32) (battery_store [90; 87]))
  = Ok 1%nat.
Proof. vm_compute. reflexivity. Qed.

Example test_high_speed_sustained_alert :
  count_of_type "high_speed_stress"
    (alerts_of (_make_telemetry 115 85 32 32 32 32) (speed_store (repeat 110 15)))
  = Ok 1%nat.
Proof. vm_compute. reflexivity. Qed.

Example test_no_speed_alert_with_intermittent_high :
  count_of_type "high_speed_stress"
    (alerts_of (_make_telemetry 110 85 32 32 32 32)
       (speed_store [110; 105; 90; 110; 105; 115; 108; 112; 110; 105]))
  = Ok 0%nat.
Proof. vm_compute. reflexivity. Qed.

Example test_no_speed_alert_with_insufficient_history :
  count_of_type "high_speed_stress"
    (alerts_of (_make_telemetry 120 85 32 32 32 32) (speed_store [120; 115]))
  = Ok 0%nat.
Proof. vm_compute. reflexivity. Qed.

Example test_tire_alert_message :
  match alerts_of (_make_telemetry 60 85 (2196 # 100) 32 32 32) (battery_store []) with
  | Ok [a] => AlertModel.message a
  | _ => ""%string
  end
  = "Possible Tire Failure: Front Left tire pressure at 22.0 PSI (below 25 PSI threshold)"%string.
Proof. vm_compute. reflexivity. Qed.

Example test_start_loop_stop :
  run (VehicleSimulator.start ;;;
       _ <- VehicleSimulator._simulation_loop 3 ;;
       VehicleSimulator.stop) world0
  = Ok {| SimulationStatus.running := false;
          SimulationStatus.tick_count := 3;
          SimulationStatus.start_time := None;
          SimulationStatus.message := "Simulator stopped after 3 ticks" |}.
Proof. vm_compute. reflexivity. Qed.

(** The battery rule at the edge of its threshold.  The readings are
    binary64 values: [binary64 (644 # 10)] is the float 64.4, and
    [7881299347898367 # 2251799813685248] the float 3.4999999999999996. *)

Example battery_alert_at_64_4_to_59_4 :
  count_of_type "battery_degradation"
    (alerts_of (_make_telemetry 60 (binary64 (594 # 10)) 32 32 32 32)
       (battery_store [binary64 (644 # 10); binary64 (644 # 10)]))
  = Ok 1%nat.
Proof. vm_compute. reflexivity. Qed.

Example no_battery_alert_at_8_5_to_3_4999999999999996 :
  5 < (85 # 10) - (7881299347898367 # 2251799813685248) /\
  count_of_type "battery_degradation"
    (alerts_of
       (_make_telemetry 60 (7881299347898367 # 2251799813685248) 32 32 32 32)
       (battery_store [85 # 10; 85 # 10]))
  = Ok 0%nat.
Proof. split; vm_compute; reflexivity. Qed.

Example no_battery_alert_at_5_001_to_0_001 :
  count_of_type "battery_degradation"
    (alerts_of (_make_telemetry 60 (binary64 (1 # 1000)) 32 32 32 32)
       (battery_store [binary64 (5001 # 1000); binary64 (5001 # 1000)]))
  = Ok 0%nat.
Proof. vm_compute. reflexivity. Qed.

Example battery_alert_message_at_5_75 :
  match alerts_of
          (_make_telemetry 60 (binary64 (1 # 100000000000000000)) 32 32 32 32)
          (battery_store [575 # 100; 575 # 100]) with
  | Ok [a] => AlertModel.message a
  | _ => ""%string
  end
  = "Battery Degradation Alert: SoC dropped 5.8% (from 5.8% to 0.0%)"%string.
Proof. vm_compute. reflexivity. Qed.

(** ** Reasoning about runs *)

Section Outcomes.
Context {W : Type}.

Lemma wp_ret {A : Type} (a : A) (w : W) (post : A -> W -> Prop) :
  post a w -> wp (ret a) w post.
Proof. exact (fun H => H). Qed.

Lemma wp_bind {A B : Type} (m : Py W A) (k : A -> Py W B) (w : W)
  (post : B -> W -> Prop) :
  wp m w (fun a w' => wp (k a) w' post) -> wp (bind m k) w post.
Proof.
  unfold wp, bind. destruct (m w) as [[a w']|e]; intro H; exact H.
Qed.

Lemma wp_mono {A : Type} (m : Py W A) (w : W) (p q : A -> W -> Prop) :
  wp m w p -> (forall a w', p a w' -> q a w') -> wp m w q.
Proof.
  unfold wp. destruct (m w) as [[a w']|e]; intros H Hpq; [auto | exact H].
Qed.

Lemma wp_index {A : Type} (xs : list A) (i : nat) (w : W)
  (post : A -> W -> Prop) :
  (exists x, nth_error xs i = Some x /\ post x w) -> wp (index xs i) w post.
Proof.
  intros (x & Hx & Hp). unfold wp, index. rewrite Hx. exact Hp.
Qed.

Lemma wp_run {A : Type} (m : Py W A) (w : W) (post : A -> W -> Prop) :
  wp m w post -> exists a w', m w = Ok (a, w') /\ post a w'.
Proof.
  unfold wp. destruct (m w) as [[a w']|e]; intro H; [eauto | contradiction].
Qed.

End Outcomes.

Section SimulatorOutcomes.
Import VehicleSimulator.

Variable w : World.
Variable A : Type.
Variable post : A -> World -> Prop.

Lemma wp_get_self (p : t -> World -> Prop) :
  p (self w) w -> wp get_self w p.
Proof. exact (fun H => H). Qed.

Lemma wp_assign (f : t -> t) (p : unit -> World -> Prop) :
  p tt (mkWorld (f (self w)) (rng w) (clock w)) -> wp (assign f) w p.
Proof. exact (fun H => H). Qed.

Lemma wp_random (p : Q -> World -> Prop) :
  p (rng w O) (mkWorld (self w) (snd (pop (rng w))) (clock w)) ->
  wp random w p.
Proof. exact (fun H => H). Qed.

Lemma wp_uniform (a b : Q) (p : Q -> World -> Prop) :
  p (a + (b - a) * rng w O)
    (mkWorld (self w) (snd (pop (rng w))) (clock w)) ->
  wp (uniform a b) w p.
Proof. exact (fun H => H). Qed.

Lemma wp_utcnow_isoformat (p : string -> World -> Prop) :
  p (clock w O) (mkWorld (self w) (rng w) (snd (pop (clock w)))) ->
  wp utcnow_isoformat w p.
Proof. exact (fun H => H). Qed.

Lemma wp_when (c : bool) (body : Py World unit) (p : unit -> World -> Prop) :
  (c = true -> wp body w p) -> (c = false -> p tt w) ->
  wp (when c body) w p.
Proof.
  destruct c; intros Ht Hf; [now apply Ht | now apply Hf].
Qed.

Lemma wp_choice {B : Type} (seq : list B) (p : B -> World -> Prop) :
  seq <> [] -> 0 <= rng w O /\ rng w O < 1 ->
  (forall x, In x seq ->
             p x (mkWorld (self w) (snd (pop (rng w))) (clock w))) ->
  wp (choice seq) w p.
Proof.
  intros Hne [H0 H1] Hp. unfold choice.
  apply wp_bind, wp_random, wp_index.
  set (n := Z.of_nat (List.length seq)).
  assert (Hn : (0 < n)%Z) by (destruct seq; [congruence | subst n; simpl; lia]).
  assert (Hlt : (Qfloor (rng w O * inject_Z n) < n)%Z).
  { rewrite Zlt_Qlt.
    apply Qle_lt_trans with (rng w O * inject_Z n); [apply Qfloor_le|].
    rewrite Zlt_Qlt in Hn. change (inject_Z 0) with 0 in Hn.
    setoid_replace (inject_Z n) with (1 * inject_Z n) at 2 by ring.
    apply Qmult_lt_compat_r; assumption. }
  destruct (nth_error seq (Z.to_nat (Qfloor (rng w O * inject_Z n)))) as [x|] eqn:E.
  - exists x. split; [reflexivity|]. apply Hp. eapply nth_error_In, E.
  - exfalso. apply nth_error_None in E. subst n. lia.
Qed.

End SimulatorOutcomes.

(** One step of symbolic execution of a simulator computation. *)
Ltac sim_step :=
  lazymatch goal with
  | |- wp (bind _ _) _ _ => apply wp_bind
  | |- wp (ret _) _ _ => apply wp_ret
  | |- wp VehicleSimulator.get_self _ _ => apply wp_get_self
  | |- wp (VehicleSimulator.assign _) _ _ => apply wp_assign
  | |- wp VehicleSimulator.random _ _ => apply wp_random
  | |- wp (VehicleSimulator.uniform _ _) _ _ => apply wp_uniform
  | |- wp VehicleSimulator.utcnow_isoformat _ _ => apply wp_utcnow_isoformat
  | |- wp (VehicleSimulator.when _ _) _ _ => apply wp_when; intro
  | |- wp (VehicleSimulator.choice _) _ _ =>
      apply wp_choice;
      [ discriminate
      | cbn [pop fst snd];
        match goal with H : rng_valid _ |- _ => apply H end
      | intros ? _ ]
  | |- wp (if ?c then _ else _) _ _ => destruct c eqn:?
  end;
  cbv beta zeta;
  cbn [VehicleSimulator.self VehicleSimulator.rng VehicleSimulator.clock].

Ltac sim_run := repeat sim_step.

(** The projections of a simulator after assignments. *)
Ltac sim_fields :=
  cbn [VehicleSimulator.self VehicleSimulator.rng VehicleSimulator.clock
       VehicleSimulator.simulation VehicleSimulator._task
       VehicleSimulator._running VehicleSimulator._tick_count
       VehicleSimulator._speed VehicleSimulator._battery_soc
       VehicleSimulator._battery_voltage VehicleSimulator._battery_temp
       VehicleSimulator._tire_fl VehicleSimulator._tire_fr
       VehicleSimulator._tire_rl VehicleSimulator._tire_rr
       VehicleSimulator._odometer VehicleSimulator._speed_direction
       VehicleSimulator.set_simulation VehicleSimulator.set_task
       VehicleSimulator.set_running VehicleSimulator.set_tick_count
       VehicleSimulator.set_speed VehicleSimulator.set_battery_soc
       VehicleSimulator.set_battery_voltage VehicleSimulator.set_battery_temp
       VehicleSimulator.set_tire_fl VehicleSimulator.set_tire_fr
       VehicleSimulator.set_tire_rl VehicleSimulator.set_tire_rr
       VehicleSimulator.set_odometer VehicleSimulator.set_speed_direction
       pop fst snd] in *.

Lemma rng_valid_pop (r : supply Q) : rng_valid r -> rng_valid (snd (pop r)).
Proof. intros H n. apply H. Qed.

Lemma rng_valid_drop (n : nat) (r : supply Q) :
  rng_valid r -> rng_valid (drop_supply n r).
Proof.
  revert r. induction n as [|n IH]; intros r H; simpl; [exact H|].
  apply IH. intro k. apply H.
Qed.

(** [uniform(a, b)] lies between [a] and [b]. *)
Lemma uniform_within (a b u : Q) :
  a <= b -> 0 <= u /\ u < 1 -> within a b (a + (b - a) * u).
Proof.
  intros Hab [H0 H1]. unfold within.
  assert (Hd : 0 <= b - a) by lra.
  assert (Hlo : 0 <= (b - a) * u) by (apply Qmult_le_0_compat; assumption).
  assert (Hhi : 0 <= (b - a) * (1 - u)) by (apply Qmult_le_0_compat; lra).
  split; lra.
Qed.

(** ** [_generate_telemetry], section by section *)

Section Sections.
Import VehicleSimulator.

Variable w : World.
Hypothesis Hrng : rng_valid (rng w).

Lemma speed_simulation_spec :
  wp speed_simulation w (fun _ w' =>
    rng_valid (rng w') /\ control_kept w w' /\
    within 0 140 (_speed (self w')) /\
    if plateau (_tick_count (self w))
    then within 105 130 (_speed (self w'))
    else walked (self w) (self w')).
Proof.
  assert (Hwalk : within 1 5 (1 + (5 - 1) * rng w 1%nat))
    by (apply uniform_within; [lra | apply Hrng]).
  unfold speed_simulation. sim_run; sim_fields;
    unfold control_kept; sim_fields;
    match goal with
    | H : plateau _ = _ |- _ => rewrite H
    end;
    (split; [intro n; apply Hrng|]);
    (split; [repeat split; reflexivity|]).
  - assert (Hp : within 105 130 (105 + (130 - 105) * rng w 2%nat))
      by (apply uniform_within; [lra | apply Hrng]).
    split; [|exact Hp]. unfold within in *. lra.
  - split; [apply clamp_bounds; lra|].
    eexists _, _. split; [exact Hwalk|]. split; [right; reflexivity|].
    reflexivity.
  - assert (Hp : within 105 130 (105 + (130 - 105) * rng w 2%nat))
      by (apply uniform_within; [lra | apply Hrng]).
    split; [|exact Hp]. unfold within in *. lra.
  - split; [apply clamp_bounds; lra|].
    eexists _, _. split; [exact Hwalk|]. split; [left; reflexivity|].
    reflexivity.
Qed.

Lemma battery_simulation_spec :
  wp battery_simulation w (fun _ w' =>
    rng_valid (rng w') /\ control_kept w w' /\
    _speed (self w') = _speed (self w) /\
    within 5 100 (_battery_soc (self w'))).
Proof.
  unfold battery_simulation. sim_run; sim_fields;
    unfold control_kept; sim_fields;
    (split; [intro n; apply Hrng|]);
    (split; [repeat split; reflexivity|]);
    (split; [reflexivity|]);
    apply clamp_bounds; lra.
Qed.

Lemma tire_simulation_spec :
  wp tire_simulation w (fun _ w' =>
    rng_valid (rng w') /\ control_kept w w' /\
    _speed (self w') = _speed (self w) /\
    _battery_soc (self w') = _battery_soc (self w) /\
    within 15 40 (_tire_fl (self w')) /\
    within 15 40 (_tire_fr (self w')) /\
    within 15 40 (_tire_rl (self w')) /\
    within 15 40 (_tire_rr (self w'))).
Proof.
  unfold tire_simulation.
  sim_run; sim_fields; unfold control_kept; sim_fields;
    (split; [intro n; apply Hrng|]);
    (split; [repeat split; reflexivity|]);
    repeat (split; [reflexivity|]);
    repeat split; apply clamp_bounds; lra.
Qed.

Lemma odometer_update_spec :
  wp odometer_update w (fun _ w' =>
    rng w' = rng w /\ clock w' = clock w /\ control_kept w w' /\
    _speed (self w') = _speed (self w) /\
    _battery_soc (self w') = _battery_soc (self w) /\
    _tire_fl (self w') = _tire_fl (self w) /\
    _tire_fr (self w') = _tire_fr (self w) /\
    _tire_rl (self w') = _tire_rl (self w) /\
    _tire_rr (self w') = _tire_rr (self w)).
Proof.
  unfold odometer_update. sim_run; sim_fields.
  unfold control_kept; sim_fields. repeat split; reflexivity.
Qed.

End Sections.

Lemma control_kept_trans (w1 w2 w3 : VehicleSimulator.World) :
  control_kept w1 w2 -> control_kept w2 w3 -> control_kept w1 w3.
Proof.
  unfold control_kept. intros (R1 & T1 & S1 & K1) (R2 & T2 & S2 & K2).
  repeat split; congruence.
Qed.

Lemma within_round1 (lo hi : Z) (x : Q) :
  within (inject_Z lo) (inject_Z hi) x ->
  within (inject_Z lo) (inject_Z hi) (round1 x).
Proof. apply round1_bounds. Qed.

(** One snapshot: whatever the simulator's state, the snapshot and the
    state left behind are within the clamps; on a plateau tick the
    snapshot's speed is within [[105, 130]], on any other tick the speed
    has made one step of its walk. *)
Lemma _generate_telemetry_spec (w : VehicleSimulator.World) :
  rng_valid (VehicleSimulator.rng w) ->
  wp VehicleSimulator._generate_telemetry w (fun t w' =>
    rng_valid (VehicleSimulator.rng w') /\ control_kept w w' /\
    clamped t /\ state_clamped (VehicleSimulator.self w') /\
    VehicleTelemetry.speed t
    = round1 (VehicleSimulator._speed (VehicleSimulator.self w')) /\
    if VehicleSimulator.plateau
         (VehicleSimulator._tick_count (VehicleSimulator.self w))
    then within 105 130 (VehicleTelemetry.speed t)
    else walked (VehicleSimulator.self w) (VehicleSimulator.self w')).
Proof.
  intro Hrng. unfold VehicleSimulator._generate_telemetry.
  apply wp_bind.
  eapply wp_mono; [apply speed_simulation_spec, Hrng|].
  intros _ w1 (Hr1 & Hc1 & Hs1 & Hp1). cbv beta.
  apply wp_bind.
  eapply wp_mono; [apply battery_simulation_spec, Hr1|].
  intros health_status w2 (Hr2 & Hc2 & Hs2 & Hb2). cbv beta.
  apply wp_bind.
  eapply wp_mono; [apply tire_simulation_spec, Hr2|].
  intros _ w3 (Hr3 & Hc3 & Hs3 & Hb3 & Hfl & Hfr & Hrl & Hrr). cbv beta.
  apply wp_bind.
  eapply wp_mono; [apply odometer_update_spec|].
  intros _ w4 (Hr4 & Hk4 & Hc4 & Hs4 & Hb4 & Hfl4 & Hfr4 & Hrl4 & Hrr4).
  cbv beta.
  sim_run.
  assert (Hspeed : VehicleSimulator._speed (VehicleSimulator.self w4)
                   = VehicleSimulator._speed (VehicleSimulator.self w1))
    by congruence.
  assert (Hsoc : VehicleSimulator._battery_soc (VehicleSimulator.self w4)
                 = VehicleSimulator._battery_soc (VehicleSimulator.self w2))
    by congruence.
  assert (Hstate : state_clamped (VehicleSimulator.self w4)).
  { unfold state_clamped.
    rewrite Hspeed, Hsoc, Hfl4, Hfr4, Hrl4, Hrr4. tauto. }
  assert (Hkept : control_kept w w4).
  { eauto using control_kept_trans. }
  split; [rewrite Hr4; exact Hr3|].
  split.
  { unfold control_kept in *.
    cbn [VehicleSimulator.self]. exact Hkept. }
  destruct Hstate as (Bs & Bb & Bfl & Bfr & Brl & Brr).
  split; [|split; [|split]].
  - unfold clamped, current_soc. cbn.
    split; [apply (@within_round1 0 140), Bs|].
    split; [apply (@within_round1 5 100), Bb|].
    intros []; cbn;
      [ apply (@within_round1 15 40), Bfl | apply (@within_round1 15 40), Bfr
      | apply (@within_round1 15 40), Brl | apply (@within_round1 15 40), Brr ].
  - unfold state_clamped. tauto.
  - reflexivity.
  - cbn [VehicleTelemetry.speed].
    destruct (VehicleSimulator.plateau _).
    + rewrite Hspeed. apply (@within_round1 105 130), Hp1.
    + destruct Hp1 as (u & d & Hu & Hd & Hw).
      exists u, d. split; [exact Hu|]. split; [exact Hd|].
      rewrite Hspeed. exact Hw.
Qed.

(** One pass of the loop: the tick count goes up by one, then a snapshot
    is generated for that tick. *)
Lemma loop_body_spec (w : VehicleSimulator.World) :
  rng_valid (VehicleSimulator.rng w) ->
  wp VehicleSimulator.loop_body w (fun t w' =>
    rng_valid (VehicleSimulator.rng w') /\
    VehicleSimulator._running (VehicleSimulator.self w')
    = VehicleSimulator._running (VehicleSimulator.self w) /\
    VehicleSimulator._tick_count (VehicleSimulator.self w')
    = (VehicleSimulator._tick_count (VehicleSimulator.self w) + 1)%Z /\
    clamped t /\
    (VehicleSimulator.plateau
       (VehicleSimulator._tick_count (VehicleSimulator.self w) + 1) = true ->
     within 105 130 (VehicleTelemetry.speed t))).
Proof.
  intro Hrng. unfold VehicleSimulator.loop_body.
  do 3 sim_step.
  apply wp_bind.
  eapply wp_mono; [apply _generate_telemetry_spec; exact Hrng|].
  intros t w1 (Hr1 & (R1 & T1 & S1 & K1) & Hc & _ & _ & Hp). cbv beta.
  sim_fields. sim_run. sim_fields.
  split; [exact Hr1|]. split; [exact R1|]. split; [exact T1|].
  split; [exact Hc|].
  intro Hplateau. rewrite Hplateau in Hp. exact Hp.
Qed.

(** The loop, run for [n] passes. *)
Lemma _simulation_loop_spec (n : nat) (w : VehicleSimulator.World) :
  rng_valid (VehicleSimulator.rng w) ->
  wp (VehicleSimulator._simulation_loop n) w (fun ts w' =>
    rng_valid (VehicleSimulator.rng w') /\
    (VehicleSimulator._running (VehicleSimulator.self w) = true ->
     List.length ts = n) /\
    forall i t,
      nth_error ts i = Some t ->
      clamped t /\
      (VehicleSimulator.plateau
         (VehicleSimulator._tick_count (VehicleSimulator.self w)
          + Z.of_nat i + 1) = true ->
       within 105 130 (VehicleTelemetry.speed t))).
Proof.
  revert w. induction n as [|n IH]; intros w Hrng;
    cbn [VehicleSimulator._simulation_loop].
  - sim_run. split; [exact Hrng|]. split; [reflexivity|].
    intros [|i] t H; discriminate H.
  - do 2 sim_step. destruct (VehicleSimulator._running _) eqn:Erun.
    + apply wp_bind.
      eapply wp_mono; [apply loop_body_spec, Hrng|].
      intros t1 w1 (Hr1 & R1 & T1 & Hc1 & Hp1). cbv beta.
      apply wp_bind.
      eapply wp_mono; [apply IH, Hr1|].
      intros ts w2 (Hr2 & Hlen & Hall). cbv beta.
      sim_run. split; [exact Hr2|].
      split.
      { intros _. simpl. f_equal. apply Hlen. congruence. }
      intros [|i] t Ht; simpl in Ht.
      * injection Ht as <-. split; [exact Hc1|].
        rewrite Z.add_0_r. exact Hp1.
      * destruct (Hall i t Ht) as [Hc Hp]. split; [exact Hc|].
        rewrite T1 in Hp.
        replace (VehicleSimulator._tick_count (VehicleSimulator.self w)
                 + Z.of_nat (S i) + 1)%Z
          with (VehicleSimulator._tick_count (VehicleSimulator.self w) + 1
                + Z.of_nat i + 1)%Z by lia.
        exact Hp.
    + sim_run. split; [exact Hrng|]. split; [discriminate|].
      intros [|i] t H; discriminate H.
Qed.

(** ** The claims about the simulator *)

Lemma plateau_iff (tc : Z) :
  VehicleSimulator.plateau tc = true <-> (20 < tc /\ 0 <= tc mod 50 <= 14)%Z.
Proof.
  unfold VehicleSimulator.plateau.
  rewrite andb_true_iff, Z.ltb_lt, Z.gtb_ltb, Z.ltb_lt.
  pose proof (Z.mod_pos_bound tc 50). lia.
Qed.

Lemma plateau_false_iff (tc : Z) :
  VehicleSimulator.plateau tc = false <-> ~ (20 < tc /\ 0 <= tc mod 50 <= 14)%Z.
Proof.
  rewrite <- plateau_iff. destruct (VehicleSimulator.plateau tc); split;
    intro H; try reflexivity; try discriminate.
  exfalso. now apply H.
Qed.

(** A plateau begins on a multiple of 50, and holds for 15 ticks. *)
Lemma plateau_block (tc : Z) :
  VehicleSimulator.plateau tc = true ->
  VehicleSimulator.plateau (tc - 1) = false ->
  (tc mod 50 = 0)%Z /\
  forall k, (0 <= k < 15)%Z -> VehicleSimulator.plateau (tc + k) = true.
Proof.
  rewrite plateau_iff, plateau_false_iff. intros [Hgt Hmod] Hprev.
  assert (Hdiv := Z.div_mod tc 50 ltac:(lia)).
  assert (Hdiv' := Z.div_mod (tc - 1) 50 ltac:(lia)).
  pose proof (Z.mod_pos_bound (tc - 1) 50 ltac:(lia)).
  assert (H0 : (tc mod 50 = 0)%Z).
  { destruct (Z.eq_dec (tc mod 50) 0) as [E|E]; [exact E|].
    exfalso. apply Hprev.
    assert ((tc - 1) mod 50 = tc mod 50 - 1)%Z.
    { symmetry. apply (Z.mod_unique (tc - 1) 50 (tc / 50)); lia. }
    lia. }
  split; [exact H0|].
  intros k Hk. apply plateau_iff.
  assert ((tc + k) mod 50 = k)%Z.
  { symmetry. apply (Z.mod_unique (tc + k) 50 (tc / 50)); lia. }
  lia.
Qed.

(** C5. For every simulator state, every valid random source and every
    number of passes of the loop, 1000 among them, the loop does not raise
    and each snapshot it generates has its speed within [[0, 140]], its
    battery SoC within [[5, 100]] and its four tire pressures within
    [[15, 40]]; the random source is arbitrary, so this covers the ticks
    on which the rapid SoC drop, the sudden tire-pressure drop or the
    speed plateau fire. *)
Theorem clamp_invariant (n : nat) (w : VehicleSimulator.World) :
  rng_valid (VehicleSimulator.rng w) ->
  exists ts w',
    VehicleSimulator._simulation_loop n w = Ok (ts, w') /\
    (VehicleSimulator._running (VehicleSimulator.self w) = true ->
     List.length ts = n) /\
    Forall clamped ts.
Proof.
  intro Hrng.
  destruct (@wp_run _ _ _ _ _ (@_simulation_loop_spec n w Hrng))
    as (ts & w' & Hrun & _ & Hlen & Hall).
  exists ts, w'. split; [exact Hrun|]. split; [exact Hlen|].
  apply Forall_forall. intros t Hin.
  destruct (In_nth_error _ _ Hin) as [i Hi].
  exact (proj1 (Hall i t Hi)).
Qed.

Lemma world_at_rng_valid (tc : Z) : rng_valid (VehicleSimulator.rng (world_at tc)).
Proof.
  intro n. cbn. unfold const_supply. split; [discriminate | reflexivity].
Qed.

Lemma clamp_invariant_witness :
  exists ts,
    run (VehicleSimulator._simulation_loop 1000) (world_at 0) = Ok ts /\
    List.length ts = 1000%nat /\
    Forall clamped ts.
Proof.
  destruct (clamp_invariant 1000 (world_at 0) (world_at_rng_valid 0))
    as (ts & w' & Hrun & Hlen & Hall).
  exists ts. unfold run. rewrite Hrun.
  split; [reflexivity|]. split; [apply Hlen; reflexivity | exact Hall].
Defined.

(** C6. The plateau is active exactly on the ticks whose count is above
    20 and congruent to 0..14 modulo 50; on such a tick the generated speed
    is within [[105, 130]], on any other tick the speed only makes one step
    of its walk; a plateau that begins holds for 15 consecutive ticks, ten
    at least; so the ten snapshots generated from the beginning of a
    plateau all have a speed above 100, and a speed history whose ten most
    recent entries are theirs makes [analyze] raise the sustained-speed
    alert. *)
Theorem speed_plateau :
  (forall tc,
     VehicleSimulator.plateau tc = true
     <-> (20 < tc /\ 0 <= tc mod 50 <= 14)%Z) /\
  (forall w,
     rng_valid (VehicleSimulator.rng w) ->
     exists t w',
       VehicleSimulator._generate_telemetry w = Ok (t, w') /\
       VehicleTelemetry.speed t
       = round1 (VehicleSimulator._speed (VehicleSimulator.self w')) /\
       if VehicleSimulator.plateau
            (VehicleSimulator._tick_count (VehicleSimulator.self w))
       then within 105 130 (VehicleTelemetry.speed t)
       else walked (VehicleSimulator.self w) (VehicleSimulator.self w')) /\
  (forall tc,
     VehicleSimulator.plateau tc = true ->
     VehicleSimulator.plateau (tc - 1) = false ->
     forall k, (0 <= k < 15)%Z -> VehicleSimulator.plateau (tc + k) = true) /\
  (forall w,
     rng_valid (VehicleSimulator.rng w) ->
     VehicleSimulator._running (VehicleSimulator.self w) = true ->
     let tc := VehicleSimulator._tick_count (VehicleSimulator.self w) in
     VehicleSimulator.plateau tc = false ->
     VehicleSimulator.plateau (tc + 1) = true ->
     exists ts w',
       VehicleSimulator._simulation_loop 10 w = Ok (ts, w') /\
       List.length ts = 10%nat /\
       Forall (fun t => within 105 130 (VehicleTelemetry.speed t)) ts /\
       forall store t0 ids,
         map SpeedEntry.speed (most_recent 10 (Store.speed_history store))
         = rev (map VehicleTelemetry.speed ts) ->
         sustained_high_speed store /\
         exists alerts ids' u,
           HealthAnalyzer.analyze t0 store ids = Ok (alerts, ids') /\
           of_type "high_speed_stress" alerts = [speed_alert t0 u]).
Proof.
  split; [exact plateau_iff|]. split; [|split].
  - intros w Hrng.
    destruct (@wp_run _ _ _ _ _ (@_generate_telemetry_spec w Hrng))
      as (t & w' & Hrun & _ & _ & _ & _ & Hround & Hp).
    exists t, w'. repeat split; assumption.
  - intros tc Hon Hoff. exact (proj2 (@plateau_block tc Hon Hoff)).
  - intros w Hrng Hrunning tc Hoff Hon.
    destruct (@plateau_block (tc + 1)%Z Hon) as [_ Hblock].
    { now replace (tc + 1 - 1)%Z with tc by lia. }
    destruct (@wp_run _ _ _ _ _ (@_simulation_loop_spec 10 w Hrng))
      as (ts & w' & Hrun & _ & Hlen & Hall).
    specialize (Hlen Hrunning).
    assert (Hfast : Forall (fun t => within 105 130 (VehicleTelemetry.speed t)) ts).
    { apply Forall_forall. intros t Hin.
      destruct (In_nth_error _ _ Hin) as [i Hi].
      apply (proj2 (Hall i t Hi)).
      assert (i < List.length ts)%nat by (apply nth_error_Some; congruence).
      fold tc.
      replace (tc + Z.of_nat i + 1)%Z with (tc + 1 + Z.of_nat i)%Z by lia.
      apply Hblock. lia. }
    exists ts, w'. split; [exact Hrun|]. split; [exact Hlen|].
    split; [exact Hfast|].
    intros store t0 ids Hhist.
    assert (Hsus : sustained_high_speed store).
    { split.
      - apply (f_equal (@List.length Q)) in Hhist.
        rewrite length_map, length_rev, length_map, Hlen in Hhist.
        unfold most_recent in Hhist.
        rewrite length_firstn, length_rev in Hhist. lia.
      - apply Forall_forall. intros h Hin.
        apply (in_map SpeedEntry.speed) in Hin. rewrite Hhist in Hin.
        apply in_rev, in_map_iff in Hin.
        destruct Hin as (t & <- & Ht).
        rewrite Forall_forall in Hfast. specialize (Hfast t Ht).
        unfold within in Hfast. lra. }
    split; [exact Hsus|].
    rewrite analyze_eval.
    destruct (analyze_by_type t0 store ids) as (_ & _ & Hs).
    destruct (speed_templates_spec t0 store) as [[_ E]|[Hno _]];
      [|contradiction].
    rewrite E in Hs. simpl in Hs.
    do 3 eexists. split; [reflexivity|]. exact Hs.
Qed.

Lemma speed_plateau_witness :
  VehicleSimulator.plateau 50 = true /\
  VehicleSimulator.plateau 59 = true /\
  exists ts alerts u,
    run (VehicleSimulator._simulation_loop 10) (world_at 49) = Ok ts /\
    List.length ts = 10%nat /\
    Forall (fun t => within 105 130 (VehicleTelemetry.speed t)) ts /\
    run (HealthAnalyzer.analyze (_make_telemetry 120 85 32 32 32 32)
           (speed_store (map VehicleTelemetry.speed ts))) counting
    = Ok alerts /\
    of_type "high_speed_stress" alerts
    = [speed_alert (_make_telemetry 120 85 32 32 32 32) u].
Proof.
  destruct speed_plateau as (Hiff & _ & Hblock & Hreach).
  split; [apply Hiff; split; [reflexivity | split; discriminate]|].
  split.
  { apply (Hblock 50%Z eq_refl eq_refl 9%Z). split; [discriminate | reflexivity]. }
  destruct (Hreach (world_at 49) (world_at_rng_valid 49) eq_refl eq_refl eq_refl)
    as (ts & w' & Hrun & Hlen & Hfast & Halert).
  destruct (Halert (speed_store (map VehicleTelemetry.speed ts))
              (_make_telemetry 120 85 32 32 32 32) counting)
    as (_ & alerts & ids' & u & Hanalyze & Htype).
  { unfold most_recent, speed_store. cbn [Store.speed_history].
    rewrite firstn_all2 by (rewrite length_rev, !length_map; lia).
    rewrite <- map_rev, map_map. cbn [SpeedEntry.speed].
    rewrite map_id. reflexivity. }
  exists ts, alerts, u. unfold run. rewrite Hrun, Hanalyze.
  repeat split; assumption.
Defined.

(** C7. [start] on a running simulator changes nothing and returns a
    status that reports the simulator as running, with its tick count and
    the start time recorded by the start that set it running; so a second
    [start] right after a first returns the first's tick count and start
    time.  [stop] on a stopped simulator changes nothing, the tick count
    least of all, and returns a status whose message is
    "Simulator not running". *)
Theorem start_stop_idle (w : VehicleSimulator.World) :
  let me := VehicleSimulator.self w in
  (VehicleSimulator._running me = true ->
   VehicleSimulator.start w
   = Ok ({| SimulationStatus.running := true;
            SimulationStatus.tick_count := VehicleSimulator._tick_count me;
            SimulationStatus.start_time :=
              SimulationStatus.start_time (VehicleSimulator.simulation me);
            SimulationStatus.message := "Simulator already running" |}, w)) /\
  (VehicleSimulator._running me = false ->
   exists first w1 second,
     VehicleSimulator.start w = Ok (first, w1) /\
     VehicleSimulator.start w1 = Ok (second, w1) /\
     VehicleSimulator._running (VehicleSimulator.self w1) = true /\
     SimulationStatus.start_time first = Some (VehicleSimulator.clock w O) /\
     SimulationStatus.tick_count first = 0%Z /\
     SimulationStatus.start_time second = SimulationStatus.start_time first /\
     SimulationStatus.tick_count second = SimulationStatus.tick_count first /\
     SimulationStatus.running second = true) /\
  (VehicleSimulator._running me = false ->
   VehicleSimulator.stop w
   = Ok ({| SimulationStatus.running := false;
            SimulationStatus.tick_count := VehicleSimulator._tick_count me;
            SimulationStatus.start_time := None;
            SimulationStatus.message := "Simulator not running" |}, w)).
Proof.
  destruct w as [me rng clock]. cbn [VehicleSimulator.self].
  split; [|split].
  - intro Hrun. unfold VehicleSimulator.start, bind, VehicleSimulator.get_self.
    cbn [VehicleSimulator.self]. rewrite Hrun. reflexivity.
  - intro Hrun. unfold VehicleSimulator.start at 1.
    unfold bind, VehicleSimulator.get_self. cbn [VehicleSimulator.self].
    rewrite Hrun. cbn.
    do 3 eexists. split; [reflexivity|].
    split; [reflexivity|]. repeat split; reflexivity.
  - intro Hrun. unfold VehicleSimulator.stop, bind, VehicleSimulator.get_self.
    cbn [VehicleSimulator.self]. rewrite Hrun. reflexivity.
Qed.

Lemma start_stop_idle_witness :
  (exists status,
     VehicleSimulator.start (world_at 7) = Ok (status, world_at 7) /\
     SimulationStatus.tick_count status = 7%Z) /\
  (exists status,
     VehicleSimulator.stop world0 = Ok (status, world0) /\
     SimulationStatus.message status = "Simulator not running"%string) /\
  (exists first w1 second,
     VehicleSimulator.start world0 = Ok (first, w1) /\
     VehicleSimulator.start w1 = Ok (second, w1) /\
     SimulationStatus.start_time second = SimulationStatus.start_time first /\
     SimulationStatus.tick_count second = SimulationStatus.tick_count first).
Proof.
  split; [|split].
  - eexists. split.
    + exact (proj1 (start_stop_idle (world_at 7)) eq_refl).
    + reflexivity.
  - eexists. split.
    + exact (proj2 (proj2 (start_stop_idle world0)) eq_refl).
    + reflexivity.
  - destruct (proj1 (proj2 (start_stop_idle world0)) eq_refl)
      as (first & w1 & second & H1 & H2 & _ & _ & _ & Htime & Htick & _).
    exists first, w1, second. repeat split; assumption.
Defined.

(** ** The claim about the alerts route *)

Lemma get_alerts_length (limit : Z) (store : DataStore.t) :
  (List.length (DataStore.get_alerts limit store) <= Z.to_nat limit)%nat.
Proof. unfold DataStore.get_alerts. apply firstn_le_length. Qed.

Lemma add_alert_newest (a : AlertModel.t) (store : DataStore.t) :
  (1 <= DataStore.max_alerts store)%nat ->
  exists older, rev (DataStore.alerts (DataStore.add_alert a store)) = a :: older.
Proof.
  intro Hcap. unfold DataStore.add_alert. cbn [DataStore.alerts].
  rewrite length_app. cbn [List.length].
  rewrite skipn_app.
  replace (List.length (DataStore.alerts store) + 1 - DataStore.max_alerts store
           - List.length (DataStore.alerts store))%nat with O by lia.
  cbn [skipn]. rewrite rev_app_distr. cbn [rev app]. eauto.
Qed.

(** C9. The alerts route answers either with a validation error, when
    the limit given is below 1 or above 200, or with the [limit] most
    recent alerts of the log, most recent first ([limit] being 50 when none
    is given): a list of at most [min(limit, 200)] alerts, whatever the
    store; and the alert added last, if the log keeps any, comes first. *)
Theorem alerts_query_bounded (limit : option Z) (store : DataStore.t) :
  match vehicle_routes.get_alerts limit store with
  | vehicle_routes.HTTP_200 body =>
      (1 <= requested limit <= 200)%Z /\
      body = most_recent (Z.to_nat (requested limit)) (DataStore.alerts store) /\
      (List.length body <= Nat.min (Z.to_nat (requested limit)) 200)%nat
  | vehicle_routes.HTTP_422 =>
      ~ (1 <= requested limit <= 200)%Z
  end /\
  forall a,
    (1 <= requested limit <= 200)%Z ->
    (1 <= DataStore.max_alerts store)%nat ->
    exists older,
      vehicle_routes.get_alerts limit (DataStore.add_alert a store)
      = vehicle_routes.HTTP_200 (a :: older).
Proof.
  unfold vehicle_routes.get_alerts. fold (requested limit). split.
  - destruct ((1 <=? requested limit) && (requested limit <=? 200))%Z eqn:E.
    + apply andb_true_iff in E. destruct E as [E1 E2].
      apply Z.leb_le in E1, E2.
      split; [lia|]. split; [reflexivity|].
      pose proof (get_alerts_length (requested limit) store). lia.
    + apply andb_false_iff in E.
      destruct E as [E|E]; apply Z.leb_gt in E; lia.
  - intros a Hlim Hcap.
    replace ((1 <=? requested limit) && (requested limit <=? 200))%Z with true
      by (symmetry; apply andb_true_iff; split; apply Z.leb_le; lia).
    destruct (add_alert_newest a store Hcap) as [older Holder].
    unfold DataStore.get_alerts. rewrite Holder.
    destruct (Z.to_nat (requested limit)) as [|n] eqn:En; [lia|].
    cbn [firstn]. eauto.
Qed.

Lemma alerts_query_bounded_witness :
  exists older,
    vehicle_routes.get_alerts (Some 5%Z)
      (DataStore.add_alert
         (speed_alert (_make_telemetry 120 85 32 32 32 32) 1%N)
         (DataStore.mk 200 []))
    = vehicle_routes.HTTP_200
        (speed_alert (_make_telemetry 120 85 32 32 32 32) 1%N :: older).
Proof.
  apply (proj2 (alerts_query_bounded (Some 5%Z) (DataStore.mk 200 []))).
  - split; discriminate.
  - simpl. lia.
Defined.

(** ** More about the analyzer *)

(** The battery rule fires exactly on a drop. *)
Lemma battery_templates_spec (t : VehicleTelemetry.t) (store : Store.t) :
  (exists oldest_soc,
     battery_dropped t store oldest_soc /\
     battery_templates t store = [battery_alert t oldest_soc])
  \/ ((forall oldest_soc, ~ battery_dropped t store oldest_soc) /\
      battery_templates t store = []).
Proof.
  unfold battery_dropped, battery_templates.
  destruct (Store.battery_history store) as [|oldest [|second rest]].
  - right. split; [|reflexivity]. intros o (Hlen & _). simpl in Hlen. lia.
  - right. split; [|reflexivity]. intros o (Hlen & _). simpl in Hlen. lia.
  - destruct (Qlt_bool_spec 5
                (binary64 (BatteryEntry.soc oldest - current_soc t)))
      as [Hlt|Hge].
    + left. exists (BatteryEntry.soc oldest). split; [|reflexivity].
      split; [simpl; lia|]. split; [reflexivity | exact Hlt].
    + right. split; [|reflexivity].
      intros o (_ & Hhd & Hdrop). simpl in Hhd. injection Hhd as <-.
      contradiction.
Qed.

(** X1. The battery alert is raised only on a drop, the drop being the
    difference the analyzer computes, oldest SoC minus current SoC in
    binary64: [analyze] returns a battery alert exactly when the history
    has at least two entries and that difference exceeds 5.0, whatever the
    entries after the oldest; when it is 5.0 or less, a rise included,
    there is none. *)
Theorem battery_alert_iff_dropped (t : VehicleTelemetry.t) (store : Store.t)
  (w : supply UUID) :
  exists alerts w',
    HealthAnalyzer.analyze t store w = Ok (alerts, w') /\
    (of_type "battery_degradation" alerts <> []
     <-> exists oldest_soc, battery_dropped t store oldest_soc) /\
    (forall oldest later,
       Store.battery_history store = oldest :: later ->
       binary64 (BatteryEntry.soc oldest - current_soc t) <= 5 ->
       of_type "battery_degradation" alerts = []).
Proof.
  rewrite analyze_eval. do 2 eexists. split; [reflexivity|].
  destruct (analyze_by_type t store w) as (_ & Hb & _). rewrite Hb.
  destruct (battery_templates_spec t store) as [(o & Hdrop & E)|[Hno E]];
    rewrite E; simpl.
  - split.
    + split; [intros _; now exists o | intros _; discriminate].
    + intros oldest later Hhist Hle. exfalso.
      destruct Hdrop as (_ & Hhd & Hlt). rewrite Hhist in Hhd. simpl in Hhd.
      injection Hhd as <-. lra.
  - split.
    + split; [intro H; now contradiction H|].
      intros [o Ho]. exfalso. exact (Hno o Ho).
    + reflexivity.
Qed.

Lemma battery_alert_iff_dropped_witness :
  exists alerts,
    run (HealthAnalyzer.analyze (_make_telemetry 60 84 32 32 32 32)
           (battery_store [85; 60; 99])) counting = Ok alerts /\
    of_type "battery_degradation" alerts = [].
Proof.
  destruct (battery_alert_iff_dropped (_make_telemetry 60 84 32 32 32 32)
              (battery_store [85; 60; 99]) counting)
    as (alerts & w' & Hrun & _ & Hquiet).
  exists alerts. unfold run. rewrite Hrun. split; [reflexivity|].
  eapply Hquiet; [reflexivity|]. discriminate.
Defined.

Lemma drop_supply_nth {T : Type} (n k : nat) (w : supply T) :
  drop_supply n w k = w (n + k)%nat.
Proof.
  revert w. induction n as [|n IH]; intro w; simpl; [reflexivity|].
  now rewrite IH.
Qed.

Lemma stamp_ids (ts : list template) (w : supply UUID) :
  Forall (fun f => forall u, AlertModel.id (f u) = u) ts ->
  map AlertModel.id (stamp ts w) = map w (seq 0 (List.length ts)).
Proof.
  intro H. revert w. induction H as [|f ts Hf _ IH]; intro w; simpl.
  - reflexivity.
  - rewrite Hf, IH. f_equal.
    rewrite <- seq_shift, map_map. reflexivity.
Qed.

Lemma rule_templates_carry_id (t : VehicleTelemetry.t) (store : Store.t) :
  Forall (fun f => forall u, AlertModel.id (f u) = u) (rule_templates t store).
Proof.
  unfold rule_templates. rewrite !Forall_app. repeat split.
  - unfold tire_templates, positions. cbn [flat_map].
    repeat match goal with
           | |- context [if ?c then _ else _] => destruct c
           end; simpl; repeat constructor.
  - unfold battery_templates.
    destruct (Store.battery_history store) as [|oldest [|second rest]];
      try constructor.
    destruct (Qlt_bool 5 _); repeat constructor.
  - unfold speed_templates.
    destruct (_ <? _)%nat; try constructor.
    destruct (forallb _ _); repeat constructor.
Qed.

Lemma NoDup_map_injective {A B : Type} (f : A -> B) (l : list A) :
  (forall x y, f x = f y -> x = y) -> NoDup l -> NoDup (map f l).
Proof.
  intros Hinj H. induction H as [|x l Hx _ IH]; simpl; constructor.
  - intro Hin. apply in_map_iff in Hin. destruct Hin as (y & Hy & Hin).
    apply Hinj in Hy. subst y. contradiction.
  - exact IH.
Qed.

(** X2. The ids of the alerts of one call are the next values of the UUID
    source, one per alert in the order of the list, and the call leaves
    the source advanced by exactly that many; so a source that never
    repeats gives the alerts of a call pairwise distinct ids. *)
Theorem analyze_ids_fresh (t : VehicleTelemetry.t) (store : Store.t)
  (w : supply UUID) :
  exists alerts w',
    HealthAnalyzer.analyze t store w = Ok (alerts, w') /\
    map AlertModel.id alerts = map w (seq 0 (List.length alerts)) /\
    (forall n, w' n = w (List.length alerts + n)%nat) /\
    ((forall i j, w i = w j -> i = j) -> NoDup (map AlertModel.id alerts)).
Proof.
  rewrite analyze_eval. do 2 eexists. split; [reflexivity|].
  rewrite stamp_length.
  assert (Hids := stamp_ids w (rule_templates_carry_id t store)).
  split; [exact Hids|]. split.
  - intro n. apply drop_supply_nth.
  - intro Hinj. rewrite Hids.
    apply NoDup_map_injective; [exact Hinj | apply seq_NoDup].
Qed.

Lemma analyze_ids_fresh_witness :
  exists alerts,
    run (HealthAnalyzer.analyze (_make_telemetry 60 85 20 21 32 32)
           (battery_store [])) counting = Ok alerts /\
    NoDup (map AlertModel.id alerts).
Proof.
  destruct (analyze_ids_fresh (_make_telemetry 60 85 20 21 32 32)
              (battery_store []) counting)
    as (alerts & w' & Hrun & _ & _ & Hdistinct).
  exists alerts. unfold run. rewrite Hrun. split; [reflexivity|].
  apply Hdistinct. unfold counting. intros i j H.
  lia.
Defined.

Lemma stamp_In (ts : list template) (w : supply UUID) (a : AlertModel.t) :
  In a (stamp ts w) -> exists f u, In f ts /\ a = f u.
Proof.
  revert w. induction ts as [|f ts IH]; intros w H; simpl in H.
  - contradiction.
  - destruct H as [<-|H].
    + exists f, (fst (pop w)). split; [now left | reflexivity].
    + destruct (IH _ H) as (g & u & Hg & ->).
      exists g, u. split; [now right | reflexivity].
Qed.

(** X3. [analyze] raises no alert without its cause: every alert it
    returns carries the snapshot's timestamp and is either the alert of a
    tire whose pressure is below 25, or the battery alert of a drop of
    more than five points as the analyzer computes it in binary64, or the
    speed alert of a sustained high speed; its value is the snapshot's
    reading for its signal. *)
Theorem analyze_sound (t : VehicleTelemetry.t) (store : Store.t)
  (w : supply UUID) :
  exists alerts w',
    HealthAnalyzer.analyze t store w = Ok (alerts, w') /\
    forall a,
      In a alerts ->
      AlertModel.timestamp a = VehicleTelemetry.timestamp t /\
      ((exists pos u,
          a = tire_alert t pos u /\ pressure_of t pos < 25 /\
          AlertModel.value a = pressure_of t pos)
       \/ (exists oldest_soc u,
             a = battery_alert t oldest_soc u /\
             battery_dropped t store oldest_soc /\
             AlertModel.value a = current_soc t)
       \/ (exists u,
             a = speed_alert t u /\ sustained_high_speed store /\
             AlertModel.value a = VehicleTelemetry.speed t)).
Proof.
  rewrite analyze_eval. do 2 eexists. split; [reflexivity|].
  intros a Ha. unfold rule_templates in Ha. rewrite !stamp_app in Ha.
  apply in_app_iff in Ha. destruct Ha as [Ha|Ha].
  - destruct (tire_alerts_signal _ _ _ Ha) as (pos & u & -> & Hlow).
    split; [reflexivity|]. left. exists pos, u. repeat split. exact Hlow.
  - apply in_app_iff in Ha. destruct Ha as [Ha|Ha].
    + destruct (battery_templates_spec t store) as [(o & Hdrop & E)|[_ E]];
        rewrite E in Ha; simpl in Ha; [|contradiction].
      destruct Ha as [<-|[]]. split; [reflexivity|].
      right. left. do 2 eexists. repeat split; try reflexivity;
        destruct Hdrop as (H1 & H2 & H3); assumption.
    + destruct (speed_templates_spec t store) as [[Hsus E]|[_ E]];
        rewrite E in Ha; simpl in Ha; [|contradiction].
      destruct Ha as [<-|[]]. split; [reflexivity|].
      right. right. eexists. repeat split; try reflexivity;
        destruct Hsus as (H1 & H2); assumption.
Qed.

Lemma analyze_sound_witness :
  exists alerts a,
    run (HealthAnalyzer.analyze (_make_telemetry 60 85 20 32 32 32)
           (battery_store [])) counting = Ok alerts /\
    In a alerts /\
    AlertModel.timestamp a = "2024-01-01T00:00:00"%string.
Proof.
  destruct (analyze_sound (_make_telemetry 60 85 20 32 32 32)
              (battery_store []) counting)
    as (alerts & w' & Hrun & Hall).
  assert (Hin : In (tire_alert (_make_telemetry 60 85 20 32 32 32) FrontLeft 0%N)
                   alerts).
  { rewrite analyze_eval in Hrun. injection Hrun as <- _. now left. }
  exists alerts, (tire_alert (_make_telemetry 60 85 20 32 32 32) FrontLeft 0%N).
  unfold run. rewrite Hrun. split; [reflexivity|]. split; [exact Hin|].
  exact (proj1 (Hall _ Hin)).
Defined.

Lemma most_recent_holds_recent {A : Type} (earlier later : list A) (x : A) :
  (List.length later < 10)%nat ->
  In x (most_recent 10 (earlier ++ x :: later)).
Proof.
  intro Hlen. unfold most_recent.
  rewrite rev_app_distr. cbn [rev]. rewrite firstn_app.
  apply in_app_iff. left.
  rewrite firstn_all2 by (rewrite length_app, length_rev; simpl; lia).
  apply in_app_iff. right. now left.
Qed.

(** X4. One slow entry silences the speed rule until ten further entries
    have been recorded: as long as an entry with speed at or below 100 has
    fewer than ten entries after it in the speed history, [analyze]
    returns no speed alert, whatever the other entries and the snapshot. *)
Theorem speed_alert_rearms_after_ten (t : VehicleTelemetry.t)
  (battery : list BatteryEntry.t) (earlier later : list SpeedEntry.t)
  (slow : SpeedEntry.t) (w : supply UUID) :
  SpeedEntry.speed slow <= 100 ->
  (List.length later < 10)%nat ->
  exists alerts w',
    HealthAnalyzer.analyze t
      {| Store.battery_history := battery;
         Store.speed_history := earlier ++ slow :: later |} w
    = Ok (alerts, w') /\
    of_type "high_speed_stress" alerts = [].
Proof.
  intros Hslow Hlen. rewrite analyze_eval. do 2 eexists.
  split; [reflexivity|].
  match goal with
  | |- of_type _ (stamp (rule_templates t ?s) w) = [] =>
      destruct (analyze_by_type t s w) as (_ & _ & Hs);
      destruct (speed_templates_spec t s) as [[Hsus _]|[_ E]]
  end.
  - exfalso. destruct Hsus as [_ Hall]. cbn [Store.speed_history] in Hall.
    rewrite Forall_forall in Hall.
    specialize (Hall slow (most_recent_holds_recent earlier later slow Hlen)).
    lra.
  - rewrite Hs, E. reflexivity.
Qed.

Lemma speed_alert_rearms_after_ten_witness :
  exists alerts,
    run (HealthAnalyzer.analyze (_make_telemetry 120 85 32 32 32 32)
           {| Store.battery_history := [];
              Store.speed_history :=
                map (SpeedEntry.mk 0) (repeat 120 20)
                ++ SpeedEntry.mk 0 100 :: map (SpeedEntry.mk 0) (repeat 120 9) |})
        counting = Ok alerts /\
    of_type "high_speed_stress" alerts = [].
Proof.
  destruct (@speed_alert_rearms_after_ten (_make_telemetry 120 85 32 32 32 32)
              [] (map (SpeedEntry.mk 0) (repeat 120 20))
              (map (SpeedEntry.mk 0) (repeat 120 9)) (SpeedEntry.mk 0 100)
              counting)
    as (alerts & w' & Hrun & Hnone).
  - discriminate.
  - simpl. lia.
  - exists alerts. unfold run. rewrite Hrun. split; [reflexivity | exact Hnone].
Defined.

Lemma tire_templates_nil_iff (t : VehicleTelemetry.t) :
  tire_templates t = [] <-> forall pos, 25 <= pressure_of t pos.
Proof.
  unfold tire_templates, positions. cbn [flat_map].
  destruct (Qlt_bool_spec (pressure_of t FrontLeft) 25) as [H1|H1];
    destruct (Qlt_bool_spec (pressure_of t FrontRight) 25) as [H2|H2];
    destruct (Qlt_bool_spec (pressure_of t RearLeft) 25) as [H3|H3];
    destruct (Qlt_bool_spec (pressure_of t RearRight) 25) as [H4|H4];
    simpl; split; intro H; try discriminate H; try reflexivity;
    try (intros []; lra);
    exfalso;
    pose proof (H FrontLeft); pose proof (H FrontRight);
    pose proof (H RearLeft); pose proof (H RearRight); lra.
Qed.

(** X5. [analyze] returns the empty list exactly for a healthy vehicle:
    every tire at 25 PSI or above, no battery drop of more than five
    points from the oldest of at least two entries (the drop being the
    difference the analyzer computes in binary64), and no sustained high
    speed. *)
Theorem no_alerts_iff_healthy (t : VehicleTelemetry.t) (store : Store.t)
  (w : supply UUID) :
  exists alerts w',
    HealthAnalyzer.analyze t store w = Ok (alerts, w') /\
    (alerts = [] <->
     (forall pos, 25 <= pressure_of t pos) /\
     (forall oldest_soc, ~ battery_dropped t store oldest_soc) /\
     ~ sustained_high_speed store).
Proof.
  rewrite analyze_eval. do 2 eexists. split; [reflexivity|].
  assert (Hnil : forall ts, stamp ts w = [] <-> ts = []).
  { intros [|f ts]; simpl; split; intro H; try reflexivity; discriminate H. }
  rewrite Hnil. unfold rule_templates.
  rewrite <- tire_templates_nil_iff.
  destruct (battery_templates_spec t store) as [(o & Hdrop & Eb)|[Hno Eb]];
    destruct (speed_templates_spec t store) as [[Hsus Es]|[Hns Es]];
    rewrite Eb, Es; split.
  - intro H. apply app_eq_nil in H. destruct H as [_ H]. discriminate H.
  - intros (_ & Hb & _). exfalso. exact (Hb o Hdrop).
  - intro H. apply app_eq_nil in H. destruct H as [_ H]. discriminate H.
  - intros (_ & Hb & _). exfalso. exact (Hb o Hdrop).
  - intro H. apply app_eq_nil in H. destruct H as [_ H]. discriminate H.
  - intros (_ & _ & Hs). contradiction.
  - intro H. apply app_eq_nil in H. destruct H as [H _].
    repeat split; assumption.
  - intros (Ht & _ & _). rewrite Ht. reflexivity.
Qed.

(** X6. The tire alerts of [analyze] come in the fixed order front left,
    front right, rear left, rear right: their signal names are those of
    the positions below 25 PSI, in that order. *)
Theorem tire_alerts_in_position_order (t : VehicleTelemetry.t)
  (store : Store.t) (w : supply UUID) :
  exists alerts w',
    HealthAnalyzer.analyze t store w = Ok (alerts, w') /\
    map AlertModel.signal (of_type "tire_pressure_low" alerts)
    = map signal_id
        (filter (fun pos => Qlt_bool (pressure_of t pos) 25) positions).
Proof.
  rewrite analyze_eval. do 2 eexists. split; [reflexivity|].
  destruct (analyze_by_type t store w) as (Ht & _ & _). rewrite Ht.
  unfold tire_templates, positions. cbn [flat_map filter].
  destruct (Qlt_bool (pressure_of t FrontLeft) 25);
    destruct (Qlt_bool (pressure_of t FrontRight) 25);
    destruct (Qlt_bool (pressure_of t RearLeft) 25);
    destruct (Qlt_bool (pressure_of t RearRight) 25);
    reflexivity.
Qed.

(** ** One tick, section by section, in full *)

(** One tire of the random walk, with or without the sudden drop. *)
Ltac tire_walk :=
  unfold tire_stepped; eexists;
  (split;
   [| first [ left; split; [discriminate | reflexivity]
            | right; split; [reflexivity|]; eexists;
              (split; [|reflexivity]);
              apply uniform_within;
              [lra | match goal with H : rng_valid _ |- _ => apply H end] ]]);
  apply uniform_within;
  [lra | match goal with H : rng_valid _ |- _ => apply H end].

Section Effects.
Import VehicleSimulator.

Variable w : World.
Hypothesis Hrng : rng_valid (rng w).

Lemma speed_simulation_effect :
  wp speed_simulation w (fun _ w' =>
    rng_valid (rng w') /\ clock w' = clock w /\
    exists d v,
      self w' = set_speed v (set_speed_direction d (self w)) /\
      speed_stepped (self w) d v).
Proof.
  assert (Hwalk : within 1 5 (1 + (5 - 1) * rng w 1%nat))
    by (apply uniform_within; [lra | apply Hrng]).
  assert (Hp : within 105 130 (105 + (130 - 105) * rng w 2%nat))
    by (apply uniform_within; [lra | apply Hrng]).
  unfold speed_simulation. sim_run; sim_fields;
    (split; [intro n; apply Hrng|]); (split; [reflexivity|]);
    unfold speed_stepped;
    match goal with
    | H : plateau _ = _ |- _ => rewrite H
    end.
  - exists (_speed_direction (self w) * -1)%Z, (105 + (130 - 105) * rng w 2%nat).
    split; [reflexivity|]. split; [now right | exact Hp].
  - eexists (_speed_direction (self w) * -1)%Z, _.
    split; [reflexivity|]. split; [now right|].
    eexists. split; [exact Hwalk | reflexivity].
  - exists (_speed_direction (self w)), (105 + (130 - 105) * rng w 2%nat).
    split; [reflexivity|]. split; [now left | exact Hp].
  - eexists (_speed_direction (self w)), _.
    split; [reflexivity|]. split; [now left|].
    eexists. split; [exact Hwalk | reflexivity].
Qed.

Lemma battery_simulation_effect :
  wp battery_simulation w (fun health_status w' =>
    rng_valid (rng w') /\ clock w' = clock w /\
    exists c temp,
      self w' = set_battery_temp temp
                  (set_battery_voltage (350 + c / 100 * 50)
                     (set_battery_soc c (self w))) /\
      battery_stepped (_battery_soc (self w)) c /\
      within 23 30 temp /\
      health_status = health_of c).
Proof.
  assert (Hdrain : within (5 # 100) (2 # 10)
                     ((5 # 100) + ((2 # 10) - (5 # 100)) * rng w 0%nat))
    by (apply uniform_within; [lra | apply Hrng]).
  unfold battery_simulation. sim_run; sim_fields;
    (split; [intro n; apply Hrng|]); (split; [reflexivity|]);
    do 2 eexists; (split; [reflexivity|]);
    (split; [|split; [|reflexivity]]).
  - eexists. split; [exact Hdrain|]. right.
    eexists. split; [|reflexivity].
    apply uniform_within; [lra | apply Hrng].
  - assert (Htemp : within (-2) 5 (-2 + (5 - -2) * rng w 3%nat))
      by (apply uniform_within; [lra | apply Hrng]).
    unfold within in *. lra.
  - eexists. split; [exact Hdrain|]. left. reflexivity.
  - assert (Htemp : within (-2) 5 (-2 + (5 - -2) * rng w 2%nat))
      by (apply uniform_within; [lra | apply Hrng]).
    unfold within in *. lra.
Qed.

Lemma tire_simulation_effect :
  wp tire_simulation w (fun _ w' =>
    rng_valid (rng w') /\ clock w' = clock w /\
    exists fl fr rl rr hit,
      self w' = set_tire_rr rr (set_tire_rl rl (set_tire_fr fr
                  (set_tire_fl fl (self w)))) /\
      tire_stepped hit FrontLeft (_tire_fl (self w)) fl /\
      tire_stepped hit FrontRight (_tire_fr (self w)) fr /\
      tire_stepped hit RearLeft (_tire_rl (self w)) rl /\
      tire_stepped hit RearRight (_tire_rr (self w)) rr).
Proof.
  unfold tire_simulation. sim_run; sim_fields;
    (split; [intro n; apply Hrng|]); (split; [reflexivity|]);
    do 4 eexists;
    first [ exists (Some FrontLeft); split; [reflexivity|];
            (split; [|split; [|split]]); tire_walk
          | exists (Some FrontRight); split; [reflexivity|];
            (split; [|split; [|split]]); tire_walk
          | exists (Some RearLeft); split; [reflexivity|];
            (split; [|split; [|split]]); tire_walk
          | exists (Some RearRight); split; [reflexivity|];
            (split; [|split; [|split]]); tire_walk
          | exists None; split; [reflexivity|];
            (split; [|split; [|split]]); tire_walk ].
Qed.

Lemma odometer_update_effect :
  wp odometer_update w (fun _ w' =>
    rng w' = rng w /\ clock w' = clock w /\
    self w' = set_odometer (_odometer (self w) + _speed (self w) / 3600)
                (self w)).
Proof.
  unfold odometer_update. sim_run. repeat split; reflexivity.
Qed.

End Effects.

(** [_generate_telemetry] in full: the state it leaves is a tick away from
    the state it found, and the snapshot is that of the state it leaves,
    stamped with the clock's reading. *)
Lemma _generate_telemetry_effect (w : VehicleSimulator.World) :
  rng_valid (VehicleSimulator.rng w) ->
  wp VehicleSimulator._generate_telemetry w (fun t w' =>
    rng_valid (VehicleSimulator.rng w') /\
    ticked (VehicleSimulator.self w) (VehicleSimulator.self w') /\
    t = snapshot_of (VehicleSimulator.clock w O) (VehicleSimulator.self w')).
Proof.
  intro Hrng. unfold VehicleSimulator._generate_telemetry.
  apply wp_bind.
  eapply wp_mono; [apply speed_simulation_effect, Hrng|].
  intros _ w1 (Hr1 & Hk1 & d & v & E1 & Hspeed). cbv beta.
  apply wp_bind.
  eapply wp_mono; [apply battery_simulation_effect, Hr1|].
  intros health_status w2 (Hr2 & Hk2 & c & temp & E2 & Hbatt & Htemp & ->).
  cbv beta.
  apply wp_bind.
  eapply wp_mono; [apply tire_simulation_effect, Hr2|].
  intros _ w3 (Hr3 & Hk3 & fl & fr & rl & rr & hit & E3 & Hfl & Hfr & Hrl & Hrr).
  cbv beta.
  apply wp_bind.
  eapply wp_mono; [apply odometer_update_effect|].
  intros _ w4 (Hr4 & Hk4 & E4). cbv beta.
  sim_run.
  split; [rewrite Hr4; exact Hr3|].
  rewrite E4, E3, E2, E1 in *. sim_fields.
  split.
  - exists d, v, c, temp, fl, fr, rl, rr, hit.
    split; [reflexivity|].
    do 6 (split; [assumption|]). assumption.
  - unfold snapshot_of. sim_fields.
    rewrite Hk4, Hk3, Hk2, Hk1. reflexivity.
Qed.

(** A clamped value stays on the side of a bound where the input is. *)
Lemma clamp_le (lo hi x y : Q) :
  lo <= hi -> x <= y -> lo <= y -> VehicleSimulator.clamp lo hi x <= y.
Proof.
  intros Hle Hxy Hlo. unfold VehicleSimulator.clamp.
  destruct (py_min_spec hi x) as (_ & Hm & _).
  destruct (py_max_spec lo (py_min hi x)) as (_ & _ & [E|E]); rewrite E; lra.
Qed.

Lemma clamp_ge (lo hi x y : Q) :
  lo <= hi -> y <= x -> y <= hi -> y <= VehicleSimulator.clamp lo hi x.
Proof.
  intros Hle Hxy Hhi. unfold VehicleSimulator.clamp.
  destruct (py_min_spec hi x) as (_ & _ & [E|E]);
    destruct (py_max_spec lo (py_min hi x)) as (_ & HM & _); rewrite E in *; lra.
Qed.

(** ** More about rounding *)

Lemma round_half_even_mono (x y : Q) :
  x <= y -> (round_half_even x <= round_half_even y)%Z.
Proof.
  intro Hxy.
  pose proof (Qfloor_resp_le _ _ Hxy) as Hfl.
  pose proof (round_half_even_near x) as [_ Hx].
  pose proof (round_half_even_near y) as [Hy _].
  destruct (Z.eq_dec (Qfloor x) (Qfloor y)) as [E|E]; [|lia].
  unfold round_half_even. rewrite E.
  destruct (Qlt_bool_spec (x - inject_Z (Qfloor y)) (1 # 2)) as [X1|X1];
    destruct (Qlt_bool_spec (1 # 2) (x - inject_Z (Qfloor y))) as [X2|X2];
    destruct (Qlt_bool_spec (y - inject_Z (Qfloor y)) (1 # 2)) as [Y1|Y1];
    destruct (Qlt_bool_spec (1 # 2) (y - inject_Z (Qfloor y))) as [Y2|Y2];
    destruct (Z.even (Qfloor y)); try lia; exfalso; lra.
Qed.

Lemma round1_mono (x y : Q) : x <= y -> round1 x <= round1 y.
Proof.
  intro Hxy.
  assert (H : (round_half_even (x * 10) <= round_half_even (y * 10))%Z)
    by (apply round_half_even_mono; lra).
  unfold round1, Qle. simpl. lia.
Qed.

(** Bounds in tenths are kept by rounding to one decimal. *)
Lemma round1_within_tenths (lo hi : Z) (x : Q) :
  within (lo # 10) (hi # 10) x -> within (lo # 10) (hi # 10) (round1 x).
Proof.
  intros [Hlo Hhi].
  assert (Hb : (lo <= round_half_even (x * 10) <= hi)%Z).
  { apply round_half_even_bounds. split.
    - setoid_replace (inject_Z lo) with ((lo # 10) * 10)
        by (unfold Qeq; simpl; lia).
      lra.
    - setoid_replace (inject_Z hi) with ((hi # 10) * 10)
        by (unfold Qeq; simpl; lia).
      lra. }
  unfold within, round1, Qle. simpl. lia.
Qed.

(** Rounding to one decimal moves a value by at most 0.05. *)
Lemma round1_close (x : Q) :
  x - (5 # 100) <= round1 x /\ round1 x <= x + (5 # 100).
Proof.
  assert (H : inject_Z (round_half_even (x * 10)) - (1 # 2) <= x * 10 /\
              x * 10 <= inject_Z (round_half_even (x * 10)) + (1 # 2)).
  { pose proof (Qfloor_le (x * 10)) as Hf.
    pose proof (Qlt_floor (x * 10)) as Hc.
    rewrite inject_Z_plus in Hc. change (inject_Z 1) with 1 in Hc.
    unfold round_half_even.
    destruct (Qlt_bool_spec (x * 10 - inject_Z (Qfloor (x * 10))) (1 # 2))
      as [X1|X1]; [lra|].
    destruct (Qlt_bool_spec (1 # 2) (x * 10 - inject_Z (Qfloor (x * 10))))
      as [X2|X2].
    - rewrite inject_Z_plus. change (inject_Z 1) with 1. lra.
    - destruct (Z.even _);
        rewrite ?inject_Z_plus; change (inject_Z 1) with 1; lra. }
  assert (E : round1 x == inject_Z (round_half_even (x * 10)) / 10).
  { unfold round1. rewrite Qmake_Qdiv. reflexivity. }
  rewrite E. split.
  - apply Qle_shift_div_l; lra.
  - apply Qle_shift_div_r; lra.
Qed.

(** ** More about one tick *)

Lemma _generate_telemetry_run (w : VehicleSimulator.World) :
  rng_valid (VehicleSimulator.rng w) ->
  exists t w',
    VehicleSimulator._generate_telemetry w = Ok (t, w') /\
    rng_valid (VehicleSimulator.rng w') /\
    ticked (VehicleSimulator.self w) (VehicleSimulator.self w') /\
    t = snapshot_of (VehicleSimulator.clock w O) (VehicleSimulator.self w').
Proof.
  intro Hrng.
  exact (@wp_run _ _ _ _ _ (@_generate_telemetry_effect w Hrng)).
Qed.

Lemma speed_stepped_within (s : VehicleSimulator.t) (d : Z) (v : Q) :
  speed_stepped s d v -> within 0 140 v.
Proof.
  intros [_ H]. destruct (VehicleSimulator.plateau _).
  - unfold within in *. lra.
  - destruct H as (u & _ & ->). apply clamp_bounds. lra.
Qed.

Lemma battery_stepped_within (soc c : Q) :
  battery_stepped soc c -> within 5 100 c.
Proof.
  intros (drain & _ & [->|(drop & _ & ->)]); apply clamp_bounds; lra.
Qed.

Lemma tire_stepped_within (hit : option TirePosition) (pos : TirePosition)
  (old new : Q) :
  tire_stepped hit pos old new -> within 15 40 new.
Proof.
  intros (d & _ & [[_ ->]|(_ & drop & _ & ->)]); apply clamp_bounds; lra.
Qed.

(** X7. Each tick adds to the odometer the distance of one second at the
    new speed, [speed / 3600]: the odometer never goes back and gains at
    most 140/3600 km a tick; the snapshot reports it rounded. *)
Theorem odometer_advances (w : VehicleSimulator.World) :
  rng_valid (VehicleSimulator.rng w) ->
  exists t w',
    VehicleSimulator._generate_telemetry w = Ok (t, w') /\
    let s := VehicleSimulator.self w in
    let s' := VehicleSimulator.self w' in
    VehicleSimulator._odometer s'
    = VehicleSimulator._odometer s + VehicleSimulator._speed s' / 3600 /\
    VehicleSimulator._odometer s <= VehicleSimulator._odometer s' /\
    VehicleSimulator._odometer s'
    <= VehicleSimulator._odometer s + (140 # 3600) /\
    VehicleTelemetry.odometer t = round1 (VehicleSimulator._odometer s').
Proof.
  intro Hrng.
  destruct (_generate_telemetry_run w Hrng) as (t & w' & Hrun & _ & Htick & ->).
  exists (snapshot_of (VehicleSimulator.clock w O) (VehicleSimulator.self w')), w'.
  split; [exact Hrun|]. cbv zeta.
  destruct Htick as (d & v & c & temp & fl & fr & rl & rr & hit & E & Hspeed & _).
  rewrite E. sim_fields.
  apply speed_stepped_within in Hspeed. destruct Hspeed as [H0 H140].
  split; [reflexivity|].
  assert (Hdiv : v / 3600 == v * (1 # 3600)) by (unfold Qdiv; reflexivity).
  split; [rewrite Hdiv; lra|].
  split; [rewrite Hdiv; lra|].
  reflexivity.
Qed.

Lemma odometer_advances_witness :
  exists t w',
    VehicleSimulator._generate_telemetry (world_at 0) = Ok (t, w') /\
    15000 <= VehicleSimulator._odometer (VehicleSimulator.self w').
Proof.
  destruct (odometer_advances (world_at 0) (world_at_rng_valid 0))
    as (t & w' & Hrun & _ & Hle & _).
  exists t, w'. split; [exact Hrun | exact Hle].
Defined.

(** X8. A tick never charges the battery: from a state of charge within
    [[5, 100]] the new one is no higher, and lower by at most 8.2 points,
    the gradual drain of at most 0.2 and a rapid drop of at most 8. *)
Theorem battery_drains (w : VehicleSimulator.World) :
  rng_valid (VehicleSimulator.rng w) ->
  within 5 100 (VehicleSimulator._battery_soc (VehicleSimulator.self w)) ->
  exists t w',
    VehicleSimulator._generate_telemetry w = Ok (t, w') /\
    let soc := VehicleSimulator._battery_soc (VehicleSimulator.self w) in
    let soc' := VehicleSimulator._battery_soc (VehicleSimulator.self w') in
    soc' <= soc /\ soc - (82 # 10) <= soc' /\
    current_soc t = round1 soc' /\ current_soc t <= round1 soc.
Proof.
  intros Hrng [Hlo Hhi].
  destruct (_generate_telemetry_run w Hrng) as (t & w' & Hrun & _ & Htick & ->).
  exists (snapshot_of (VehicleSimulator.clock w O) (VehicleSimulator.self w')), w'.
  split; [exact Hrun|]. cbv zeta.
  destruct Htick as (d & v & c & temp & fl & fr & rl & rr & hit & E & _ & Hbatt & _).
  unfold current_soc, snapshot_of. rewrite E. sim_fields.
  cbn [VehicleTelemetry.battery BatteryHealth.soc].
  assert (Hc : c <= VehicleSimulator._battery_soc (VehicleSimulator.self w) /\
               VehicleSimulator._battery_soc (VehicleSimulator.self w) - (82 # 10)
               <= c).
  { destruct Hbatt as (drain & [Hd1 Hd2] & [->|(drop & [Hp1 Hp2] & ->)]); split;
      first [apply clamp_le; lra | apply clamp_ge; lra]. }
  destruct Hc as [Hc1 Hc2].
  split; [exact Hc1|]. split; [exact Hc2|]. split; [reflexivity|].
  apply round1_mono, Hc1.
Qed.

Lemma battery_drains_witness :
  exists t w',
    VehicleSimulator._generate_telemetry (world_at 0) = Ok (t, w') /\
    VehicleSimulator._battery_soc (VehicleSimulator.self w') <= 95.
Proof.
  destruct (battery_drains (world_at 0) (world_at_rng_valid 0))
    as (t & w' & Hrun & Hle & _).
  - split; discriminate.
  - exists t, w'. split; [exact Hrun | exact Hle].
Defined.

(** X9. The battery readings of every snapshot: the voltage is that of
    the state of charge, [350 + soc / 100 * 50] before rounding, so within
    [[352.5, 400]]; the temperature is within [[23, 30]]. *)
Theorem battery_readings (w : VehicleSimulator.World) :
  rng_valid (VehicleSimulator.rng w) ->
  exists t w',
    VehicleSimulator._generate_telemetry w = Ok (t, w') /\
    let s' := VehicleSimulator.self w' in
    VehicleSimulator._battery_voltage s'
    = 350 + VehicleSimulator._battery_soc s' / 100 * 50 /\
    BatteryHealth.voltage (VehicleTelemetry.battery t)
    = round1 (VehicleSimulator._battery_voltage s') /\
    within (3525 # 10) (4000 # 10)
      (BatteryHealth.voltage (VehicleTelemetry.battery t)) /\
    within (230 # 10) (300 # 10)
      (BatteryHealth.temperature (VehicleTelemetry.battery t)).
Proof.
  intro Hrng.
  destruct (_generate_telemetry_run w Hrng) as (t & w' & Hrun & _ & Htick & ->).
  exists (snapshot_of (VehicleSimulator.clock w O) (VehicleSimulator.self w')), w'.
  split; [exact Hrun|]. cbv zeta.
  destruct Htick as (d & v & c & temp & fl & fr & rl & rr & hit & E & _ & Hbatt
                     & Htemp & _).
  unfold snapshot_of. rewrite E. sim_fields.
  cbn [VehicleTelemetry.battery BatteryHealth.voltage BatteryHealth.temperature].
  apply battery_stepped_within in Hbatt. destruct Hbatt as [Hlo Hhi].
  split; [reflexivity|]. split; [reflexivity|]. split.
  - apply round1_within_tenths.
    assert (Hv : 350 + c / 100 * 50 == 350 + c * (1 # 2))
      by (unfold Qdiv; change (/ 100) with (1 # 100); ring).
    unfold within. rewrite Hv. split; lra.
  - apply round1_within_tenths. unfold within in *. lra.
Qed.

Lemma battery_readings_witness :
  exists t w',
    VehicleSimulator._generate_telemetry (world_at 0) = Ok (t, w') /\
    within (3525 # 10) (4000 # 10)
      (BatteryHealth.voltage (VehicleTelemetry.battery t)).
Proof.
  destruct (battery_readings (world_at 0) (world_at_rng_valid 0))
    as (t & w' & Hrun & _ & _ & Hv & _).
  exists t, w'. split; [exact Hrun | exact Hv].
Defined.

(** X10. The health label of a snapshot is one of Low, Fair and Good and
    agrees with the state of charge the snapshot reports, up to the
    boundaries: Low comes with a reported SoC of at most 20, Fair with one
    between 20 and 50, Good with one of at least 50.  (The label is taken
    before rounding, so a reported 20.0 can be Low and a reported 50.0
    Fair.) *)
Theorem health_status_agrees (w : VehicleSimulator.World) :
  rng_valid (VehicleSimulator.rng w) ->
  exists t w',
    VehicleSimulator._generate_telemetry w = Ok (t, w') /\
    let label := BatteryHealth.health_status (VehicleTelemetry.battery t) in
    (label = "Low"%string /\ within 5 20 (current_soc t)) \/
    (label = "Fair"%string /\ within 20 50 (current_soc t)) \/
    (label = "Good"%string /\ within 50 100 (current_soc t)).
Proof.
  intro Hrng.
  destruct (_generate_telemetry_run w Hrng) as (t & w' & Hrun & _ & Htick & ->).
  exists (snapshot_of (VehicleSimulator.clock w O) (VehicleSimulator.self w')), w'.
  split; [exact Hrun|]. cbv zeta.
  destruct Htick as (d & v & c & temp & fl & fr & rl & rr & hit & E & _ & Hbatt & _).
  unfold current_soc, snapshot_of. rewrite E. sim_fields.
  cbn [VehicleTelemetry.battery BatteryHealth.soc BatteryHealth.health_status].
  apply battery_stepped_within in Hbatt. destruct Hbatt as [Hlo Hhi].
  unfold health_of.
  destruct (Qlt_bool_spec c 20) as [H20|H20].
  - left. split; [reflexivity|].
    apply (@within_round1 5 20). unfold within, inject_Z. split; lra.
  - destruct (Qlt_bool_spec c 50) as [H50|H50].
    + right. left. split; [reflexivity|].
      apply (@within_round1 20 50). unfold within, inject_Z. split; lra.
    + right. right. split; [reflexivity|].
      apply (@within_round1 50 100). unfold within, inject_Z. split; lra.
Qed.

Lemma health_status_agrees_witness :
  exists t w',
    VehicleSimulator._generate_telemetry (world_at 0) = Ok (t, w') /\
    ((BatteryHealth.health_status (VehicleTelemetry.battery t) = "Low"%string /\
      within 5 20 (current_soc t)) \/
     (BatteryHealth.health_status (VehicleTelemetry.battery t) = "Fair"%string /\
      within 20 50 (current_soc t)) \/
     (BatteryHealth.health_status (VehicleTelemetry.battery t) = "Good"%string /\
      within 50 100 (current_soc t))).
Proof.
  exact (health_status_agrees (world_at 0) (world_at_rng_valid 0)).
Defined.

Lemma tire_stepped_range (hit : option TirePosition) (pos : TirePosition)
  (old new : Q) :
  within 15 40 old ->
  tire_stepped hit pos old new ->
  old - (151 # 10) <= new /\ new <= old + (1 # 10) /\
  (hit <> Some pos -> old - (1 # 10) <= new).
Proof.
  intros [Hlo Hhi] (d & [Hd1 Hd2] & [[Hmiss ->]|(Hhit & drop & [Hp1 Hp2] & ->)]).
  - split; [apply clamp_ge; lra|]. split; [apply clamp_le; lra|].
    intros _. apply clamp_ge; lra.
  - split; [apply clamp_ge; lra|]. split; [apply clamp_le; lra|].
    intro H. contradiction.
Qed.

(** X11. A sudden pressure drop hits one tire a tick at most: from tire
    pressures within [[15, 40]], all four tires but at most one move by
    no more than 0.1 PSI in a tick; no tire gains more than 0.1 PSI, none
    loses more than 15.1. *)
Theorem one_tire_drops (w : VehicleSimulator.World) :
  rng_valid (VehicleSimulator.rng w) ->
  (forall pos, within 15 40 (tire_of (VehicleSimulator.self w) pos)) ->
  exists t w',
    VehicleSimulator._generate_telemetry w = Ok (t, w') /\
    exists hit : option TirePosition,
      forall pos,
        let old := tire_of (VehicleSimulator.self w) pos in
        let new := tire_of (VehicleSimulator.self w') pos in
        old - (151 # 10) <= new /\ new <= old + (1 # 10) /\
        (hit <> Some pos -> old - (1 # 10) <= new) /\
        pressure_of t pos = round1 new.
Proof.
  intros Hrng Htires.
  destruct (_generate_telemetry_run w Hrng) as (t & w' & Hrun & _ & Htick & ->).
  exists (snapshot_of (VehicleSimulator.clock w O) (VehicleSimulator.self w')), w'.
  split; [exact Hrun|].
  destruct Htick as (d & v & c & temp & fl & fr & rl & rr & hit & E & _ & _ & _
                     & Hfl & Hfr & Hrl & Hrr).
  exists hit. intro pos. cbv zeta. rewrite E.
  pose proof (Htires pos) as Hin.
  destruct pos; cbn [tire_of] in *; sim_fields;
    [ destruct (tire_stepped_range Hin Hfl) as (H1 & H2 & H3)
    | destruct (tire_stepped_range Hin Hfr) as (H1 & H2 & H3)
    | destruct (tire_stepped_range Hin Hrl) as (H1 & H2 & H3)
    | destruct (tire_stepped_range Hin Hrr) as (H1 & H2 & H3) ];
    repeat split; try assumption.
Qed.

Lemma one_tire_drops_witness :
  exists t w',
    VehicleSimulator._generate_telemetry (world_at 0) = Ok (t, w') /\
    VehicleSimulator._tire_fl (VehicleSimulator.self w') <= 32 + (1 # 10).
Proof.
  destruct (one_tire_drops (world_at 0) (world_at_rng_valid 0))
    as (t & w' & Hrun & hit & Hall).
  - intros []; split; discriminate.
  - exists t, w'. split; [exact Hrun|].
    exact (proj1 (proj2 (Hall FrontLeft))).
Defined.

(** X12. Outside the plateau the speed moves by at most 5 km/h a tick:
    from a speed within [[0, 140]] and a direction flag of 1 or -1, on a
    tick whose count is not a plateau tick, the new speed differs from the
    old by at most 5; the direction flag stays 1 or -1 on every tick. *)
Theorem speed_step_bounded (w : VehicleSimulator.World) :
  rng_valid (VehicleSimulator.rng w) ->
  sim_inv (VehicleSimulator.self w) ->
  exists t w',
    VehicleSimulator._generate_telemetry w = Ok (t, w') /\
    let s := VehicleSimulator.self w in
    let s' := VehicleSimulator.self w' in
    (VehicleSimulator._speed_direction s' = 1%Z \/
     VehicleSimulator._speed_direction s' = (-1)%Z) /\
    (VehicleSimulator.plateau (VehicleSimulator._tick_count s) = false ->
     VehicleSimulator._speed s - 5 <= VehicleSimulator._speed s' /\
     VehicleSimulator._speed s' <= VehicleSimulator._speed s + 5).
Proof.
  intros Hrng [(Hspeed0 & _) Hdir].
  destruct (_generate_telemetry_run w Hrng) as (t & w' & Hrun & _ & Htick & ->).
  exists (snapshot_of (VehicleSimulator.clock w O) (VehicleSimulator.self w')), w'.
  split; [exact Hrun|]. cbv zeta.
  destruct Htick as (d & v & c & temp & fl & fr & rl & rr & hit & E & Hspeed & _).
  rewrite E. sim_fields.
  destruct Hspeed as [Hd Hv].
  assert (Hd' : d = 1%Z \/ d = (-1)%Z) by (destruct Hd, Hdir; subst; lia).
  split; [exact Hd'|].
  intro Hoff. rewrite Hoff in Hv. destruct Hv as (u & [Hu1 Hu2] & ->).
  destruct Hspeed0 as [H0 H140].
  destruct Hd' as [->| ->].
  - change (inject_Z 1) with 1.
    split; [apply clamp_ge; lra | apply clamp_le; lra].
  - change (inject_Z (-1)) with (-1 # 1).
    split; [apply clamp_ge; lra | apply clamp_le; lra].
Qed.

Lemma world0_inv : sim_inv (VehicleSimulator.self world0).
Proof.
  split; [|now left].
  unfold state_clamped, within. cbn. repeat split; discriminate.
Qed.

Lemma world_at_inv (tc : Z) : sim_inv (VehicleSimulator.self (world_at tc)).
Proof.
  split; [|now left].
  unfold state_clamped, within. cbn. repeat split; discriminate.
Qed.

Lemma speed_step_bounded_witness :
  exists t w',
    VehicleSimulator._generate_telemetry (world_at 1) = Ok (t, w') /\
    VehicleSimulator._speed (VehicleSimulator.self w') <= 0 + 5.
Proof.
  destruct (speed_step_bounded (world_at 1) (world_at_rng_valid 1)
              (world_at_inv 1))
    as (t & w' & Hrun & _ & Hstep).
  exists t, w'. split; [exact Hrun|].
  exact (proj2 (Hstep eq_refl)).
Defined.

(** X13. A snapshot reports the state [_generate_telemetry] leaves
    behind: its timestamp is the clock's reading, its engine status
    "running", and its speed, state of charge, tire pressures and odometer
    are each within 0.05 of the simulator's own value. *)
Theorem snapshot_reports_state (w : VehicleSimulator.World) :
  rng_valid (VehicleSimulator.rng w) ->
  exists t w',
    VehicleSimulator._generate_telemetry w = Ok (t, w') /\
    let s' := VehicleSimulator.self w' in
    let close (x y : Q) := x - (5 # 100) <= y /\ y <= x + (5 # 100) in
    VehicleTelemetry.timestamp t = VehicleSimulator.clock w O /\
    VehicleTelemetry.engine_status t = "running"%string /\
    close (VehicleSimulator._speed s') (VehicleTelemetry.speed t) /\
    close (VehicleSimulator._battery_soc s') (current_soc t) /\
    close (VehicleSimulator._odometer s') (VehicleTelemetry.odometer t) /\
    forall pos, close (tire_of s' pos) (pressure_of t pos).
Proof.
  intro Hrng.
  destruct (_generate_telemetry_run w Hrng) as (t & w' & Hrun & _ & _ & ->).
  exists (snapshot_of (VehicleSimulator.clock w O) (VehicleSimulator.self w')), w'.
  split; [exact Hrun|]. cbv zeta.
  split; [reflexivity|]. split; [reflexivity|].
  split; [apply round1_close|]. split; [apply round1_close|].
  split; [apply round1_close|].
  intros []; apply round1_close.
Qed.

Lemma snapshot_reports_state_witness :
  exists t w',
    VehicleSimulator._generate_telemetry (world_at 0) = Ok (t, w') /\
    VehicleTelemetry.timestamp t = "2024-01-01T00:00:00"%string.
Proof.
  destruct (snapshot_reports_state (world_at 0) (world_at_rng_valid 0))
    as (t & w' & Hrun & Hstamp & _).
  exists t, w'. split; [exact Hrun | exact Hstamp].
Defined.

(** ** Runs of the loop *)

Lemma loop_body_effect (w : VehicleSimulator.World) :
  rng_valid (VehicleSimulator.rng w) ->
  wp VehicleSimulator.loop_body w (fun t w' =>
    rng_valid (VehicleSimulator.rng w') /\
    passed (VehicleSimulator.self w) (VehicleSimulator.self w') t).
Proof.
  intro Hrng. unfold VehicleSimulator.loop_body.
  do 3 sim_step.
  apply wp_bind.
  eapply wp_mono; [apply _generate_telemetry_effect; exact Hrng|].
  intros t w1 (Hr1 & Htick & ->). cbv beta.
  sim_fields. sim_run. sim_fields.
  split; [exact Hr1|].
  exists (VehicleSimulator.self w1), (VehicleSimulator.clock w O).
  split; [exact Htick|]. split; reflexivity.
Qed.

Lemma passed_control (s s1 : VehicleSimulator.t) (t : VehicleTelemetry.t) :
  passed s s1 t ->
  VehicleSimulator._running s1 = VehicleSimulator._running s /\
  VehicleSimulator._task s1 = VehicleSimulator._task s /\
  VehicleSimulator._tick_count s1 = (VehicleSimulator._tick_count s + 1)%Z /\
  VehicleSimulator.simulation s1
  = {| SimulationStatus.running :=
         SimulationStatus.running (VehicleSimulator.simulation s);
       SimulationStatus.tick_count := (VehicleSimulator._tick_count s + 1)%Z;
       SimulationStatus.start_time :=
         SimulationStatus.start_time (VehicleSimulator.simulation s);
       SimulationStatus.message :=
         SimulationStatus.message (VehicleSimulator.simulation s) |}.
Proof.
  intros (s0 & now & Htick & -> & _).
  destruct Htick as (d & v & c & temp & fl & fr & rl & rr & hit & -> & _).
  unfold synced. sim_fields. repeat split; reflexivity.
Qed.

Lemma passed_physical (s s1 : VehicleSimulator.t) (t : VehicleTelemetry.t) :
  passed s s1 t ->
  state_clamped s1 /\
  VehicleSimulator._odometer s <= VehicleSimulator._odometer s1 /\
  VehicleTelemetry.odometer t = round1 (VehicleSimulator._odometer s1) /\
  current_soc t = round1 (VehicleSimulator._battery_soc s1) /\
  (5 <= VehicleSimulator._battery_soc s ->
   VehicleSimulator._battery_soc s1 <= VehicleSimulator._battery_soc s) /\
  ((VehicleSimulator._speed_direction s = 1%Z \/
    VehicleSimulator._speed_direction s = (-1)%Z) ->
   (VehicleSimulator._speed_direction s1 = 1%Z \/
    VehicleSimulator._speed_direction s1 = (-1)%Z)).
Proof.
  intros (s0 & now & Htick & -> & ->).
  destruct Htick as (d & v & c & temp & fl & fr & rl & rr & hit & -> & Hspeed
                     & Hbatt & _ & Hfl & Hfr & Hrl & Hrr).
  unfold state_clamped, current_soc, snapshot_of. sim_fields.
  cbn [VehicleTelemetry.odometer VehicleTelemetry.battery BatteryHealth.soc].
  pose proof (speed_stepped_within Hspeed) as Hv.
  pose proof (battery_stepped_within Hbatt) as Hc.
  split.
  { repeat split; try apply Hv; try apply Hc;
      eauto using tire_stepped_within;
      match goal with
      | H : tire_stepped _ _ _ ?x |- _ <= ?x => apply (tire_stepped_within H)
      | H : tire_stepped _ _ _ ?x |- ?x <= _ => apply (tire_stepped_within H)
      end. }
  split.
  { destruct Hv as [H0 _].
    assert (Hdiv : v / 3600 == v * (1 # 3600)) by (unfold Qdiv; reflexivity).
    rewrite Hdiv. lra. }
  split; [reflexivity|]. split; [reflexivity|]. split.
  - intro Hlo.
    destruct Hbatt as (drain & [Hd1 Hd2] & [->|(drop & [Hp1 Hp2] & ->)]);
      apply clamp_le; lra.
  - intro Hdir. destruct Hspeed as [Hd _]. sim_fields.
    destruct Hd, Hdir; subst; lia.
Qed.

(** The loop, as the passes it makes. *)
Lemma _simulation_loop_trace (n : nat) (w : VehicleSimulator.World) :
  rng_valid (VehicleSimulator.rng w) ->
  VehicleSimulator._running (VehicleSimulator.self w) = true ->
  wp (VehicleSimulator._simulation_loop n) w (fun ts w' =>
    rng_valid (VehicleSimulator.rng w') /\
    List.length ts = n /\
    trace (VehicleSimulator.self w) ts (VehicleSimulator.self w')).
Proof.
  revert w. induction n as [|n IH]; intros w Hrng Hrun;
    cbn [VehicleSimulator._simulation_loop].
  - sim_run. split; [exact Hrng|]. split; [reflexivity | constructor].
  - do 2 sim_step. rewrite Hrun.
    apply wp_bind.
    eapply wp_mono; [apply loop_body_effect, Hrng|].
    intros t1 w1 (Hr1 & Hpass). cbv beta.
    apply wp_bind.
    eapply wp_mono.
    { apply IH; [exact Hr1|].
      destruct (passed_control Hpass) as (R & _). congruence. }
    intros ts w2 (Hr2 & Hlen & Htrace). cbv beta.
    sim_run. split; [exact Hr2|]. split; [simpl; now rewrite Hlen|].
    econstructor; eassumption.
Qed.

Lemma trace_control (s s' : VehicleSimulator.t) (ts : list VehicleTelemetry.t) :
  trace s ts s' ->
  VehicleSimulator._running s' = VehicleSimulator._running s /\
  VehicleSimulator._task s' = VehicleSimulator._task s /\
  VehicleSimulator._tick_count s'
  = (VehicleSimulator._tick_count s + Z.of_nat (List.length ts))%Z /\
  SimulationStatus.start_time (VehicleSimulator.simulation s')
  = SimulationStatus.start_time (VehicleSimulator.simulation s) /\
  SimulationStatus.message (VehicleSimulator.simulation s')
  = SimulationStatus.message (VehicleSimulator.simulation s) /\
  SimulationStatus.running (VehicleSimulator.simulation s')
  = SimulationStatus.running (VehicleSimulator.simulation s) /\
  (ts <> [] ->
   SimulationStatus.tick_count (VehicleSimulator.simulation s')
   = VehicleSimulator._tick_count s').
Proof.
  induction 1 as [s|s s1 s2 t ts Hpass Htrace IH].
  - repeat split; try reflexivity; [simpl; lia | intro H; now contradiction H].
  - destruct (passed_control Hpass) as (R1 & K1 & T1 & S1).
    destruct IH as (R2 & K2 & T2 & A2 & M2 & G2 & Y2).
    rewrite S1 in A2, M2, G2. cbn in A2, M2, G2.
    repeat split; try congruence.
    + rewrite T2, T1. cbn [List.length]. lia.
    + intros _. destruct ts as [|t' ts'].
      * inversion Htrace; subst. rewrite S1. cbn. congruence.
      * apply Y2. discriminate.
Qed.

Lemma trace_inv (s s' : VehicleSimulator.t) (ts : list VehicleTelemetry.t) :
  trace s ts s' -> sim_inv s -> sim_inv s'.
Proof.
  induction 1 as [s|s s1 s2 t ts Hpass _ IH]; intro Hinv; [exact Hinv|].
  apply IH. destruct (passed_physical Hpass) as (Hc & _ & _ & _ & _ & Hd).
  split; [exact Hc | apply Hd, Hinv].
Qed.

Lemma trace_odometer (s s' : VehicleSimulator.t) (ts : list VehicleTelemetry.t) :
  trace s ts s' ->
  VehicleSimulator._odometer s <= VehicleSimulator._odometer s' /\
  Forall (fun t => round1 (VehicleSimulator._odometer s)
                   <= VehicleTelemetry.odometer t) ts /\
  StronglySorted (fun a b => VehicleTelemetry.odometer a
                             <= VehicleTelemetry.odometer b) ts.
Proof.
  induction 1 as [s|s s1 s2 t ts Hpass _ IH].
  - split; [lra|]. split; constructor.
  - destruct (passed_physical Hpass) as (_ & Hle & Hod & _).
    destruct IH as (Hle2 & Hall & Hsorted).
    split; [lra|]. split.
    + constructor; [rewrite Hod; apply round1_mono, Hle|].
      eapply Forall_impl; [|exact Hall]. cbv beta. intros a Ha.
      apply Qle_trans with (round1 (VehicleSimulator._odometer s1));
        [apply round1_mono, Hle | exact Ha].
    + constructor; [exact Hsorted|]. rewrite Hod. exact Hall.
Qed.

Lemma trace_soc (s s' : VehicleSimulator.t) (ts : list VehicleTelemetry.t) :
  trace s ts s' ->
  5 <= VehicleSimulator._battery_soc s ->
  VehicleSimulator._battery_soc s' <= VehicleSimulator._battery_soc s /\
  5 <= VehicleSimulator._battery_soc s' /\
  Forall (fun t => current_soc t
                   <= round1 (VehicleSimulator._battery_soc s)) ts /\
  StronglySorted (fun a b => current_soc b <= current_soc a) ts.
Proof.
  induction 1 as [s|s s1 s2 t ts Hpass _ IH]; intro Hlo.
  - split; [lra|]. split; [exact Hlo|]. split; constructor.
  - destruct (passed_physical Hpass) as (Hc & _ & _ & Hsoc & Hdown & _).
    specialize (Hdown Hlo).
    destruct Hc as (_ & [Hlo1 _] & _).
    destruct (IH Hlo1) as (Hle2 & Hlo2 & Hall & Hsorted).
    split; [lra|]. split; [exact Hlo2|]. split.
    + constructor; [rewrite Hsoc; apply round1_mono, Hdown|].
      eapply Forall_impl; [|exact Hall]. cbv beta. intros a Ha.
      apply Qle_trans with (round1 (VehicleSimulator._battery_soc s1));
        [exact Ha | apply round1_mono, Hdown].
    + constructor; [exact Hsorted|]. rewrite Hsoc. exact Hall.
Qed.

Lemma _simulation_loop_run (n : nat) (w : VehicleSimulator.World) :
  rng_valid (VehicleSimulator.rng w) ->
  VehicleSimulator._running (VehicleSimulator.self w) = true ->
  exists ts w',
    VehicleSimulator._simulation_loop n w = Ok (ts, w') /\
    rng_valid (VehicleSimulator.rng w') /\
    List.length ts = n /\
    trace (VehicleSimulator.self w) ts (VehicleSimulator.self w').
Proof.
  intros Hrng Hrun.
  exact (@wp_run _ _ _ _ _ (@_simulation_loop_trace n w Hrng Hrun)).
Qed.

(** X14. The loop counts its passes: run for [n] passes on a running
    simulator it yields [n] snapshots and leaves the tick count higher by
    [n], the simulator still running; the stored status keeps its start
    time and message and, after a pass at least, shows that tick count. *)
Theorem loop_counts_ticks (n : nat) (w : VehicleSimulator.World) :
  rng_valid (VehicleSimulator.rng w) ->
  VehicleSimulator._running (VehicleSimulator.self w) = true ->
  exists ts w',
    VehicleSimulator._simulation_loop n w = Ok (ts, w') /\
    let s := VehicleSimulator.self w in
    let s' := VehicleSimulator.self w' in
    List.length ts = n /\
    VehicleSimulator._running s' = true /\
    VehicleSimulator._tick_count s'
    = (VehicleSimulator._tick_count s + Z.of_nat n)%Z /\
    SimulationStatus.start_time (VehicleSimulator.simulation s')
    = SimulationStatus.start_time (VehicleSimulator.simulation s) /\
    SimulationStatus.message (VehicleSimulator.simulation s')
    = SimulationStatus.message (VehicleSimulator.simulation s) /\
    ((0 < n)%nat ->
     SimulationStatus.tick_count (VehicleSimulator.simulation s')
     = VehicleSimulator._tick_count s').
Proof.
  intros Hrng Hrun.
  destruct (_simulation_loop_run n w Hrng Hrun)
    as (ts & w' & Hloop & _ & Hlen & Htrace).
  exists ts, w'. split; [exact Hloop|]. cbv zeta.
  destruct (trace_control Htrace) as (R & _ & T & A & M & _ & Y).
  split; [exact Hlen|]. split; [congruence|].
  split; [rewrite T, Hlen; reflexivity|].
  split; [exact A|]. split; [exact M|].
  intro Hpos. apply Y. intro E. rewrite E in Hlen. simpl in Hlen. lia.
Qed.

Lemma loop_counts_ticks_witness :
  exists ts w',
    VehicleSimulator._simulation_loop 5 (world_at 10) = Ok (ts, w') /\
    VehicleSimulator._tick_count (VehicleSimulator.self w') = 15%Z.
Proof.
  destruct (loop_counts_ticks 5 (world_at 10) (world_at_rng_valid 10) eq_refl)
    as (ts & w' & Hloop & _ & _ & Htick & _).
  exists ts, w'. split; [exact Hloop | exact Htick].
Defined.

(** X15. Along a run of the loop the odometer readings never go down:
    each snapshot's odometer is at least that of every snapshot before it. *)
Theorem odometer_never_decreases (n : nat) (w : VehicleSimulator.World) :
  rng_valid (VehicleSimulator.rng w) ->
  VehicleSimulator._running (VehicleSimulator.self w) = true ->
  exists ts w',
    VehicleSimulator._simulation_loop n w = Ok (ts, w') /\
    StronglySorted (fun a b => VehicleTelemetry.odometer a
                               <= VehicleTelemetry.odometer b) ts /\
    VehicleSimulator._odometer (VehicleSimulator.self w)
    <= VehicleSimulator._odometer (VehicleSimulator.self w').
Proof.
  intros Hrng Hrun.
  destruct (_simulation_loop_run n w Hrng Hrun)
    as (ts & w' & Hloop & _ & _ & Htrace).
  exists ts, w'. split; [exact Hloop|].
  destruct (trace_odometer Htrace) as (Hle & _ & Hsorted).
  split; assumption.
Qed.

Lemma odometer_never_decreases_witness :
  exists ts w',
    VehicleSimulator._simulation_loop 100 (world_at 0) = Ok (ts, w') /\
    StronglySorted (fun a b => VehicleTelemetry.odometer a
                               <= VehicleTelemetry.odometer b) ts.
Proof.
  destruct (odometer_never_decreases 100 (world_at 0) (world_at_rng_valid 0)
              eq_refl)
    as (ts & w' & Hloop & Hsorted & _).
  exists ts, w'. split; [exact Hloop | exact Hsorted].
Defined.

(** X16. Along a run of the loop the battery never recharges: from a
    state of charge of at least 5, each snapshot's SoC is at most that of
    every snapshot before it, and the state of charge ends no higher than
    it began. *)
Theorem soc_never_increases (n : nat) (w : VehicleSimulator.World) :
  rng_valid (VehicleSimulator.rng w) ->
  VehicleSimulator._running (VehicleSimulator.self w) = true ->
  5 <= VehicleSimulator._battery_soc (VehicleSimulator.self w) ->
  exists ts w',
    VehicleSimulator._simulation_loop n w = Ok (ts, w') /\
    StronglySorted (fun a b => current_soc b <= current_soc a) ts /\
    VehicleSimulator._battery_soc (VehicleSimulator.self w')
    <= VehicleSimulator._battery_soc (VehicleSimulator.self w).
Proof.
  intros Hrng Hrun Hlo.
  destruct (_simulation_loop_run n w Hrng Hrun)
    as (ts & w' & Hloop & _ & _ & Htrace).
  exists ts, w'. split; [exact Hloop|].
  destruct (trace_soc Htrace Hlo) as (Hle & _ & _ & Hsorted).
  split; assumption.
Qed.

Lemma soc_never_increases_witness :
  exists ts w',
    VehicleSimulator._simulation_loop 100 (world_at 0) = Ok (ts, w') /\
    VehicleSimulator._battery_soc (VehicleSimulator.self w') <= 95.
Proof.
  destruct (soc_never_increases 100 (world_at 0) (world_at_rng_valid 0) eq_refl)
    as (ts & w' & Hloop & _ & Hle).
  - discriminate.
  - exists ts, w'. split; [exact Hloop | exact Hle].
Defined.

(** ** Starting and stopping *)

Lemma same_vehicle_refl (s : VehicleSimulator.t) : same_vehicle s s.
Proof. unfold same_vehicle. repeat split; reflexivity. Qed.

Lemma same_vehicle_inv (s s' : VehicleSimulator.t) :
  same_vehicle s s' -> sim_inv s -> sim_inv s'.
Proof.
  intros (E1 & E2 & E3 & _ & _ & _ & Et) [Hc Hd].
  pose proof (Et FrontLeft) as Efl. pose proof (Et FrontRight) as Efr.
  pose proof (Et RearLeft) as Erl. pose proof (Et RearRight) as Err.
  cbn [tire_of] in *.
  unfold sim_inv, state_clamped in *.
  rewrite E1, E2, E3, Efl, Efr, Erl, Err. tauto.
Qed.

Lemma start_effect (w : VehicleSimulator.World) :
  VehicleSimulator._running (VehicleSimulator.self w) = false ->
  exists status s',
    VehicleSimulator.start w
    = Ok (status,
          VehicleSimulator.mkWorld s' (VehicleSimulator.rng w)
            (snd (pop (VehicleSimulator.clock w)))) /\
    status = {| SimulationStatus.running := true;
                SimulationStatus.tick_count := 0;
                SimulationStatus.start_time := Some (VehicleSimulator.clock w O);
                SimulationStatus.message := "Simulator started" |} /\
    VehicleSimulator.simulation s' = status /\
    VehicleSimulator._running s' = true /\
    VehicleSimulator._task s' = Some VehicleSimulator.simulation_loop_task /\
    VehicleSimulator._tick_count s' = 0%Z /\
    same_vehicle (VehicleSimulator.self w) s'.
Proof.
  destruct w as [me rng clock]. cbn [VehicleSimulator.self]. intro Hrun.
  unfold VehicleSimulator.start, bind, VehicleSimulator.get_self.
  cbn [VehicleSimulator.self]. rewrite Hrun. cbn.
  do 2 eexists. split; [reflexivity|].
  unfold same_vehicle. cbn. repeat split; try reflexivity;
    try (intros []; reflexivity).
Qed.

Lemma stop_effect (w : VehicleSimulator.World) :
  VehicleSimulator._running (VehicleSimulator.self w) = true ->
  exists s',
    VehicleSimulator.stop w
    = Ok (stopped_status (VehicleSimulator._tick_count (VehicleSimulator.self w)),
          VehicleSimulator.mkWorld s' (VehicleSimulator.rng w)
            (VehicleSimulator.clock w)) /\
    VehicleSimulator.simulation s'
    = stopped_status (VehicleSimulator._tick_count (VehicleSimulator.self w)) /\
    VehicleSimulator._running s' = false /\
    VehicleSimulator._task s' = None /\
    VehicleSimulator._tick_count s'
    = VehicleSimulator._tick_count (VehicleSimulator.self w) /\
    same_vehicle (VehicleSimulator.self w) s'.
Proof.
  destruct w as [me rng clock]. cbn [VehicleSimulator.self]. intro Hrun.
  unfold VehicleSimulator.stop, bind, VehicleSimulator.get_self.
  cbn [VehicleSimulator.self]. rewrite Hrun.
  destruct me as [sim [task|] running tc speed soc volt temp fl fr rl rr od dir];
    cbn; eexists; (split; [reflexivity|]);
    unfold same_vehicle; cbn; repeat split; try reflexivity;
    try (intros []; reflexivity).
Qed.

(** X17. A session reports its ticks: starting a stopped simulator,
    letting the loop make [n] passes and stopping returns the status
    "Simulator stopped after n ticks" with tick count [n], not running,
    which is also the stored status; the simulator is left stopped, its
    task released. *)
Theorem session_reports_ticks (n : nat) (w : VehicleSimulator.World) :
  rng_valid (VehicleSimulator.rng w) ->
  VehicleSimulator._running (VehicleSimulator.self w) = false ->
  exists w',
    (VehicleSimulator.start ;;;
     _ <- VehicleSimulator._simulation_loop n ;;
     VehicleSimulator.stop) w
    = Ok (stopped_status (Z.of_nat n), w') /\
    VehicleSimulator.simulation (VehicleSimulator.self w')
    = stopped_status (Z.of_nat n) /\
    VehicleSimulator._running (VehicleSimulator.self w') = false /\
    VehicleSimulator._task (VehicleSimulator.self w') = None /\
    VehicleSimulator._tick_count (VehicleSimulator.self w') = Z.of_nat n.
Proof.
  intros Hrng Hidle.
  destruct (start_effect w Hidle)
    as (status & s1 & Hstart & _ & _ & Hrun1 & _ & Htick1 & _).
  unfold bind at 1. rewrite Hstart.
  set (w1 := VehicleSimulator.mkWorld s1 _ _).
  destruct (_simulation_loop_run n w1 Hrng Hrun1)
    as (ts & w2 & Hloop & _ & Hlen & Htrace).
  unfold bind. rewrite Hloop.
  destruct (trace_control Htrace) as (R & _ & T & _).
  cbn [VehicleSimulator.self w1] in R, T.
  assert (Hrun2 : VehicleSimulator._running (VehicleSimulator.self w2) = true)
    by congruence.
  assert (Htick2 : VehicleSimulator._tick_count (VehicleSimulator.self w2)
                   = Z.of_nat n)
    by (rewrite T, Htick1, Hlen; reflexivity).
  destruct (stop_effect w2 Hrun2) as (s3 & Hstop & Hsim & Hrun3 & Htask3 & Htick3 & _).
  rewrite Htick2 in Hstop, Hsim, Htick3.
  eexists. split; [exact Hstop|]. cbn [VehicleSimulator.self].
  repeat split; assumption.
Qed.

Lemma session_reports_ticks_witness :
  exists w',
    (VehicleSimulator.start ;;;
     _ <- VehicleSimulator._simulation_loop 3 ;;
     VehicleSimulator.stop) world0
    = Ok (stopped_status 3, w').
Proof.
  destruct (session_reports_ticks 3 world0 (world_at_rng_valid 0) eq_refl)
    as (w' & Hrun & _).
  exists w'. exact Hrun.
Defined.

(** X18. Restarting keeps the vehicle: stopping a running simulator and
    starting it again resets the tick count to 0 and records a new start
    time, the clock's next reading, but leaves the speed, its direction,
    the battery, the four tires and the odometer as they were. *)
Theorem restart_keeps_vehicle (w : VehicleSimulator.World) :
  VehicleSimulator._running (VehicleSimulator.self w) = true ->
  exists status w',
    (VehicleSimulator.stop ;;; VehicleSimulator.start) w = Ok (status, w') /\
    status = {| SimulationStatus.running := true;
                SimulationStatus.tick_count := 0;
                SimulationStatus.start_time := Some (VehicleSimulator.clock w O);
                SimulationStatus.message := "Simulator started" |} /\
    VehicleSimulator.simulation (VehicleSimulator.self w') = status /\
    VehicleSimulator._running (VehicleSimulator.self w') = true /\
    VehicleSimulator._tick_count (VehicleSimulator.self w') = 0%Z /\
    same_vehicle (VehicleSimulator.self w) (VehicleSimulator.self w').
Proof.
  intro Hrun.
  destruct (stop_effect w Hrun) as (s1 & Hstop & _ & Hrun1 & _ & _ & Hsame1).
  unfold bind. rewrite Hstop.
  set (w1 := VehicleSimulator.mkWorld s1 _ _).
  destruct (start_effect w1 Hrun1)
    as (status & s2 & Hstart & Hstatus & Hsim & Hrun2 & _ & Htick2 & Hsame2).
  exists status, (VehicleSimulator.mkWorld s2 (VehicleSimulator.rng w1)
                    (snd (pop (VehicleSimulator.clock w1)))).
  split; [exact Hstart|]. split; [exact Hstatus|].
  cbn [VehicleSimulator.self w1] in *.
  split; [exact Hsim|]. split; [exact Hrun2|]. split; [exact Htick2|].
  destruct Hsame1 as (A1 & A2 & A3 & A4 & A5 & A6 & A7).
  destruct Hsame2 as (B1 & B2 & B3 & B4 & B5 & B6 & B7).
  unfold same_vehicle. repeat split; try congruence;
    try (intro pos; rewrite B7; apply A7).
Qed.

Lemma restart_keeps_vehicle_witness :
  exists status w',
    (VehicleSimulator.stop ;;; VehicleSimulator.start) (world_at 42)
    = Ok (status, w') /\
    VehicleSimulator._tick_count (VehicleSimulator.self w') = 0%Z /\
    VehicleSimulator._battery_soc (VehicleSimulator.self w') = 95.
Proof.
  destruct (restart_keeps_vehicle (world_at 42) eq_refl)
    as (status & w' & Hrun & _ & _ & _ & Htick & Hsame).
  exists status, w'. split; [exact Hrun|]. split; [exact Htick|].
  exact (proj1 (proj2 (proj2 Hsame))).
Defined.

Lemma _simulation_loop_idle (n : nat) (w : VehicleSimulator.World) :
  VehicleSimulator._running (VehicleSimulator.self w) = false ->
  VehicleSimulator._simulation_loop n w = Ok ([], w).
Proof.
  intro Hidle. destruct w as [me rng clock]. cbn [VehicleSimulator.self] in Hidle.
  destruct n as [|n]; cbn [VehicleSimulator._simulation_loop]; [reflexivity|].
  unfold bind, VehicleSimulator.get_self. cbn [VehicleSimulator.self].
  rewrite Hidle. reflexivity.
Qed.

(** X19. The simulator keeps its invariant: a fresh simulator has its
    speed within [[0, 140]], its state of charge within [[5, 100]], its
    tires within [[15, 40]] and its direction flag 1 or -1, and [start],
    [stop] and any number of passes of the loop, from any state where
    this holds, return without raising and leave a state where it holds. *)
Theorem invariant_kept :
  (forall simulation0, sim_inv (VehicleSimulator.__init__ simulation0)) /\
  forall w,
    rng_valid (VehicleSimulator.rng w) ->
    sim_inv (VehicleSimulator.self w) ->
    (exists status w',
       VehicleSimulator.start w = Ok (status, w') /\
       sim_inv (VehicleSimulator.self w')) /\
    (exists status w',
       VehicleSimulator.stop w = Ok (status, w') /\
       sim_inv (VehicleSimulator.self w')) /\
    (forall n, exists ts w',
       VehicleSimulator._simulation_loop n w = Ok (ts, w') /\
       sim_inv (VehicleSimulator.self w')).
Proof.
  split.
  { intro simulation0. split; [|now left].
    unfold state_clamped, within. cbn. repeat split; discriminate. }
  intros w Hrng Hinv.
  destruct (VehicleSimulator._running (VehicleSimulator.self w)) eqn:Hrun.
  - split; [|split].
    + destruct w as [me rng clock]. cbn [VehicleSimulator.self] in *.
      unfold VehicleSimulator.start, bind, VehicleSimulator.get_self.
      cbn [VehicleSimulator.self]. rewrite Hrun.
      do 2 eexists. split; [reflexivity | exact Hinv].
    + destruct (stop_effect w Hrun) as (s' & Hstop & _ & _ & _ & _ & Hsame).
      do 2 eexists. split; [exact Hstop|].
      exact (same_vehicle_inv Hsame Hinv).
    + intro n.
      destruct (_simulation_loop_run n w Hrng Hrun)
        as (ts & w' & Hloop & _ & _ & Htrace).
      exists ts, w'. split; [exact Hloop|].
      exact (trace_inv Htrace Hinv).
  - split; [|split].
    + destruct (start_effect w Hrun) as (status & s' & Hstart & _ & _ & _ & _ & _ & Hsame).
      do 2 eexists. split; [exact Hstart|].
      exact (same_vehicle_inv Hsame Hinv).
    + destruct w as [me rng clock]. cbn [VehicleSimulator.self] in *.
      unfold VehicleSimulator.stop, bind, VehicleSimulator.get_self.
      cbn [VehicleSimulator.self]. rewrite Hrun.
      do 2 eexists. split; [reflexivity | exact Hinv].
    + intro n. rewrite (_simulation_loop_idle n w Hrun).
      do 2 eexists. split; [reflexivity | exact Hinv].
Qed.

Lemma invariant_kept_witness :
  exists ts w',
    VehicleSimulator._simulation_loop 200 (world_at 0) = Ok (ts, w') /\
    sim_inv (VehicleSimulator.self w').
Proof.
  exact (proj2 (proj2 (proj2 invariant_kept (world_at 0) (world_at_rng_valid 0)
                         (world_at_inv 0))) 200%nat).
Defined.

(** X20. Shutdown always leaves the simulator stopped: whether it was
    running or not, [shutdown_event] returns without raising and leaves it
    not running, with the tick count and the vehicle as they were; a
    second shutdown changes nothing. *)
Theorem shutdown_stops (w : VehicleSimulator.World) :
  exists w',
    main.shutdown_event w = Ok (tt, w') /\
    VehicleSimulator._running (VehicleSimulator.self w') = false /\
    VehicleSimulator._tick_count (VehicleSimulator.self w')
    = VehicleSimulator._tick_count (VehicleSimulator.self w) /\
    same_vehicle (VehicleSimulator.self w) (VehicleSimulator.self w') /\
    main.shutdown_event w' = Ok (tt, w').
Proof.
  assert (Hidle : forall v,
             VehicleSimulator._running (VehicleSimulator.self v) = false ->
             main.shutdown_event v = Ok (tt, v)).
  { intros [me rng clock] H. cbn [VehicleSimulator.self] in H.
    unfold main.shutdown_event, VehicleSimulator.is_running, bind,
      VehicleSimulator.get_self, ret.
    cbn [VehicleSimulator.self]. rewrite H. reflexivity. }
  destruct (VehicleSimulator._running (VehicleSimulator.self w)) eqn:Hrun.
  - destruct (stop_effect w Hrun) as (s' & Hstop & _ & Hrun' & _ & Htick & Hsame).
    eexists. split.
    + unfold main.shutdown_event, VehicleSimulator.is_running.
      unfold bind at 1 2. unfold VehicleSimulator.get_self, ret at 1.
      rewrite Hrun. unfold bind. rewrite Hstop. reflexivity.
    + cbn [VehicleSimulator.self].
      split; [exact Hrun'|]. split; [exact Htick|]. split; [exact Hsame|].
      apply Hidle. exact Hrun'.
  - exists w. split; [apply Hidle, Hrun|].
    split; [exact Hrun|]. split; [reflexivity|].
    split; [apply same_vehicle_refl | apply Hidle, Hrun].
Qed.

(** ** The traceability mapper *)

Example _signal_to_widget_engine_temp (title : string -> string) :
  title "engine_temp"%string = "Engine_Temp"%string ->
  TraceabilityMapper._signal_to_widget title "engine_temp"
  = "EngineTempCard"%string.
Proof.
  intro H. unfold TraceabilityMapper._signal_to_widget. cbn [dict_get].
  cbn. rewrite H. reflexivity.
Qed.

Example _signal_to_widget_known (title : string -> string) :
  map (TraceabilityMapper._signal_to_widget title)
      ["speed"; "battery_soc"; "tire_pressure"]%string
  = ["SpeedGauge"; "BatteryIndicator"; "TirePressureCard"]%string.
Proof. reflexivity. Qed.

Example add_mapping_tire (title : string -> string) :
  TraceabilityMapper.get_latest
    (TraceabilityMapper.add_mapping title "Track tires"
       [("signals", ["tire_pressure"]); ("services", ["data_logging"])]%string
       TraceabilityMapper.__init__)
  = Some {| TraceabilityMapper.requirement := "Track tires";
            TraceabilityMapper.extracted_signals :=
              [ {| TraceabilityMapper.signal := "tire_pressure";
                   TraceabilityMapper.api_endpoint := "GET /vehicle/tire-pressure";
                   TraceabilityMapper.ui_component := "TirePressureCard";
                   TraceabilityMapper.analytics_rule :=
                     "Auto-generated rule for tire_pressure" |} ];
            TraceabilityMapper.generated_services := ["data_logging"];
            TraceabilityMapper.generated_apis := ["GET /vehicle/tire-pressure"];
            TraceabilityMapper.ui_components := [] |}%string.
Proof. reflexivity. Qed.

Lemma dict_get_absent {V : Type} (d : list (string * V)) (key : string)
  (default : V) :
  absent key d -> dict_get d key default = default.
Proof.
  unfold absent. induction d as [|[k v] d IH]; intro H; simpl; [reflexivity|].
  destruct (String.eqb_spec k key) as [->|Hne].
  - exfalso. apply (H v). now left.
  - apply IH. intros v' Hin. apply (H v'). now right.
Qed.

Lemma get_latest_app (maps : list TraceabilityMapper.Mapping)
  (m : TraceabilityMapper.Mapping) :
  TraceabilityMapper.get_latest (TraceabilityMapper.mk (maps ++ [m])) = Some m.
Proof.
  unfold TraceabilityMapper.get_latest. cbn [TraceabilityMapper._maps].
  destruct maps as [|m0 rest]; [reflexivity|].
  cbn [app]. f_equal. apply last_last.
Qed.

(** The loop of [add_mapping] appends one entry and one API per signal. *)
Lemma add_mapping_loop (title : string -> string) (signals : list string)
  (m : TraceabilityMapper.Mapping) :
  fold_left
    (fun mapping signal =>
       {| TraceabilityMapper.requirement :=
            TraceabilityMapper.requirement mapping;
          TraceabilityMapper.extracted_signals :=
            TraceabilityMapper.extracted_signals mapping ++ [entry_for title signal];
          TraceabilityMapper.generated_services :=
            TraceabilityMapper.generated_services mapping;
          TraceabilityMapper.generated_apis :=
            TraceabilityMapper.generated_apis mapping
            ++ [TraceabilityMapper.api_endpoint (entry_for title signal)];
          TraceabilityMapper.ui_components :=
            TraceabilityMapper.ui_components mapping |})
    signals m
  = {| TraceabilityMapper.requirement := TraceabilityMapper.requirement m;
       TraceabilityMapper.extracted_signals :=
         TraceabilityMapper.extracted_signals m ++ map (entry_for title) signals;
       TraceabilityMapper.generated_services :=
         TraceabilityMapper.generated_services m;
       TraceabilityMapper.generated_apis :=
         TraceabilityMapper.generated_apis m
         ++ map TraceabilityMapper.api_endpoint (map (entry_for title) signals);
       TraceabilityMapper.ui_components := TraceabilityMapper.ui_components m |}.
Proof.
  revert m. induction signals as [|s signals IH]; intro m; cbn [fold_left map].
  - rewrite !app_nil_r. destruct m; reflexivity.
  - rewrite IH. cbn. rewrite <- !app_assoc. reflexivity.
Qed.

Lemma add_mapping_eval (title : string -> string) (requirement : string)
  (blueprint : TraceabilityMapper.Blueprint) (self : TraceabilityMapper.t) :
  TraceabilityMapper.add_mapping title requirement blueprint self
  = TraceabilityMapper.mk
      (TraceabilityMapper._maps self
       ++ [ {| TraceabilityMapper.requirement := requirement;
               TraceabilityMapper.extracted_signals :=
                 map (entry_for title) (dict_get blueprint "signals" []);
               TraceabilityMapper.generated_services :=
                 dict_get blueprint "services" [];
               TraceabilityMapper.generated_apis :=
                 map TraceabilityMapper.api_endpoint
                   (map (entry_for title) (dict_get blueprint "signals" []));
               TraceabilityMapper.ui_components :=
                 dict_get blueprint "ui_components" [] |} ]).
Proof.
  unfold TraceabilityMapper.add_mapping.
  change (fun mapping signal => _)
    with (fun mapping signal =>
       {| TraceabilityMapper.requirement :=
            TraceabilityMapper.requirement mapping;
          TraceabilityMapper.extracted_signals :=
            TraceabilityMapper.extracted_signals mapping ++ [entry_for title signal];
          TraceabilityMapper.generated_services :=
            TraceabilityMapper.generated_services mapping;
          TraceabilityMapper.generated_apis :=
            TraceabilityMapper.generated_apis mapping
            ++ [TraceabilityMapper.api_endpoint (entry_for title signal)];
          TraceabilityMapper.ui_components :=
            TraceabilityMapper.ui_components mapping |}).
  rewrite add_mapping_loop. reflexivity.
Qed.

(** X21. What is added is what is read back: after [add_mapping], the
    latest entry is the one just added and the map is the old map with it
    at the end; the entry carries the requirement, the blueprint's
    services and UI components, one extracted signal per signal of the
    blueprint, in order, each with its endpoint, its widget (through
    [str.title], whatever that returns) and its rule, and as generated
    APIs exactly the endpoints of those signals. *)
Theorem add_mapping_latest (title : string -> string) (requirement : string)
  (blueprint : TraceabilityMapper.Blueprint) (self : TraceabilityMapper.t) :
  exists m,
    let self' := TraceabilityMapper.add_mapping title requirement blueprint self in
    TraceabilityMapper.get_latest self' = Some m /\
    TraceabilityMapper.get_map self' = TraceabilityMapper.get_map self ++ [m] /\
    TraceabilityMapper.requirement m = requirement /\
    map TraceabilityMapper.signal (TraceabilityMapper.extracted_signals m)
    = dict_get blueprint "signals" [] /\
    TraceabilityMapper.extracted_signals m
    = map (entry_for title) (dict_get blueprint "signals" []) /\
    TraceabilityMapper.generated_apis m
    = map TraceabilityMapper.api_endpoint
        (TraceabilityMapper.extracted_signals m) /\
    TraceabilityMapper.generated_services m = dict_get blueprint "services" [] /\
    TraceabilityMapper.ui_components m = dict_get blueprint "ui_components" [].
Proof.
  eexists. cbv zeta. rewrite add_mapping_eval.
  split; [apply get_latest_app|].
  split; [reflexivity|]. split; [reflexivity|].
  cbn [TraceabilityMapper.extracted_signals TraceabilityMapper.generated_apis
       TraceabilityMapper.generated_services TraceabilityMapper.ui_components].
  split.
  - rewrite map_map. cbn [entry_for TraceabilityMapper.signal]. apply map_id.
  - repeat split; reflexivity.
Qed.

Lemma add_all_maps (title : string -> string)
  (adds : list (string * TraceabilityMapper.Blueprint))
  (self : TraceabilityMapper.t) :
  exists added,
    TraceabilityMapper.get_map (add_all title adds self)
    = TraceabilityMapper.get_map self ++ added /\
    map TraceabilityMapper.requirement added = map fst adds.
Proof.
  revert self. induction adds as [|[req bp] adds IH]; intro self.
  - exists []. split; [symmetry; apply app_nil_r | reflexivity].
  - unfold add_all. cbn [fold_left fst snd].
    destruct (IH (TraceabilityMapper.add_mapping title req bp self))
      as (added & Hmap & Hreq).
    unfold add_all in Hmap. rewrite Hmap.
    rewrite add_mapping_eval. cbn [TraceabilityMapper.get_map TraceabilityMapper._maps].
    eexists (_ :: added). split; [rewrite <- app_assoc; reflexivity|].
    cbn [map TraceabilityMapper.requirement fst]. now rewrite Hreq.
Qed.

(** X22. The map only grows: whatever mappings are added to a fresh
    mapper, the traceability route returns the default system mapping
    first, followed by one mapping per call in the order of the calls,
    each with the requirement it was called with; the map is never empty
    and [get_latest] never [None]. *)
Theorem traceability_map_grows (title : string -> string)
  (adds : list (string * TraceabilityMapper.Blueprint)) :
  let mapper := add_all title adds TraceabilityMapper.__init__ in
  exists added,
    get_traceability_map mapper = TraceabilityMapper.default_mapping :: added /\
    map TraceabilityMapper.requirement added = map fst adds /\
    List.length (get_traceability_map mapper) = S (List.length adds) /\
    TraceabilityMapper.get_latest mapper
    = Some (last added TraceabilityMapper.default_mapping).
Proof.
  cbv zeta.
  destruct (add_all_maps title adds TraceabilityMapper.__init__) as (added & Hmap & Hreq).
  exists added. unfold get_traceability_map. rewrite Hmap.
  split; [reflexivity|]. split; [exact Hreq|]. split.
  - cbn. f_equal. rewrite <- (length_map TraceabilityMapper.requirement), Hreq.
    apply length_map.
  - unfold TraceabilityMapper.get_latest.
    unfold TraceabilityMapper.get_map in Hmap. rewrite Hmap. reflexivity.
Qed.

Lemma has_char_app (c : ascii) (s1 s2 : string) :
  has_char c (s1 ++ s2) <-> has_char c s1 \/ has_char c s2.
Proof.
  unfold has_char. induction s1 as [|a s1 IH]; simpl.
  - tauto.
  - rewrite IH. tauto.
Qed.

Lemma str_replace_removes (old : ascii) (new s : string) :
  ~ has_char old new -> ~ has_char old (str_replace old new s).
Proof.
  intro Hnew. induction s as [|c s IH]; simpl.
  - intros [].
  - destruct (Ascii.eqb_spec c old) as [->|Hne].
    + rewrite has_char_app. tauto.
    + unfold has_char in *. simpl. intros [E|H]; [congruence | tauto].
Qed.

Lemma no_underscore_literal (s : string) :
  forallb (fun c => negb (Ascii.eqb c "_")) (list_ascii_of_string s) = true ->
  ~ has_char "_" s.
Proof.
  unfold has_char. intros H Hin.
  rewrite forallb_forall in H. specialize (H _ Hin).
  rewrite Ascii.eqb_refl in H. discriminate H.
Qed.

Lemma _signal_to_widget_no_underscore (title : string -> string)
  (signal : string) :
  ~ has_char "_" (TraceabilityMapper._signal_to_widget title signal).
Proof.
  unfold TraceabilityMapper._signal_to_widget. cbn [dict_get].
  repeat match goal with
         | |- context [if ?c then _ else _] => destruct c
         end; try (apply no_underscore_literal; reflexivity).
  rewrite has_char_app. intros [H|H].
  - revert H. apply str_replace_removes. intros [].
  - revert H. apply no_underscore_literal. reflexivity.
Qed.

(** X23. No underscore reaches an endpoint or a widget name: for every
    signal name, the widget [_signal_to_widget] gives and the API endpoint
    [add_mapping] generates contain no underscore, and the endpoint is
    "GET /vehicle/" followed by the signal with each underscore turned
    into a hyphen; so it is for every extracted signal and generated API
    of a mapping that [add_mapping] adds. *)
Theorem generated_names_have_no_underscore (title : string -> string)
  (requirement : string)
  (blueprint : TraceabilityMapper.Blueprint) (self : TraceabilityMapper.t) :
  (forall signal,
     ~ has_char "_" (TraceabilityMapper._signal_to_widget title signal) /\
     ~ has_char "_" (TraceabilityMapper.api_endpoint (entry_for title signal))) /\
  exists m,
    TraceabilityMapper.get_latest
      (TraceabilityMapper.add_mapping title requirement blueprint self) = Some m /\
    (forall e, In e (TraceabilityMapper.extracted_signals m) ->
               ~ has_char "_" (TraceabilityMapper.api_endpoint e) /\
               ~ has_char "_" (TraceabilityMapper.ui_component e)) /\
    (forall api, In api (TraceabilityMapper.generated_apis m) ->
                 ~ has_char "_" api).
Proof.
  assert (Hone : forall signal,
             ~ has_char "_" (TraceabilityMapper._signal_to_widget title signal) /\
             ~ has_char "_" (TraceabilityMapper.api_endpoint (entry_for title signal))).
  { intro signal. split; [apply _signal_to_widget_no_underscore|].
    cbn [entry_for TraceabilityMapper.api_endpoint].
    rewrite has_char_app. intros [H|H].
    - revert H. apply no_underscore_literal. reflexivity.
    - revert H. apply str_replace_removes.
      apply no_underscore_literal. reflexivity. }
  split; [exact Hone|].
  rewrite add_mapping_eval. eexists. split; [apply get_latest_app|].
  cbn [TraceabilityMapper.extracted_signals TraceabilityMapper.generated_apis].
  split.
  - intros e He. apply in_map_iff in He. destruct He as (signal & <- & _).
    destruct (Hone signal) as [Hw Ha]. split; [exact Ha | exact Hw].
  - intros api Hapi. apply in_map_iff in Hapi. destruct Hapi as (e & <- & He).
    apply in_map_iff in He. destruct He as (signal & <- & _).
    apply (Hone signal).
Qed.

(** X24. A blueprint may lack its entries: without a "signals" entry the
    added mapping has no extracted signal and no generated API, without a
    "services" entry no generated service, without a "ui_components"
    entry no UI component; nothing is raised. *)
Theorem add_mapping_missing_keys (title : string -> string)
  (requirement : string)
  (blueprint : TraceabilityMapper.Blueprint) (self : TraceabilityMapper.t) :
  exists m,
    TraceabilityMapper.get_latest
      (TraceabilityMapper.add_mapping title requirement blueprint self) = Some m /\
    (absent "signals" blueprint ->
     TraceabilityMapper.extracted_signals m = [] /\
     TraceabilityMapper.generated_apis m = []) /\
    (absent "services" blueprint ->
     TraceabilityMapper.generated_services m = []) /\
    (absent "ui_components" blueprint ->
     TraceabilityMapper.ui_components m = []).
Proof.
  rewrite add_mapping_eval. eexists. split; [apply get_latest_app|].
  cbn [TraceabilityMapper.extracted_signals TraceabilityMapper.generated_apis
       TraceabilityMapper.generated_services TraceabilityMapper.ui_components].
  split; [|split]; intro H; rewrite (dict_get_absent _ H); repeat split.
Qed.

Lemma add_mapping_missing_keys_witness :
  exists m,
    TraceabilityMapper.get_latest
      (TraceabilityMapper.add_mapping (fun s => s) "Run diagnostics" []
         TraceabilityMapper.__init__) = Some m /\
    TraceabilityMapper.extracted_signals m = [] /\
    TraceabilityMapper.generated_apis m = [].
Proof.
  destruct (add_mapping_missing_keys (fun s => s) "Run diagnostics" []
              TraceabilityMapper.__init__)
    as (m & Hlatest & Hsignals & _).
  exists m. split; [exact Hlatest|]. apply Hsignals. intros v [].
Defined.
